(** * The validation engine of ultralytics/yolo/engine/validator.py

    A shallow embedding of [BaseValidator.__call__] and of the overridable
    methods of [BaseValidator].  The orchestration code is written in a small
    state-and-exception monad; the collaborators it calls (model backend,
    dataset resolution, trainer, the methods a task validator overrides) are
    fields of two records, so that every statement holds for all of them. *)

From stdpp Require Import gmap strings list.
From Stdlib Require Import Floats Uint63.
Set Warnings "-inexact-float".

Set Implicit Arguments.
Unset Strict Implicit.

(** ** Python values the orchestrator looks at *)

(** The exceptions [__call__] can meet: its own [assert], the attribute
    lookup of line 78, [len(None)], the division of line 118,
    [get_dataloader] of the base class, and whatever a collaborator raises. *)
Inductive Exn : Type :=
| AssertionError (msg : string)
| AttributeError (msg : string)
| TypeError (msg : string)
| ZeroDivisionError
| NotImplementedError (msg : string)
| StageError (tag : string).

Inductive Res (A : Type) : Type :=
| Ok (a : A)
| Raise (e : Exn).
Arguments Ok {A} a.
Arguments Raise {A} e.

(** [torch.device]: only [.type] is read. *)
Record Device : Type := { d_type : string }.

(** The dataset descriptor returned by [check_dataset*]: a [dict] from split
    names to paths. *)
Abbreviation DataDict := (gmap string string).

(** [self.args], restricted to the options [__call__] reads or writes. *)
Record Args : Type := {
  a_device : string;
  a_batch_size : Z;
  a_half : bool;
  a_dnn : bool;
  a_imgsz : Z;
  a_data : string;
  a_plots : bool;
  a_save_json : bool
}.

(** Truth value of a [str]: the empty string is falsy. *)
Definition str_truthy (s : string) : bool :=
  match s with EmptyString => false | String _ _ => true end.

(** [s.endswith(suf)] *)
Definition endswith (s suf : string) : bool :=
  let n := String.length s in
  let k := String.length suf in
  if (k <=? n)%nat then bool_decide (String.substring (n - k) k s = suf) else false.

(** [pathlib]: a path as its components; [p / name]. *)
Definition Path : Type := list string.
Definition path_div (p : Path) (name : string) : Path := p ++ [name].

(** Python's [float] is the IEEE 754 binary64 format, as [PrimFloat.float]
    is.  [float(n)] for the [int] a [len] gives: a [len] is below [2^63],
    where the conversion is the correctly rounded one of a machine
    integer. *)
Definition float_of_nat (n : nat) : float :=
  PrimFloat.of_uint63 (Uint63.of_Z (Z.of_nat n)).



Declare Scope engine_scope.
Delimit Scope engine_scope with engine.

Section Engine.

(** Opaque data of the collaborators: batches, the input tensor of a batch,
    raw and decoded predictions, model handles, loss vectors, prediction
    records of the JSON export, values of a stats map, and the state the
    task validator and the collaborators keep between calls. *)
Context {Batch Img Preds Model LossVec J V U : Type}.

Abbreviation StatsMap := (gmap string V).

(** The dataloader collaborator: the batches it yields, in order, and the
    size of the dataset behind it.  [len(dataloader)] is the batch count. *)
Record DataLoader : Type := {
  batches : list Batch;
  dataset_len : nat
}.

Definition len_dataloader (d : DataLoader) : nat := length (batches d).

(** Truth value of a dataloader object: it defines [__len__]. *)
Definition dl_truthy (d : DataLoader) : bool := negb (len_dataloader d =? 0)%nat.

(** What [AutoBackend(...)] exposes. *)
Record Backend : Type := {
  bk_callable : Model;
  stride : Z;
  pt : bool;
  jit : bool;
  engine : bool;
  bk_batch_size : Z;
  bk_device : Device
}.

(** The trainer handle, as far as [__call__] reads it. *)
Record Trainer : Type := {
  t_device : Device;
  t_data : DataDict;
  t_ema : option Model;
  t_model : Model;
  t_loss_items : LossVec;
  t_epoch : Z;
  t_epochs : Z
}.

(** The fields of [self] that [__init__] creates and [__call__] assigns. *)
Record Self : Type := {
  dataloader : option DataLoader;
  args : Args;
  model : option Model;
  data : option DataDict;
  device : option Device;
  batch_i : option nat;
  training : bool;
  speed : option (float * float * float * float);
  loss : option LossVec;
  save_dir : Path
}.

(** What the overridable methods and the collaborators may read and change:
    [self.jdict] (filled by [update_metrics] of a task validator), their own
    state, and the autograd switch of the process
    ([torch.is_grad_enabled], [torch.set_grad_enabled]). *)
Record HState : Type := {
  jdict : option (list J);
  ext : U;
  grad : bool
}.

(** Truth value of [self.jdict]: [None] and [[]] are falsy. *)
Definition jdict_truthy (j : option (list J)) : bool :=
  match j with
  | Some (_ :: _) => true
  | _ => false
  end.

Definition jdict_records (j : option (list J)) : list J := default [] j.

(** A method or collaborator call: it reads [self], may update [HState],
    and returns or raises. *)
Definition Hook (A : Type) : Type := Self -> HState -> Res A * HState.

(** ** The trace of calls

    A call of a collaborator or of an overridable method is written to the
    trace when it returns, with its arguments and, where the orchestrator
    uses it, its result; log lines and file writes are written when they
    happen.  [EEvalJson] is written when [eval_json] is called. *)
Inductive Event : Type :=
| ESelectDevice (dev : string) (bs : Z) (d : Device)
| EAutoBackend (m : Model) (d : Device) (dnn fp16 : bool) (b : Backend)
| ECheckImgsz (imgsz s : Z) (r : Z)
| ELogForceBatch (imgsz : Z)
| ECheckDatasetYaml (loc : string) (d : DataDict)
| ECheckDataset (loc : string) (d : DataDict)
| EGetDataloader (path : string) (bs : Z) (d : DataLoader)
| EModelHalf (m : Model)
| EModelFloat (m : Model)
| EModelEval (m : Model)
| EGetDesc
| EInitMetrics (m : Model)
| EPreprocess (b b' : Batch)
| EInfer (x : Img) (p : Preds)
| ELoss (p : Preds) (b : Batch) (l : LossVec)
| EPostprocess (p p' : Preds)
| EUpdateMetrics (p : Preds) (b : Batch)
| EPlotValSamples (b : Batch) (ni : nat)
| EPlotPredictions (b : Batch) (p : Preds) (ni : nat)
| EGetStats (s : StatsMap)
| ECheckStats (s : StatsMap)
| EPrintResults
| ELabelLossItems (l : LossVec) (prefix : string) (r : StatsMap)
| ELogSpeed (sp : float * float * float * float)
| EOpenWrite (p : Path)
| ELogSaving (p : Path)
| EJsonDump (records : list J) (p : Path)
| EEvalJson (s : StatsMap).

(** The whole state a call runs in. *)
Record World : Type := {
  self : Self;
  hst : HState;
  trace : list Event
}.

(** The autograd switch of the process. *)
Definition grad_enabled (w : World) : bool := grad (hst w).

(** ** The monad *)
Definition M (A : Type) : Type := World -> Res A * World.

Definition ret {A} (a : A) : M A := fun w => (Ok a, w).

Definition raise {A} (e : Exn) : M A := fun w => (Raise e, w).

Definition bind {A B} (c : M A) (k : A -> M B) : M B :=
  fun w =>
    match c w with
    | (Ok a, w') => k a w'
    | (Raise e, w') => (Raise e, w')
    end.

Notation "'let*' x ':=' c 'in' k" := (bind c (fun x => k))
  (at level 10, x name, c at level 100, k at level 200) : engine_scope.
Notation "'let*' ' pat ':=' c 'in' k" := (bind c (fun x => match x with pat => k end))
  (at level 10, pat pattern, c at level 100, k at level 200) : engine_scope.
Notation "c ';;' k" := (bind c (fun _ => k))
  (at level 100, k at level 200, right associativity) : engine_scope.
Local Open Scope engine_scope.

(** ** Field updates *)
Definition set_half (v : bool) (a : Args) : Args :=
  {| a_device := a_device a; a_batch_size := a_batch_size a; a_half := v;
     a_dnn := a_dnn a; a_imgsz := a_imgsz a; a_data := a_data a;
     a_plots := a_plots a; a_save_json := a_save_json a |}.

Definition set_batch_size (v : Z) (a : Args) : Args :=
  {| a_device := a_device a; a_batch_size := v; a_half := a_half a;
     a_dnn := a_dnn a; a_imgsz := a_imgsz a; a_data := a_data a;
     a_plots := a_plots a; a_save_json := a_save_json a |}.

Definition set_plots (v : bool) (a : Args) : Args :=
  {| a_device := a_device a; a_batch_size := a_batch_size a; a_half := a_half a;
     a_dnn := a_dnn a; a_imgsz := a_imgsz a; a_data := a_data a;
     a_plots := v; a_save_json := a_save_json a |}.

Definition set_dataloader (v : option DataLoader) (s : Self) : Self :=
  {| dataloader := v; args := args s; model := model s; data := data s;
     device := device s; batch_i := batch_i s; training := training s;
     speed := speed s; loss := loss s; save_dir := save_dir s |}.

Definition set_args (v : Args) (s : Self) : Self :=
  {| dataloader := dataloader s; args := v; model := model s; data := data s;
     device := device s; batch_i := batch_i s; training := training s;
     speed := speed s; loss := loss s; save_dir := save_dir s |}.

Definition set_model (v : option Model) (s : Self) : Self :=
  {| dataloader := dataloader s; args := args s; model := v; data := data s;
     device := device s; batch_i := batch_i s; training := training s;
     speed := speed s; loss := loss s; save_dir := save_dir s |}.

Definition set_data (v : option DataDict) (s : Self) : Self :=
  {| dataloader := dataloader s; args := args s; model := model s; data := v;
     device := device s; batch_i := batch_i s; training := training s;
     speed := speed s; loss := loss s; save_dir := save_dir s |}.

Definition set_device (v : option Device) (s : Self) : Self :=
  {| dataloader := dataloader s; args := args s; model := model s; data := data s;
     device := v; batch_i := batch_i s; training := training s;
     speed := speed s; loss := loss s; save_dir := save_dir s |}.

Definition set_batch_i (v : option nat) (s : Self) : Self :=
  {| dataloader := dataloader s; args := args s; model := model s; data := data s;
     device := device s; batch_i := v; training := training s;
     speed := speed s; loss := loss s; save_dir := save_dir s |}.

Definition set_training (v : bool) (s : Self) : Self :=
  {| dataloader := dataloader s; args := args s; model := model s; data := data s;
     device := device s; batch_i := batch_i s; training := v;
     speed := speed s; loss := loss s; save_dir := save_dir s |}.

Definition set_speed (v : option (float * float * float * float)) (s : Self) : Self :=
  {| dataloader := dataloader s; args := args s; model := model s; data := data s;
     device := device s; batch_i := batch_i s; training := training s;
     speed := v; loss := loss s; save_dir := save_dir s |}.

Definition set_loss (v : option LossVec) (s : Self) : Self :=
  {| dataloader := dataloader s; args := args s; model := model s; data := data s;
     device := device s; batch_i := batch_i s; training := training s;
     speed := speed s; loss := v; save_dir := save_dir s |}.

Definition set_jdict (v : option (list J)) (h : HState) : HState :=
  {| jdict := v; ext := ext h; grad := grad h |}.

Definition set_grad (v : bool) (h : HState) : HState :=
  {| jdict := jdict h; ext := ext h; grad := v |}.

(** ** Primitive computations *)
Definition get_self : M Self := fun w => (Ok (self w), w).

Definition get_hst : M HState := fun w => (Ok (hst w), w).

Definition modify_self (f : Self -> Self) : M unit :=
  fun w => (Ok tt, {| self := f (self w); hst := hst w; trace := trace w |}).

Definition modify_hst (f : HState -> HState) : M unit :=
  fun w => (Ok tt, {| self := self w; hst := f (hst w); trace := trace w |}).

Definition emit (e : Event) : M unit :=
  fun w => (Ok tt, {| self := self w; hst := hst w; trace := trace w ++ [e] |}).

Definition call_hook {A} (h : Hook A) : M A :=
  fun w =>
    let '(r, h') := h (self w) (hst w) in
    (r, {| self := self w; hst := h'; trace := trace w |}).

Definition modify_args (f : Args -> Args) : M unit :=
  modify_self (fun s => set_args (f (args s)) s).

(** ** The overridable methods of [BaseValidator] *)
Record Methods : Type := {
  get_dataloader : string -> Z -> Hook DataLoader;
  preprocess : Batch -> Hook Batch;
  postprocess : Preds -> Hook Preds;
  init_metrics : Model -> Hook unit;
  update_metrics : Preds -> Batch -> Hook unit;
  get_stats : Hook StatsMap;
  check_stats : StatsMap -> Hook unit;
  print_results : Hook unit;
  get_desc : Hook unit;
  plot_val_samples : Batch -> nat -> Hook unit;
  plot_predictions : Batch -> Preds -> nat -> Hook unit;
  pred_to_json : Preds -> Batch -> Hook unit;
  eval_json : StatsMap -> Hook (option StatsMap)
}.

Definition hook_ret {A} (a : A) : Hook A := fun _ h => (Ok a, h).
Definition hook_raise {A} (e : Exn) : Hook A := fun _ h => (Raise e, h).

(** The bodies of lines 132-174.  A method whose body is [pass] returns
    [None]: for [eval_json], whose result the caller keeps, that is the
    [None] of [option StatsMap]. *)
Definition base_methods : Methods := {|
  get_dataloader := fun _ _ =>
    hook_raise (NotImplementedError "get_dataloader function not implemented for this validator");
  preprocess := fun batch => hook_ret batch;
  postprocess := fun preds => hook_ret preds;
  init_metrics := fun _ => hook_ret tt;
  update_metrics := fun _ _ => hook_ret tt;
  get_stats := hook_ret ∅;
  check_stats := fun _ => hook_ret tt;
  print_results := hook_ret tt;
  get_desc := hook_ret tt;
  plot_val_samples := fun _ _ => hook_ret tt;
  plot_predictions := fun _ _ _ => hook_ret tt;
  pred_to_json := fun _ _ => hook_ret tt;
  eval_json := fun _ => hook_ret None
|}.

(** ** The collaborators *)
Record Env : Type := {
  img : Batch -> Img;
  select_device : string -> Z -> Hook Device;
  AutoBackend : Model -> Device -> bool -> bool -> Hook Backend;
  check_imgsz : Z -> Z -> Hook Z;
  check_dataset_yaml : string -> Hook DataDict;
  check_dataset : string -> Hook DataDict;
  forward : Model -> Img -> Hook Preds;
  de_parallel : Model -> Model;
  criterion : Trainer -> Preds -> Batch -> Hook LossVec;
  label_loss_items : Trainer -> LossVec -> string -> Hook StatsMap;
  zeros_like : LossVec -> LossVec;
  tensor_add : LossVec -> LossVec -> LossVec;
  tensor_cpu : LossVec -> LossVec;
  tensor_div : LossVec -> nat -> LossVec;
  wall_clock : U -> float
}.


Section Call.

Variable ms : Methods.
Variable env : Env.

(** [r = h(...)], with the completed call written to the trace. *)
Definition call_log {A} (h : Hook A) (ev : A -> Event) : M A :=
  let* r := call_hook h in
  emit (ev r) ;;
  ret r.

(** ** Timing accumulators *)

(** Modelled from the spec: [Profile] of [ultralytics.yolo.utils.ops] is not
    part of the sources at hand.  The spec describes four independent
    elapsed-time accumulators, one per pipeline stage, each wrapping its
    stage; so an accumulator starts at [0.0] and a [with dt[i]:] block adds
    the wall-clock time that passed while its body ran: the reading of the
    clock when the block is left minus the reading when it was entered, in
    seconds, as doubles. *)
Inductive Stage : Type := SPre | SInf | SLoss | SPost.

Definition Timers : Type := (float * float * float * float)%type.

Definition Profile4 : Timers := (0, 0, 0, 0)%float.

Definition dt_add (i : Stage) (d : float) (dt : Timers) : Timers :=
  let '(t0, t1, t2, t3) := dt in
  match i with
  | SPre => (t0 + d, t1, t2, t3)
  | SInf => (t0, t1 + d, t2, t3)
  | SLoss => (t0, t1, t2 + d, t3)
  | SPost => (t0, t1, t2, t3 + d)
  end%float.

Definition with_profile {A} (i : Stage) (dt : Timers) (c : M A) : M (A * Timers) :=
  fun w =>
    let start := wall_clock env (ext (hst w)) in
    match c w with
    | (Ok a, w') => (Ok (a, dt_add i (wall_clock env (ext (hst w')) - start)%float dt), w')
    | (Raise e, w') => (Raise e, w')
    end.

(** ** RESOLVE, lines 46-78 *)

(** Lines 48-55: the trainer was passed. *)
Definition resolve_embedded (trainer : Trainer) : M Model :=
  modify_self (set_device (Some (t_device trainer))) ;;
  modify_self (set_data (Some (t_data trainer))) ;;
  let mdl := default (t_model trainer) (t_ema trainer) in
  modify_args (fun a =>
    set_half (a_half a && negb (bool_decide (d_type (t_device trainer) = "cpu"))) a) ;;
  let* s := get_self in
  (if a_half (args s) then emit (EModelHalf mdl) else emit (EModelFloat mdl)) ;;
  modify_self (set_model (Some mdl)) ;;
  modify_self (set_loss (Some (zeros_like env (t_loss_items trainer)))) ;;
  modify_args (set_plots (bool_decide (t_epoch trainer = t_epochs trainer - 1)%Z)) ;;
  ret mdl.

(** Line 78, the argument [data.get("val") or data.set("test")]: a [dict]
    has no attribute [set]. *)
Definition val_or_test (d : DataDict) : M string :=
  match d !! "val" with
  | Some p =>
      if str_truthy p then ret p
      else raise (AttributeError "'dict' object has no attribute 'set'")
  | None => raise (AttributeError "'dict' object has no attribute 'set'")
  end.

(** Lines 57-78: no trainer. *)
Definition resolve_standalone (model_arg : option Model) : M Model :=
  match model_arg with
  | None => raise (AssertionError "Either trainer or model is needed for validation")
  | Some m =>
      let* s := get_self in
      let* dev := call_log (select_device env (a_device (args s)) (a_batch_size (args s)))
                           (ESelectDevice (a_device (args s)) (a_batch_size (args s))) in
      modify_self (set_device (Some dev)) ;;
      modify_args (fun a => set_half (a_half a && negb (bool_decide (d_type dev = "cpu"))) a) ;;
      let* s := get_self in
      let* bk := call_log (AutoBackend env m dev (a_dnn (args s)) (a_half (args s)))
                          (EAutoBackend m dev (a_dnn (args s)) (a_half (args s))) in
      let mdl := bk_callable bk in
      modify_self (set_model (Some mdl)) ;;
      let* imgsz := call_log (check_imgsz env (a_imgsz (args s)) (stride bk))
                             (ECheckImgsz (a_imgsz (args s)) (stride bk)) in
      (if engine bk then
         modify_args (set_batch_size (bk_batch_size bk))
       else
         modify_self (set_device (Some (bk_device bk))) ;;
         if negb (pt bk) && negb (jit bk) then
           modify_args (set_batch_size 1) ;;
           emit (ELogForceBatch imgsz)
         else ret tt) ;;
      let* s := get_self in
      let* d := (if endswith (a_data (args s)) ".yaml"
                 then call_log (check_dataset_yaml env (a_data (args s)))
                               (ECheckDatasetYaml (a_data (args s)))
                 else call_log (check_dataset env (a_data (args s)))
                               (ECheckDataset (a_data (args s)))) in
      let* dl := (match dataloader s with
                  | Some dl0 =>
                      if dl_truthy dl0 then ret dl0
                      else let* path := val_or_test d in
                           call_log (get_dataloader ms path (a_batch_size (args s)))
                                    (EGetDataloader path (a_batch_size (args s)))
                  | None =>
                      let* path := val_or_test d in
                      call_log (get_dataloader ms path (a_batch_size (args s)))
                               (EGetDataloader path (a_batch_size (args s)))
                  end) in
      modify_self (set_dataloader (Some dl)) ;;
      ret mdl
  end.

(** Lines 46-78. *)
Definition resolve (trainer : option Trainer) (model_arg : option Model) : M Model :=
  match trainer with
  | Some tr => modify_self (set_training true) ;; resolve_embedded tr
  | None => modify_self (set_training false) ;; resolve_standalone model_arg
  end.

(** [self.dataloader] where the code takes its [len] or iterates it. *)
Definition the_dataloader : M DataLoader :=
  let* s := get_self in
  match dataloader s with
  | Some d => ret d
  | None => raise (TypeError "object of type 'NoneType' has no len()")
  end.

(** ** SETUP, lines 80-90 *)
Definition setup (mdl : Model) : M DataLoader :=
  emit (EModelEval mdl) ;;
  let* d := the_dataloader in
  call_log (get_desc ms) (fun _ => EGetDesc) ;;
  call_log (init_metrics ms (de_parallel env mdl)) (fun _ => EInitMetrics (de_parallel env mdl)) ;;
  modify_hst (set_jdict (Some [])) ;;
  ret d.

(** ** The batch pipeline, lines 91-113 *)

(** Line 104, [self.loss += trainer.criterion(preds, batch)[1]]. *)
Definition accumulate_loss (trainer : option Trainer) (preds : Preds) (batch : Batch) : M unit :=
  match trainer with
  | Some tr =>
      let* l := call_log (criterion env tr preds batch) (ELoss preds batch) in
      let* s := get_self in
      match loss s with
      | Some acc => modify_self (set_loss (Some (tensor_add env acc l)))
      | None => raise (AttributeError "'BaseValidator' object has no attribute 'loss'")
      end
  | None => raise (AttributeError "'NoneType' object has no attribute 'criterion'")
  end.

(** Lines 111-113. *)
Definition plot_samples (batch : Batch) (preds : Preds) (i : nat) : M unit :=
  let* s := get_self in
  if a_plots (args s) && (i <? 3)%nat then
    call_log (plot_val_samples ms batch i) (fun _ => EPlotValSamples batch i) ;;
    call_log (plot_predictions ms batch preds i) (fun _ => EPlotPredictions batch preds i) ;;
    ret tt
  else ret tt.

(** One iteration of the loop of line 91. *)
Definition run_batch (trainer : option Trainer) (mdl : Model)
    (i : nat) (batch : Batch) (dt : Timers) : M Timers :=
  modify_self (set_batch_i (Some i)) ;;
  let* '(batch', dt) :=
    with_profile SPre dt (call_log (preprocess ms batch) (EPreprocess batch)) in
  let* '(preds, dt) :=
    with_profile SInf dt
      (call_log (forward env mdl (img env batch')) (EInfer (img env batch'))) in
  let* '(_, dt) :=
    with_profile SLoss dt
      (let* s := get_self in
       if training s then accumulate_loss trainer preds batch' else ret tt) in
  let* '(preds', dt) :=
    with_profile SPost dt (call_log (postprocess ms preds) (EPostprocess preds)) in
  call_log (update_metrics ms preds' batch') (fun _ => EUpdateMetrics preds' batch') ;;
  plot_samples batch' preds' i ;;
  ret dt.

(** [for batch_i, batch in enumerate(bar)], from index [i]. *)
Fixpoint batch_loop (trainer : option Trainer) (mdl : Model)
    (i : nat) (bs : list Batch) (dt : Timers) : M Timers :=
  match bs with
  | [] => ret dt
  | batch :: rest =>
      let* dt' := run_batch trainer mdl i batch dt in
      batch_loop trainer mdl (S i) rest dt'
  end.

(** ** AGGREGATE, lines 115-118 *)

(** [x.t / n * 1E3] on doubles, the [int] [n] converted first: a zero
    divisor raises. *)
Definition per_image_ms (x : float) (n : nat) : Res float :=
  if (n =? 0)%nat then Raise ZeroDivisionError
  else Ok (x / float_of_nat n * 1000)%float.

(** Line 118, the tuple built from the four accumulators in order. *)
Definition compute_speed (dt : Timers) (n : nat) : Res (float * float * float * float) :=
  let '(t0, t1, t2, t3) := dt in
  match per_image_ms t0 n with
  | Raise e => Raise e
  | Ok s0 =>
      match per_image_ms t1 n with
      | Raise e => Raise e
      | Ok s1 =>
          match per_image_ms t2 n with
          | Raise e => Raise e
          | Ok s2 =>
              match per_image_ms t3 n with
              | Raise e => Raise e
              | Ok s3 => Ok (s0, s1, s2, s3)
              end
          end
      end
  end.

Definition lift_res {A} (r : Res A) : M A :=
  match r with
  | Ok a => ret a
  | Raise e => raise e
  end.

Definition aggregate (dt : Timers) : M StatsMap :=
  let* stats := call_log (get_stats ms) EGetStats in
  call_log (check_stats ms stats) (fun _ => ECheckStats stats) ;;
  call_log (print_results ms) (fun _ => EPrintResults) ;;
  let* d := the_dataloader in
  let* sp := lift_res (compute_speed dt (dataset_len d)) in
  modify_self (set_speed (Some sp)) ;;
  ret stats.

(** ** REPORT, lines 119-130 *)

(** Lines 120-121. [{**stats, **losses}]: on a common key the loss term
    wins, which is the left-biased union [losses ∪ stats]. *)
Definition report_embedded (trainer : option Trainer) (mdl : Model)
    (stats : StatsMap) : M (option StatsMap) :=
  emit (EModelFloat mdl) ;;
  match trainer with
  | Some tr =>
      let* s := get_self in
      match loss s with
      | Some acc =>
          let* d := the_dataloader in
          let avg := tensor_div env (tensor_cpu env acc) (len_dataloader d) in
          let* losses := call_log (label_loss_items env tr avg "val")
                                  (ELabelLossItems avg "val") in
          ret (Some (losses ∪ stats))
      | None => raise (AttributeError "'BaseValidator' object has no attribute 'loss'")
      end
  | None => raise (AttributeError "'NoneType' object has no attribute 'label_loss_items'")
  end.

(** Lines 123-130. *)
Definition report_standalone (stats : StatsMap) : M (option StatsMap) :=
  let* s := get_self in
  match speed s with
  | Some sp => emit (ELogSpeed sp)
  | None => raise (TypeError "not enough arguments for format string")
  end ;;
  let* h := get_hst in
  if a_save_json (args s) && jdict_truthy (jdict h) then
    let f := path_div (save_dir s) "predictions.json" in
    emit (EOpenWrite f) ;;
    emit (ELogSaving f) ;;
    emit (EJsonDump (jdict_records (jdict h)) f) ;;
    emit (EEvalJson stats) ;;
    call_hook (eval_json ms stats)
  else ret (Some stats).

Definition report (trainer : option Trainer) (mdl : Model)
    (stats : StatsMap) : M (option StatsMap) :=
  let* s := get_self in
  if training s then report_embedded trainer mdl stats
  else report_standalone stats.

(** ** [__call__], lines 41-130, without its decorator *)
Definition call_body (trainer : option Trainer) (model_arg : option Model)
    : M (option StatsMap) :=
  let* mdl := resolve trainer model_arg in
  let* d := setup mdl in
  let* dt := batch_loop trainer mdl 0 (batches d) Profile4 in
  let* stats := aggregate dt in
  report trainer mdl stats.

(** ** The decorator of line 40 *)

(** Modelled from the spec: [smart_inference_mode] of
    [ultralytics.yolo.utils.torch_utils] is not part of the sources at hand.
    The spec describes a scoped inference context that disables gradient
    bookkeeping for the duration of the call and is released unconditionally
    on exit, including on exception: the switch is saved and turned off, the
    body runs, and the saved switch is put back whatever the body did and
    whatever the methods and collaborators it called did to the switch. *)
Definition with_grad (g : bool) (w : World) : World :=
  {| self := self w; hst := set_grad g (hst w); trace := trace w |}.

Definition smart_inference_mode {A} (fn : M A) : M A :=
  fun w =>
    let saved := grad_enabled w in
    let '(r, w') := fn (with_grad false w) in
    (r, with_grad saved w').

(** [BaseValidator.__call__] *)
Definition call (trainer : option Trainer) (model_arg : option Model)
    : M (option StatsMap) :=
  smart_inference_mode (call_body trainer model_arg).

(** ** Reading a run *)

Definition set_trace (t : list Event) (w : World) : World :=
  {| self := self w; hst := hst w; trace := t |}.

Definition with_self (s : Self) (w : World) : World :=
  {| self := s; hst := hst w; trace := trace w |}.

Definition with_hst (h : HState) (w : World) : World :=
  {| self := self w; hst := h; trace := trace w |}.

Definition logged (e : Event) (w : World) : World :=
  set_trace (trace w ++ [e]) w.

(** ** What the theorems speak about *)

(** The events one batch leaves behind when its pipeline runs to the end:
    [b'] is the preprocessed batch, [p] the raw and [p'] the decoded
    predictions, [ls] the events of the loss stage. *)
Definition stage_events (plots : bool) (i : nat) (b b' : Batch)
    (p p' : Preds) (ls : list Event) : list Event :=
  [EPreprocess b b'; EInfer (img env b') p]
  ++ ls
  ++ [EPostprocess p p'; EUpdateMetrics p' b']
  ++ (if plots && (i <? 3)%nat
      then [EPlotValSamples b' i; EPlotPredictions b' p' i] else []).

(** The loss stage calls the criterion once if embedded, and nothing
    otherwise. *)
Definition loss_stage (embedded : bool) (p : Preds) (b' : Batch)
    (ls : list Event) : Prop :=
  if embedded then exists l, ls = [ELoss p b' l] else ls = [].

Definition pipeline_chunk (embedded plots : bool) (ib : nat * Batch)
    (evs : list Event) : Prop :=
  exists b' p p' ls,
    loss_stage embedded p b' ls /\
    evs = stage_events plots ib.1 ib.2 b' p p' ls.

(** [enumerate(bs)], counting from [i]. *)
Definition enumerate_from (i : nat) (bs : list Batch) : list (nat * Batch) :=
  zip (seq i (length bs)) bs.

Definition is_update_metrics (e : Event) : bool :=
  match e with EUpdateMetrics _ _ => true | _ => false end.

Definition is_pipeline_event (e : Event) : bool :=
  match e with
  | EPreprocess _ _ | EInfer _ _ | ELoss _ _ _ | EPostprocess _ _
  | EUpdateMetrics _ _ | EPlotValSamples _ _ | EPlotPredictions _ _ _ => true
  | _ => false
  end.

Definition is_loss_event (e : Event) : bool :=
  match e with ELoss _ _ _ | ELabelLossItems _ _ _ => true | _ => false end.

Definition is_json_dump (e : Event) : bool :=
  match e with EJsonDump _ _ => true | _ => false end.

Definition is_eval_json (e : Event) : bool :=
  match e with EEvalJson _ => true | _ => false end.

Definition is_get_stats (e : Event) : bool :=
  match e with EGetStats _ => true | _ => false end.

Definition is_get_dataloader (e : Event) : bool :=
  match e with EGetDataloader _ _ _ => true | _ => false end.

Definition is_standalone_resolution (e : Event) : bool :=
  match e with
  | ESelectDevice _ _ _ | EAutoBackend _ _ _ _ _ | ECheckImgsz _ _ _
  | ELogForceBatch _ | ECheckDatasetYaml _ _ | ECheckDataset _ _
  | EGetDataloader _ _ _ => true
  | _ => false
  end.

(** The events of RESOLVE and SETUP. *)
Definition is_prelude_event (e : Event) : bool :=
  match e with
  | EModelHalf _ | EModelFloat _ | EModelEval _ | EGetDesc | EInitMetrics _ => true
  | _ => is_standalone_resolution e
  end.

Definition is_embedded (trainer : option Trainer) : bool :=
  match trainer with Some _ => true | None => false end.

Definition is_force_batch (e : Event) : bool :=
  match e with ELogForceBatch _ => true | _ => false end.

(** What lines 64-71 log and leave in [self.args.batch_size], by backend. *)
Definition force_batch_events (bk : Backend) (imgsz : Z) : list Event :=
  if engine bk then []
  else if negb (pt bk) && negb (jit bk) then [ELogForceBatch imgsz] else [].

Definition resolved_batch_size (bk : Backend) (configured : Z) : Z :=
  if engine bk then bk_batch_size bk
  else if negb (pt bk) && negb (jit bk) then 1%Z else configured.

(** The loss terms the criterion returned, in order. *)
Definition loss_terms (evs : list Event) : list LossVec :=
  omap (fun e => match e with ELoss _ _ l => Some l | _ => None end) evs.

(** A relation between the world before and after a computation that holds
    whether it returns or raises. *)
Definition preserves (R : World -> World -> Prop) {A} (c : M A) : Prop :=
  forall w, R w (snd (c w)).

(** Relations that steps can be chained under, and that calls of
    collaborators keep. *)
Class Frame (R : World -> World -> Prop) : Prop := {
  frame_refl : forall w, R w w;
  frame_trans : forall w1 w2 w3, R w1 w2 -> R w2 w3 -> R w1 w3;
  frame_hook : forall w h,
    R w {| self := self w; hst := h; trace := trace w |}
}.

(** What the standalone resolution may do: the mode flag and the fields of
    the embedded mode stay, and only its own collaborators are called. *)
Definition standalone_frame (w w' : World) : Prop :=
  training (self w') = training (self w) /\
  loss (self w') = loss (self w) /\
  data (self w') = data (self w) /\
  exists evs, trace w' = trace w ++ evs /\
              Forall (fun e => is_standalone_resolution e = true) evs.

(** *** The speed profile, from the spec's words

    Each stage has its own accumulator of elapsed time, and the profile is
    each accumulator divided by the number of samples, in milliseconds. *)

(** The reading of the wall clock in a world. *)
Definition clock (w : World) : float := wall_clock env (ext (hst w)).

(** The time that passed between two worlds, as [Profile] measures it. *)
Definition elapsed (w w' : World) : float := (clock w' - clock w)%float.

(** The time one batch spent in each of the four stages. *)
Record StageTimes : Type := {
  t_pre : float;
  t_inf : float;
  t_loss : float;
  t_post : float
}.

(** One batch, stage by stage, from the world [w] to the world [w']: each
    time is the clock read after the stage minus the clock read before it,
    for the call of [preprocess], the call of the model, the criterion (a
    stage without a call when the validator is not embedded) and the call of
    [postprocess]; what comes after [postprocess] is timed by no
    accumulator. *)
Definition batch_stage_times (trainer : option Trainer) (mdl : Model)
    (i : nat) (b : Batch) (w : World) (st : StageTimes) (w' : World) : Prop :=
  exists b' p p' w1 w2 w3 w4,
    let w0 := with_self (set_batch_i (Some i) (self w)) w in
    call_log (preprocess ms b) (EPreprocess b) w0 = (Ok b', w1) /\
    call_log (forward env mdl (img env b')) (EInfer (img env b')) w1 = (Ok p, w2) /\
    (if training (self w2) then accumulate_loss trainer p b' w2 = (Ok tt, w3)
     else w3 = w2) /\
    call_log (postprocess ms p) (EPostprocess p) w3 = (Ok p', w4) /\
    (call_log (update_metrics ms p' b') (fun _ => EUpdateMetrics p' b') ;;
     plot_samples b' p' i) w4 = (Ok tt, w') /\
    st = {| t_pre := elapsed w0 w1; t_inf := elapsed w1 w2;
            t_loss := elapsed w2 w3; t_post := elapsed w3 w4 |}.

(** The batches of a loop, in order, each with its stage times. *)
Inductive loop_stage_times (trainer : option Trainer) (mdl : Model)
    : nat -> list Batch -> World -> list StageTimes -> World -> Prop :=
| loop_times_nil i w : loop_stage_times trainer mdl i [] w [] w
| loop_times_cons i b bs w st w1 sts w' :
    batch_stage_times trainer mdl i b w st w1 ->
    loop_stage_times trainer mdl (S i) bs w1 sts w' ->
    loop_stage_times trainer mdl i (b :: bs) w (st :: sts) w'.


(** Seconds per stage to milliseconds per sample, [t / n * 1E3]. *)
Definition ms_per_sample (x : float) (n : nat) : float :=
  (x / float_of_nat n * 1000)%float.


(** *** The inference context, seen by the methods and collaborators *)

(** A call of [h] leaves the autograd switch as it found it. *)
Definition keeps_grad {A} (h : Hook A) : Prop :=
  forall s hs, grad (snd (h s hs)) = grad hs.

(** No method of the validator and no collaborator touches the switch. *)
Definition hooks_keep_grad : Prop :=
  ((forall path bs, keeps_grad (get_dataloader ms path bs)) /\
   (forall b, keeps_grad (preprocess ms b)) /\
   (forall p, keeps_grad (postprocess ms p)) /\
   (forall mdl, keeps_grad (init_metrics ms mdl)) /\
   (forall p b, keeps_grad (update_metrics ms p b)) /\
   keeps_grad (get_stats ms) /\
   (forall st, keeps_grad (check_stats ms st)) /\
   keeps_grad (print_results ms) /\
   keeps_grad (get_desc ms) /\
   (forall b i, keeps_grad (plot_val_samples ms b i)) /\
   (forall b p i, keeps_grad (plot_predictions ms b p i)) /\
   (forall st, keeps_grad (eval_json ms st))) /\
  ((forall d bs, keeps_grad (select_device env d bs)) /\
   (forall m d dnn fp16, keeps_grad (AutoBackend env m d dnn fp16)) /\
   (forall imgsz st, keeps_grad (check_imgsz env imgsz st)) /\
   (forall loc, keeps_grad (check_dataset_yaml env loc)) /\
   (forall loc, keeps_grad (check_dataset env loc)) /\
   (forall mdl x, keeps_grad (forward env mdl x)) /\
   (forall t p b, keeps_grad (criterion env t p b)) /\
   (forall t l prefix, keeps_grad (label_loss_items env t l prefix))).

(** [h], made to refuse to run while gradients are recorded. *)
Definition guard {A} (h : Hook A) : Hook A :=
  fun s hs =>
    if grad hs then (Raise (StageError "gradients are enabled"), hs) else h s hs.

Definition guard_methods : Methods := {|
  get_dataloader := fun path bs => guard (get_dataloader ms path bs);
  preprocess := fun b => guard (preprocess ms b);
  postprocess := fun p => guard (postprocess ms p);
  init_metrics := fun mdl => guard (init_metrics ms mdl);
  update_metrics := fun p b => guard (update_metrics ms p b);
  get_stats := guard (get_stats ms);
  check_stats := fun st => guard (check_stats ms st);
  print_results := guard (print_results ms);
  get_desc := guard (get_desc ms);
  plot_val_samples := fun b i => guard (plot_val_samples ms b i);
  plot_predictions := fun b p i => guard (plot_predictions ms b p i);
  pred_to_json := fun p b => guard (pred_to_json ms p b);
  eval_json := fun st => guard (eval_json ms st)
|}.

Definition guard_env : Env := {|
  img := img env;
  select_device := fun d bs => guard (select_device env d bs);
  AutoBackend := fun m d dnn fp16 => guard (AutoBackend env m d dnn fp16);
  check_imgsz := fun imgsz st => guard (check_imgsz env imgsz st);
  check_dataset_yaml := fun loc => guard (check_dataset_yaml env loc);
  check_dataset := fun loc => guard (check_dataset env loc);
  forward := fun mdl x => guard (forward env mdl x);
  de_parallel := de_parallel env;
  criterion := fun t p b => guard (criterion env t p b);
  label_loss_items := fun t l prefix => guard (label_loss_items env t l prefix);
  zeros_like := zeros_like env;
  tensor_add := tensor_add env;
  tensor_cpu := tensor_cpu env;
  tensor_div := tensor_div env;
  wall_clock := wall_clock env
|}.

(** Two runs that agree from every world with the switch off, the first
    leaving it off. *)
Definition agree_off {A} (c c' : M A) : Prop :=
  forall w, grad_enabled w = false ->
            c' w = c w /\ grad_enabled (snd (c w)) = false.

(** A call of [h] always returns. *)
Definition returns {A} (h : Hook A) : Prop :=
  forall s hs, exists a hs', h s hs = (Ok a, hs').

(** The calls of the loop always return. *)
Definition stages_return : Prop :=
  (forall b, returns (preprocess ms b)) /\
  (forall mdl x, returns (forward env mdl x)) /\
  (forall t p b, returns (criterion env t p b)) /\
  (forall p, returns (postprocess ms p)) /\
  (forall p b, returns (update_metrics ms p b)) /\
  (forall b i, returns (plot_val_samples ms b i)) /\
  (forall b p i, returns (plot_predictions ms b p i)).

(** So do the calls of the aggregation and of the report. *)
Definition finish_returns : Prop :=
  returns (get_stats ms) /\
  (forall st, returns (check_stats ms st)) /\
  returns (print_results ms) /\
  (forall t l prefix, returns (label_loss_items env t l prefix)) /\
  (forall st, returns (eval_json ms st)).

(** [__call__] up to the loop, and up to the report. *)
Definition until_loop (trainer : option Trainer) (model_arg : option Model)
    : M (Model * DataLoader) :=
  let* mdl := resolve trainer model_arg in
  let* d := setup mdl in
  ret (mdl, d).

Definition until_report (trainer : option Trainer) (model_arg : option Model)
    : M (Model * StatsMap) :=
  let* '(mdl, d) := until_loop trainer model_arg in
  let* dt := batch_loop trainer mdl 0 (batches d) Profile4 in
  let* stats := aggregate dt in
  ret (mdl, stats).

(** ** Further properties of the engine *)

(** What a call may do to the configuration and to the run directory: the
    options it only reads stay, and [half] can be cleared, never set. *)
Definition config_frame (w w' : World) : Prop :=
  a_device (args (self w')) = a_device (args (self w)) /\
  a_dnn (args (self w')) = a_dnn (args (self w)) /\
  a_imgsz (args (self w')) = a_imgsz (args (self w)) /\
  a_data (args (self w')) = a_data (args (self w)) /\
  a_save_json (args (self w')) = a_save_json (args (self w)) /\
  save_dir (self w') = save_dir (self w) /\
  (a_half (args (self w')) = true -> a_half (args (self w)) = true).

(** The fields only the embedded mode writes. *)
Definition embedded_fields_frame (w w' : World) : Prop :=
  training (self w') = training (self w) /\
  loss (self w') = loss (self w) /\
  data (self w') = data (self w).

(** What the embedded mode leaves alone: the dataloader, and the
    collaborators of the standalone resolution. *)
Definition standalone_parts_frame (w w' : World) : Prop :=
  dataloader (self w') = dataloader (self w) /\
  filter is_standalone_resolution (trace w')
    = filter is_standalone_resolution (trace w).

(** The dataset check line 73 picks for a locator. *)
Definition dataset_event (loc : string) (d : DataDict) : Event :=
  if endswith loc ".yaml" then ECheckDatasetYaml loc d else ECheckDataset loc d.

(** The dataloader line 77 keeps: the one of the validator if it is there
    and not empty. *)
Definition supplied (o : option DataLoader) : option DataLoader :=
  match o with
  | Some dl0 => if dl_truthy dl0 then Some dl0 else None
  | None => None
  end.

(** The collaborators of the standalone resolution always return. *)
Definition resolution_returns : Prop :=
  (forall dev bs, returns (select_device env dev bs)) /\
  (forall m dev dnn fp16, returns (AutoBackend env m dev dnn fp16)) /\
  (forall imgsz s, returns (check_imgsz env imgsz s)) /\
  (forall loc, returns (check_dataset_yaml env loc)) /\
  (forall loc, returns (check_dataset env loc)).

Definition is_dataset_check (e : Event) : bool :=
  match e with ECheckDatasetYaml _ _ | ECheckDataset _ _ => true | _ => false end.

Definition is_dataset_yaml_check (e : Event) : bool :=
  match e with ECheckDatasetYaml _ _ => true | _ => false end.

Definition is_plot_val (e : Event) : bool :=
  match e with EPlotValSamples _ _ => true | _ => false end.

Definition is_plot_pred (e : Event) : bool :=
  match e with EPlotPredictions _ _ _ => true | _ => false end.

(** A plot call carries an index below the cap of line 111. *)
Definition plot_index_ok (e : Event) : Prop :=
  match e with
  | EPlotValSamples _ ni | EPlotPredictions _ _ ni => ni < 3
  | _ => True
  end.

Definition is_model_half (e : Event) : bool :=
  match e with EModelHalf _ => true | _ => false end.

Definition is_model_precision (e : Event) : bool :=
  match e with EModelHalf _ | EModelFloat _ => true | _ => false end.

(** The plot switch and the batch size stay. *)
Definition plots_frame (w w' : World) : Prop :=
  a_plots (args (self w')) = a_plots (args (self w)) /\
  a_batch_size (args (self w')) = a_batch_size (args (self w)).

(** [half] stays and the model is not halved. *)
Definition half_frame (w w' : World) : Prop :=
  a_half (args (self w')) = a_half (args (self w)) /\
  filter is_model_half (trace w') = filter is_model_half (trace w).

(** The events of the resolution, and those of the report. *)
Definition is_resolution_event (e : Event) : bool :=
  is_standalone_resolution e || is_model_precision e.

Definition is_report_event (e : Event) : bool :=
  match e with
  | EModelFloat _ | ELabelLossItems _ _ _ | ELogSpeed _ | EOpenWrite _
  | ELogSaving _ | EJsonDump _ _ | EEvalJson _ => true
  | _ => false
  end.

(** [h] returned [a], in some state. *)
Definition hook_result {A} (h : Hook A) (a : A) : Prop :=
  exists s hs hs', h s hs = (Ok a, hs').

(** The events of one batch under the default [preprocess] and
    [postprocess]: the model sees the input of the batch as the dataloader
    gave it, and [update_metrics] the raw predictions. *)
Definition pass_through_chunk (mdl : Model) (embedded plots : bool)
    (ib : nat * Batch) (evs : list Event) : Prop :=
  exists p ls,
    hook_result (forward env mdl (img env ib.2)) p /\
    loss_stage embedded p ib.2 ls /\
    evs = stage_events plots ib.1 ib.2 ib.2 p p ls.

(** The batch index is as it was. *)
Definition batch_i_frame (w w' : World) : Prop :=
  batch_i (self w') = batch_i (self w).

(** No call of [model.half()] or [model.float()]. *)
Definition precision_frame (w w' : World) : Prop :=
  filter is_model_precision (trace w') = filter is_model_precision (trace w).

(** A call of [h] leaves the export list [self.jdict] as it is. *)
Definition keeps_jdict {A} (h : Hook A) : Prop :=
  forall s hs, jdict (snd (h s hs)) = jdict hs.

(** A validator that collects no prediction records: no method called
    between line 90 and the report of a standalone call touches the
    list. *)
Definition no_records : Prop :=
  (forall b, keeps_jdict (preprocess ms b)) /\
  (forall mdl x, keeps_jdict (forward env mdl x)) /\
  (forall p, keeps_jdict (postprocess ms p)) /\
  (forall p b, keeps_jdict (update_metrics ms p b)) /\
  (forall b i, keeps_jdict (plot_val_samples ms b i)) /\
  (forall b p i, keeps_jdict (plot_predictions ms b p i)) /\
  keeps_jdict (get_stats ms) /\
  (forall st, keeps_jdict (check_stats ms st)) /\
  keeps_jdict (print_results ms).

Definition same_jdict (w w' : World) : Prop := jdict (hst w') = jdict (hst w).

(** What the rest of the standalone resolution does once the backend is
    built: [self.model] stays and the trace grows. *)
Definition backend_frame (w w' : World) : Prop :=
  model (self w') = model (self w) /\ exists evs, trace w' = trace w ++ evs.

End Call.
End Engine.

Notation "'let*' x ':=' c 'in' k" := (bind c (fun x => k))
  (at level 10, x name, c at level 100, k at level 200) : engine_scope.
Notation "'let*' ' pat ':=' c 'in' k" := (bind c (fun x => match x with pat => k end))
  (at level 10, pat pattern, c at level 100, k at level 200) : engine_scope.
Notation "c ';;' k" := (bind c (fun _ => k))
  (at level 100, k at level 200, right associativity) : engine_scope.

(** ** A task validator and its collaborators, to run the engine on

    Batches, inputs and predictions are numbers, models are file names, a
    loss vector is one integer, the state of the collaborators is a clock
    in milliseconds. *)
Module Demo.

Abbreviation DMethods := (@Methods nat nat string Z nat Z nat).
Abbreviation DEnv := (@Env nat nat nat string Z nat Z nat).
Abbreviation DWorld := (@World nat nat nat string Z nat Z nat).
Abbreviation DHook := (@Hook nat string Z nat nat).

(** A call that takes [ms] milliseconds and returns [a]. *)
Definition takes {A} (ms : nat) (a : A) : DHook A :=
  fun _ h => (Ok a, {| jdict := jdict h; ext := ext h + ms; grad := grad h |}).

Definition val_loader : DataLoader := {| batches := [1; 2]; dataset_len := 2 |}.
Definition train_val_loader : DataLoader := {| batches := [1; 2; 3; 4]; dataset_len := 8 |}.
Definition empty_loader : @DataLoader nat := {| batches := []; dataset_len := 0 |}.

Definition base : DMethods := base_methods.

(** A detection-like validator: it overrides the pipeline stages, collects a
    prediction record per batch in [self.jdict] and reports one metric; it
    does not override [eval_json]. *)
Definition detect_methods : DMethods := {|
  get_dataloader := fun _ _ => hook_ret val_loader;
  preprocess := fun batch => takes 1 (batch * 10);
  postprocess := fun preds => takes 2 (preds + 1);
  init_metrics := init_metrics base;
  update_metrics := fun preds _ =>
    fun _ h => (Ok tt, {| jdict := Some (jdict_records (jdict h) ++ [preds]);
                          ext := ext h; grad := grad h |});
  get_stats := hook_ret {["metrics/mAP" := 50%Z]};
  check_stats := check_stats base;
  print_results := print_results base;
  get_desc := get_desc base;
  plot_val_samples := plot_val_samples base;
  plot_predictions := plot_predictions base;
  pred_to_json := pred_to_json base;
  eval_json := eval_json base
|}.

(** The same validator with an [eval_json] that scores the export. *)
Definition coco_methods : DMethods := {|
  get_dataloader := get_dataloader detect_methods;
  preprocess := preprocess detect_methods;
  postprocess := postprocess detect_methods;
  init_metrics := init_metrics detect_methods;
  update_metrics := update_metrics detect_methods;
  get_stats := get_stats detect_methods;
  check_stats := check_stats detect_methods;
  print_results := print_results detect_methods;
  get_desc := get_desc detect_methods;
  plot_val_samples := plot_val_samples detect_methods;
  plot_predictions := plot_predictions detect_methods;
  pred_to_json := pred_to_json detect_methods;
  eval_json := fun stats => hook_ret (Some (<["metrics/mAP50-95" := 37%Z]> stats))
|}.

Definition cpu : Device := {| d_type := "cpu" |}.
Definition cuda : Device := {| d_type := "cuda" |}.

(** The backend by file suffix: a compiled engine has a fixed batch of 8. *)
Definition backend_of (m : string) : @Backend string :=
  {| bk_callable := m; stride := 32;
     pt := endswith m ".pt"; jit := endswith m ".torchscript";
     engine := endswith m ".engine"; bk_batch_size := 8; bk_device := cuda |}.

Definition dataset_of (loc : string) : DataDict :=
  if bool_decide (loc = "test-only.yaml")
  then {["test" := "images/test"]}
  else {["val" := "images/val"; "test" := "images/test"]}.

Definition demo_env : DEnv := {|
  img := fun batch => batch;
  select_device := fun _ _ => hook_ret cuda;
  AutoBackend := fun m _ _ _ => hook_ret (backend_of m);
  check_imgsz := fun imgsz _ => hook_ret imgsz;
  check_dataset_yaml := fun loc => hook_ret (dataset_of loc);
  check_dataset := fun loc => hook_ret (dataset_of loc);
  forward := fun _ x => takes 4 (x + 1);
  de_parallel := fun m => m;
  criterion := fun _ _ _ => takes 0 2%Z;
  label_loss_items := fun _ l prefix => hook_ret {[prefix +:+ "/box_loss" := l]};
  zeros_like := fun _ => 0%Z;
  tensor_add := Z.add;
  tensor_cpu := fun l => l;
  tensor_div := fun l n => (l / Z.of_nat n)%Z;
  wall_clock := fun u => (float_of_nat u / 1000)%float
|}.

Definition demo_args : Args := {|
  a_device := "0"; a_batch_size := 16; a_half := true; a_dnn := false;
  a_imgsz := 640; a_data := "coco128.yaml"; a_plots := true; a_save_json := true
|}.

Definition demo_self : @Self nat string Z := {|
  dataloader := None; args := demo_args; model := None; data := None;
  device := None; batch_i := None; training := true; speed := None;
  loss := None; save_dir := ["runs"; "detect"; "val"]
|}.

(** A validator fresh from [__init__], no dataloader supplied. *)
Definition fresh : DWorld := {|
  self := demo_self; hst := {| jdict := None; ext := 0; grad := true |};
  trace := []
|}.

(** The validator a trainer holds, with its validation dataloader. *)
Definition in_training : DWorld :=
  with_self (set_dataloader (Some train_val_loader) demo_self) fresh.

(** The same, over an empty dataset. *)
Definition in_training_empty : DWorld :=
  with_self (set_dataloader (Some empty_loader) demo_self) fresh.

(** A validator whose dataset descriptor has a test split only. *)
Definition test_only : DWorld :=
  with_self (set_args
    {| a_device := "0"; a_batch_size := 16; a_half := true; a_dnn := false;
       a_imgsz := 640; a_data := "test-only.yaml"; a_plots := true;
       a_save_json := true |} demo_self) fresh.

Definition demo_trainer : @Trainer string Z := {|
  t_device := cuda; t_data := dataset_of "coco128.yaml";
  t_ema := Some "ema"; t_model := "live"; t_loss_items := 0%Z;
  t_epoch := 99; t_epochs := 100
|}.

(** A stage that raises between inference and postprocess: the criterion. *)
Definition failing_criterion_env : DEnv := {|
  img := img demo_env;
  select_device := select_device demo_env;
  AutoBackend := AutoBackend demo_env;
  check_imgsz := check_imgsz demo_env;
  check_dataset_yaml := check_dataset_yaml demo_env;
  check_dataset := check_dataset demo_env;
  forward := forward demo_env;
  de_parallel := de_parallel demo_env;
  criterion := fun _ _ _ => hook_raise (StageError "criterion");
  label_loss_items := label_loss_items demo_env;
  zeros_like := zeros_like demo_env;
  tensor_add := tensor_add demo_env;
  tensor_cpu := tensor_cpu demo_env;
  tensor_div := tensor_div demo_env;
  wall_clock := wall_clock demo_env
|}.

(** A validator whose [preprocess] fails on batch 3. *)
Definition picky_methods : DMethods := {|
  get_dataloader := get_dataloader detect_methods;
  preprocess := fun batch =>
    if (batch =? 3)%nat then hook_raise (StageError "preprocess")
    else preprocess detect_methods batch;
  postprocess := postprocess detect_methods;
  init_metrics := init_metrics detect_methods;
  update_metrics := update_metrics detect_methods;
  get_stats := get_stats detect_methods;
  check_stats := check_stats detect_methods;
  print_results := print_results detect_methods;
  get_desc := get_desc detect_methods;
  plot_val_samples := plot_val_samples detect_methods;
  plot_predictions := plot_predictions detect_methods;
  pred_to_json := pred_to_json detect_methods;
  eval_json := eval_json detect_methods
|}.

(** A trainer on the CPU, and collaborators that pick the CPU. *)
Definition cpu_trainer : @Trainer string Z := {|
  t_device := cpu; t_data := dataset_of "coco128.yaml";
  t_ema := Some "ema"; t_model := "live"; t_loss_items := 0%Z;
  t_epoch := 3; t_epochs := 100
|}.

Definition cpu_env : DEnv := {|
  img := img demo_env;
  select_device := fun _ _ => hook_ret cpu;
  AutoBackend := AutoBackend demo_env;
  check_imgsz := check_imgsz demo_env;
  check_dataset_yaml := check_dataset_yaml demo_env;
  check_dataset := check_dataset demo_env;
  forward := forward demo_env;
  de_parallel := de_parallel demo_env;
  criterion := criterion demo_env;
  label_loss_items := label_loss_items demo_env;
  zeros_like := zeros_like demo_env;
  tensor_add := tensor_add demo_env;
  tensor_cpu := tensor_cpu demo_env;
  tensor_div := tensor_div demo_env;
  wall_clock := wall_clock demo_env
|}.

(** Validators built with a dataloader: a usual one, one whose dataset
    descriptor has no validation split, and one with an empty dataloader. *)
Definition with_loader : DWorld :=
  with_self (set_dataloader (Some val_loader) demo_self) fresh.

Definition test_only_with_loader : DWorld :=
  with_self (set_dataloader (Some val_loader) (self test_only)) test_only.

Definition empty_supplied : DWorld :=
  with_self (set_dataloader (Some empty_loader) demo_self) fresh.

(** A validator built with a dataloader whose export list still holds a
    record of an earlier run. *)
Definition stale_records : DWorld :=
  with_hst {| jdict := Some [7]; ext := ext (hst with_loader);
              grad := grad (hst with_loader) |} with_loader.



(** Collaborators whose model call turns gradient recording on. *)
Definition grad_on_env : DEnv := {|
  img := img demo_env;
  select_device := select_device demo_env;
  AutoBackend := AutoBackend demo_env;
  check_imgsz := check_imgsz demo_env;
  check_dataset_yaml := check_dataset_yaml demo_env;
  check_dataset := check_dataset demo_env;
  forward := fun _ x =>
    fun _ h => (Ok (x + 1), {| jdict := jdict h; ext := ext h + 4; grad := true |});
  de_parallel := de_parallel demo_env;
  criterion := criterion demo_env;
  label_loss_items := label_loss_items demo_env;
  zeros_like := zeros_like demo_env;
  tensor_add := tensor_add demo_env;
  tensor_cpu := tensor_cpu demo_env;
  tensor_div := tensor_div demo_env;
  wall_clock := wall_clock demo_env
|}.

(** A caller that runs without gradients. *)
Definition no_grad_caller : DWorld := with_grad false in_training.

End Demo.

Section Proofs.

Context {Batch Img Preds Model LossVec J V U : Type}.
Variable ms : @Methods Batch Preds Model LossVec J V U.
Variable env : @Env Batch Img Preds Model LossVec J V U.

Local Abbreviation World' := (@World Batch Img Preds Model LossVec J V U).
Local Abbreviation M' := (@M Batch Img Preds Model LossVec J V U).
Local Abbreviation Hook' := (@Hook Batch Model LossVec J U).
Local Open Scope engine_scope.

Lemma bind_ok {A B} (c : M' A) (k : A -> M' B) w b w' :
  bind c k w = (Ok b, w') ->
  exists a w1, c w = (Ok a, w1) /\ k a w1 = (Ok b, w').
Proof.
  unfold bind. destruct (c w) as [[a|e] w1]; [eauto | discriminate].
Qed.

Lemma bind_run {A B} (c : M' A) (k : A -> M' B) w a w1 :
  c w = (Ok a, w1) -> bind c k w = k a w1.
Proof. unfold bind. by intros ->. Qed.

Lemma bind_raise {A B} (c : M' A) (k : A -> M' B) w e w1 :
  c w = (Raise e, w1) -> bind c k w = (Raise e, w1).
Proof. unfold bind. by intros ->. Qed.

Lemma call_hook_ok {A} (h : Hook' A) (w : World') a w' :
  call_hook h w = (Ok a, w') ->
  exists h', h (self w) (hst w) = (Ok a, h') /\ w' = with_hst h' w.
Proof.
  unfold call_hook. destruct (h (self w) (hst w)) as [r h'].
  intros [= -> <-]. eauto.
Qed.

Lemma call_log_ok {A} (h : Hook' A) ev (w : World') a w' :
  call_log h ev w = (Ok a, w') ->
  exists h', h (self w) (hst w) = (Ok a, h') /\ w' = logged (ev a) (with_hst h' w).
Proof.
  unfold call_log. intros (a' & w1 & H1 & H2)%bind_ok.
  apply call_hook_ok in H1 as (h' & Hh & ->).
  cbv [bind emit ret] in H2. injection H2 as <- <-. eauto.
Qed.

Lemma call_log_run {A} (h : Hook' A) ev (w : World') a h' :
  h (self w) (hst w) = (Ok a, h') ->
  call_log h ev w = (Ok a, logged (ev a) (with_hst h' w)).
Proof. unfold call_log, call_hook, bind. by intros ->. Qed.

Lemma call_log_raise {A} (h : Hook' A) ev (w : World') e h' :
  h (self w) (hst w) = (Raise e, h') ->
  call_log h ev w = (Raise e, with_hst h' w).
Proof. unfold call_log, call_hook, bind. by intros ->. Qed.

Lemma with_profile_ok {A} i dt (c : M' A) w a dt' w' :
  with_profile env i dt c w = (Ok (a, dt'), w') ->
  c w = (Ok a, w') /\
  dt' = dt_add i (wall_clock env (ext (hst w')) - wall_clock env (ext (hst w)))%float dt.
Proof.
  unfold with_profile. destruct (c w) as [[a0|e] w1]; [|discriminate].
  by intros [= -> <- <-].
Qed.


Lemma ret_ok {A} (a b : A) (w w' : World') : ret a w = (Ok b, w') -> b = a /\ w' = w.
Proof. by intros [= -> ->]. Qed.

Lemma emit_ok e (w : World') u w' : emit e w = (Ok u, w') -> w' = logged e w.
Proof. by intros [= <-]. Qed.

Lemma modify_self_ok f (w : World') u w' :
  modify_self f w = (Ok u, w') -> w' = with_self (f (self w)) w.
Proof. by intros [= <-]. Qed.

Lemma modify_hst_ok f (w : World') u w' :
  modify_hst f w = (Ok u, w') -> w' = with_hst (f (hst w)) w.
Proof. by intros [= <-]. Qed.

Lemma get_self_ok (w : World') s w' : get_self w = (Ok s, w') -> s = self w /\ w' = w.
Proof. by intros [= <- <-]. Qed.

Lemma get_hst_ok (w : World') s w' : get_hst w = (Ok s, w') -> s = hst w /\ w' = w.
Proof. by intros [= <- <-]. Qed.

(** Take a successful run apart, one step at a time. *)
Ltac run_inv :=
  repeat match goal with
  | H : bind _ _ _ = (Ok _, _) |- _ =>
      let a := fresh "a" in let w := fresh "w" in let H1 := fresh "Hrun" in
      apply bind_ok in H as (a & w & H1 & H)
  | H : ret _ _ = (Ok _, _) |- _ =>
      let E := fresh "E" in apply ret_ok in H as [E ->];
      try (injection E as ? ?); subst
  | H : emit _ _ = (Ok _, _) |- _ => apply emit_ok in H as ->
  | H : modify_self _ _ = (Ok _, _) |- _ => apply modify_self_ok in H as ->
  | H : modify_args _ _ = (Ok _, _) |- _ => apply modify_self_ok in H as ->
  | H : modify_hst _ _ = (Ok _, _) |- _ => apply modify_hst_ok in H as ->
  | H : get_self _ = (Ok _, _) |- _ => apply get_self_ok in H as [-> ->]
  | H : get_hst _ = (Ok _, _) |- _ => apply get_hst_ok in H as [-> ->]
  | H : call_log _ _ _ = (Ok _, _) |- _ =>
      let h := fresh "h" in let Hh := fresh "Hhook" in
      apply call_log_ok in H as (h & Hh & ->)
  | H : call_hook _ _ = (Ok _, _) |- _ =>
      let h := fresh "h" in let Hh := fresh "Hhook" in
      apply call_hook_ok in H as (h & Hh & ->)
  | H : with_profile _ _ _ _ _ = (Ok ?a, _) |- _ =>
      is_var a; destruct a
  | H : with_profile _ _ _ _ _ = (Ok (_, _), _) |- _ =>
      let E := fresh "Edt" in apply with_profile_ok in H as [H E]
  | H : raise _ _ = (Ok _, _) |- _ => discriminate H
  end.

Ltac world_simpl :=
  cbn [self hst trace grad_enabled grad set_grad logged with_hst with_self set_trace
       with_grad
       dataloader args model data device batch_i training speed loss save_dir
       set_dataloader set_args set_model set_data set_device set_batch_i
       set_training set_speed set_loss
       a_device a_batch_size a_half a_dnn a_imgsz a_data a_plots a_save_json
       set_half set_batch_size set_plots jdict ext set_jdict] in *.

Lemma accumulate_loss_ok tr p b (w : World') u w' :
  accumulate_loss env tr p b w = (Ok u, w') ->
  exists t l acc h,
    tr = Some t /\ loss (self w) = Some acc /\
    criterion env t p b (self w) (hst w) = (Ok l, h) /\
    w' = with_self (set_loss (Some (tensor_add env acc l)) (self w))
           (logged (ELoss p b l) (with_hst h w)).
Proof.
  unfold accumulate_loss. destruct tr as [t|]; [|discriminate].
  intros H. run_inv. world_simpl.
  destruct (loss (self w)) as [acc|] eqn:E; [|discriminate].
  run_inv. exists t, a, acc, h. by world_simpl.
Qed.

Lemma plot_samples_ok b p i (w : World') u w' :
  plot_samples ms b p i w = (Ok u, w') ->
  exists h,
    w' = set_trace (trace w ++
           (if a_plots (args (self w)) && (i <? 3)%nat
            then [EPlotValSamples b i; EPlotPredictions b p i] else []))
         (with_hst h w).
Proof.
  unfold plot_samples. intros H. run_inv.
  destruct (a_plots (args (self w)) && (i <? 3)%nat); run_inv.
  - exists h. unfold logged, set_trace, with_hst. world_simpl.
    by rewrite <- app_assoc.
  - exists (hst w). unfold set_trace, with_hst. world_simpl.
    rewrite app_nil_r. by destruct w.
Qed.

(** What one iteration leaves behind: the events of its five stages, and of
    [self] only [batch_i] and [loss] changed. *)
Lemma run_batch_ok tr mdl i b dt (w : World') dt' w' :
  run_batch ms env tr mdl i b dt w = (Ok dt', w') ->
  exists b' p p' ls bi,
    loss_stage (training (self w)) p b' ls /\
    trace w' = trace w ++
      stage_events env (a_plots (args (self w))) i b b' p p' ls /\
    self w' = set_loss (fold_left (tensor_add env) (loss_terms ls) <$> loss (self w))
                (set_batch_i bi (self w)).
Proof.
  unfold run_batch. intros H. run_inv. world_simpl.
  apply plot_samples_ok in Hrun4 as [h' ->]. world_simpl.
  destruct (training (self w)) eqn:Etr.
  - apply accumulate_loss_ok in Hrun1 as (t' & l & acc & hl & -> & Eacc & Hcrit & ->).
    world_simpl. exists b0, p, p0, [ELoss p b0 l], (Some i). world_simpl.
    rewrite Eacc. cbn. split_and!; try done; [by exists l|].
    unfold stage_events. by rewrite <- !app_assoc.
  - run_inv. world_simpl. exists b0, p, p0, [], (Some i). world_simpl.
    split_and!; try done.
    + unfold stage_events. by rewrite <- !app_assoc.
    + unfold set_loss, set_batch_i. world_simpl. by destruct (loss (self w)).
Qed.

Lemma self_eta (s : @Self Batch Model LossVec) :
  set_loss (loss s) (set_batch_i (batch_i s) s) = s.
Proof. by destruct s. Qed.

Lemma loss_terms_app (xs ys : list (@Event Batch Img Preds Model LossVec J V)) :
  loss_terms (xs ++ ys) = loss_terms xs ++ loss_terms ys.
Proof. apply omap_app. Qed.

Lemma loss_terms_stage plots i b b' p p' ls :
  loss_terms (stage_events env plots i b b' p p' ls) = loss_terms ls.
Proof.
  unfold stage_events. rewrite !loss_terms_app.
  destruct (plots && (i <? 3)%nat); cbn; by rewrite app_nil_r.
Qed.



Lemma enumerate_from_cons i (b : Batch) bs :
  enumerate_from i (b :: bs) = (i, b) :: enumerate_from (S i) bs.
Proof. done. Qed.


(** The loop: one chunk of stage events per batch, in the order of the
    batches; of [self] only [batch_i] and [loss] changed, and [loss] grew by
    the loss terms in the order the criterion returned them. *)
Lemma batch_loop_ok tr mdl bs :
  forall i dt (w : World') dt' w',
    batch_loop ms env tr mdl i bs dt w = (Ok dt', w') ->
    exists chunks bi,
      Forall2 (pipeline_chunk env (training (self w)) (a_plots (args (self w))))
              (enumerate_from i bs) chunks /\
      trace w' = trace w ++ concat chunks /\
      self w' = set_loss (fold_left (tensor_add env) (loss_terms (concat chunks))
                            <$> loss (self w))
                  (set_batch_i bi (self w)).
Proof.
  induction bs as [|b bs IH]; intros i dt w dt' w' H; cbn [batch_loop] in H.
  - run_inv. exists [], (batch_i (self w)). cbn. rewrite app_nil_r.
    split_and!; try done.
    rewrite <- (self_eta (self w)) at 1. by destruct (loss (self w)).
  - run_inv.
    apply run_batch_ok in Hrun as (b' & p & p' & ls & bi & Hls & Htr & Hself).
    apply IH in H as (chunks & bi' & Hch & Htr' & Hself').
    rewrite Hself in Hch, Hself'. world_simpl.
    exists (stage_events env (a_plots (args (self w))) i b b' p p' ls :: chunks), bi'.
    rewrite enumerate_from_cons. cbn [concat]. split_and!.
    + constructor; [|done]. by exists b', p, p', ls.
    + by rewrite Htr', Htr, <- app_assoc.
    + rewrite Hself'. unfold set_loss, set_batch_i. world_simpl.
      rewrite loss_terms_app, loss_terms_stage.
      destruct (loss (self w)); cbn; [|done].
      by rewrite fold_left_app.
Qed.

(** *** RESOLVE *)

(** With a trainer the embedded path runs to its end, whatever the model
    handle is. *)
Lemma resolve_embedded_run tr m (w : World') :
  let mdl := default (t_model tr) (t_ema tr) in
  let half' := a_half (args (self w)) && negb (bool_decide (d_type (t_device tr) = "cpu")) in
  exists w1,
    resolve ms env (Some tr) m w = (Ok mdl, w1) /\
    self w1 =
      set_args (set_plots (bool_decide (t_epoch tr = t_epochs tr - 1)%Z)
                 (set_half half' (args (self w))))
        (set_loss (Some (zeros_like env (t_loss_items tr)))
          (set_model (Some mdl)
            (set_data (Some (t_data tr))
              (set_device (Some (t_device tr))
                (set_training true (self w)))))) /\
    trace w1 = trace w ++ [if half' then EModelHalf mdl else EModelFloat mdl] /\
    hst w1 = hst w /\
    grad_enabled w1 = grad_enabled w.
Proof.
  intros mdl half'.
  cbv [resolve resolve_embedded bind modify_self modify_args get_self ret].
  world_simpl. cbn [a_half set_half]. fold half'.
  destruct half'; cbv [emit]; world_simpl; eexists; split_and!; done.
Qed.

Lemma val_or_test_ok d (w : World') path w' :
  val_or_test d w = (Ok path, w') ->
  d !! "val" = Some path /\ str_truthy path = true /\ w' = w.
Proof.
  unfold val_or_test. destruct (d !! "val") as [p|]; [|discriminate].
  destruct (str_truthy p) eqn:E; [|discriminate].
  by intros [-> ->]%ret_ok.
Qed.

Lemma resolve_standalone_ok m (w : World') mdl w1 :
  resolve_standalone ms env (Some m) w = (Ok mdl, w1) ->
  exists dev bk imgsz dl (tail : list (@Event Batch Img Preds Model LossVec J V)),
    let half' := a_half (args (self w)) && negb (bool_decide (d_type dev = "cpu")) in
    mdl = bk_callable bk /\
    trace w1 = trace w ++
      [ESelectDevice (a_device (args (self w))) (a_batch_size (args (self w))) dev;
       EAutoBackend m dev (a_dnn (args (self w))) half' bk;
       ECheckImgsz (a_imgsz (args (self w))) (stride bk) imgsz]
      ++ force_batch_events bk imgsz ++ tail /\
    Forall (fun e => is_standalone_resolution e = true /\ is_force_batch e = false) tail /\
    self w1 =
      set_dataloader (Some dl)
        (set_args (set_batch_size (resolved_batch_size bk (a_batch_size (args (self w))))
                    (set_half half' (args (self w))))
          (set_model (Some mdl)
            (set_device (Some (if engine bk then dev else bk_device bk)) (self w)))).
Proof.
  unfold resolve_standalone. intros H. run_inv. world_simpl.
  rename a0 into dev, a4 into bk, a6 into imgsz, a10 into dl.
  set (half' := a_half (args (self w)) && negb (bool_decide (d_type dev = "cpu"))) in *.
  set (w0 := logged (ECheckImgsz _ _ _) _) in Hrun7.
  assert (self w9 =
            set_args (set_batch_size (resolved_batch_size bk (a_batch_size (args (self w))))
                        (set_half half' (args (self w))))
              (set_model (Some (bk_callable bk))
                (set_device (Some (if engine bk then dev else bk_device bk)) (self w)))
          /\ trace w9 = trace w0 ++ force_batch_events bk imgsz
          /\ hst w9 = hst w0) as (Hs9 & Ht9 & Hh9).
  { unfold resolved_batch_size, force_batch_events. subst w0.
    destruct (engine bk); [|destruct (negb (pt bk) && negb (jit bk))];
      run_inv; world_simpl; rewrite ?app_nil_r; done. }
  assert (exists e h9, w11 = logged e (with_hst h9 w9)
            /\ is_standalone_resolution e = true /\ is_force_batch e = false)
    as (e & h9 & -> & He1 & He2).
  { destruct (endswith _ _); run_inv; eauto. }
  assert (exists tail h11, w12 = set_trace (trace w9 ++ [e] ++ tail) (with_hst h11 w9)
            /\ Forall (fun e => is_standalone_resolution e = true
                                /\ is_force_batch e = false) tail)
    as (tail & h11 & -> & Htail).
  { destruct (dataloader (self w9)) as [dl0|]; [destruct (dl_truthy dl0)|]; run_inv.
    - exists [], h9. rewrite app_nil_r. by split.
    - match goal with
      | H : val_or_test _ _ = _ |- _ => apply val_or_test_ok in H as (_ & _ & ->)
      end.
      run_inv. world_simpl.
      eexists [_], _. unfold logged, set_trace, with_hst. world_simpl.
      rewrite <- app_assoc. split; [done|]. by repeat constructor.
    - match goal with
      | H : val_or_test _ _ = _ |- _ => apply val_or_test_ok in H as (_ & _ & ->)
      end.
      run_inv. world_simpl.
      eexists [_], _. unfold logged, set_trace, with_hst. world_simpl.
      rewrite <- app_assoc. split; [done|]. by repeat constructor. }
  world_simpl. exists dev, bk, imgsz, dl, (e :: tail). cbn zeta.
  split_and!; try done.
  - rewrite Ht9. subst w0. world_simpl. by rewrite <- !app_assoc.
  - by constructor.
  - by rewrite Hs9.
Qed.

(** *** SETUP and the part of a call before the loop *)

Lemma the_dataloader_ok (w : World') d w' :
  the_dataloader w = (Ok d, w') -> dataloader (self w) = Some d /\ w' = w.
Proof.
  unfold the_dataloader. intros H. run_inv.
  destruct (dataloader (self w)); [|discriminate]. by run_inv.
Qed.

Lemma setup_ok mdl (w : World') d w' :
  setup ms env mdl w = (Ok d, w') ->
  dataloader (self w) = Some d /\
  exists h,
    w' = set_trace (trace w ++ [EModelEval mdl; EGetDesc; EInitMetrics (de_parallel env mdl)])
           (with_hst (set_jdict (Some []) h) w).
Proof.
  unfold setup. intros H. run_inv.
  apply the_dataloader_ok in Hrun0 as [Hd ->]. run_inv. world_simpl.
  split; [done|]. exists h. unfold logged, set_trace, with_hst. world_simpl.
  by rewrite <- !app_assoc.
Qed.

Lemma prelude_event_kind (e : @Event Batch Img Preds Model LossVec J V) :
  is_prelude_event e = true ->
  is_pipeline_event e = false /\ is_loss_event e = false /\
  is_json_dump e = false /\ is_eval_json e = false /\ is_update_metrics e = false.
Proof. by destruct e. Qed.

Lemma filter_nil_Forall {A} (P Q : A -> bool) (l : list A) :
  Forall (fun x => P x = true) l ->
  (forall x, P x = true -> Q x = false) ->
  filter Q l = [].
Proof.
  intros Hl HPQ. induction Hl as [|x l Hx _ IH]; [done|].
  rewrite filter_cons, IH. specialize (HPQ _ Hx).
  destruct (decide (Q x)) as [Hq|]; [|done]. by rewrite HPQ in Hq.
Qed.

(** Up to the loop: the mode flag is set from the trainer handle, the
    dataloader is in place, the export list is empty, and nothing of the
    pipeline has run. *)
Lemma until_loop_ok tr m (w : World') mdl d w1 :
  until_loop ms env tr m w = (Ok (mdl, d), w1) ->
  exists pre,
    trace w1 = trace w ++ pre /\
    Forall (fun e => is_prelude_event e = true) pre /\
    training (self w1) = is_embedded tr /\
    dataloader (self w1) = Some d /\
    jdict (hst w1) = Some [] /\
    a_save_json (args (self w1)) = a_save_json (args (self w)) /\
    save_dir (self w1) = save_dir (self w) /\
    (forall t, tr = Some t -> loss (self w1) = Some (zeros_like env (t_loss_items t))).
Proof.
  unfold until_loop. intros H. run_inv.
  apply setup_ok in Hrun0 as (Hd & h & ->). world_simpl.
  destruct tr as [t|].
  - destruct (resolve_embedded_run t m w) as (w2 & Hres & Hs & Ht & Hh & Hg).
    cbv zeta in Hres. rewrite Hres in Hrun. injection Hrun as <- <-.
    eexists. split_and!.
    + rewrite Ht, <- app_assoc. done.
    + destruct (_ && _); by repeat constructor.
    + by rewrite Hs.
    + done.
    + done.
    + by rewrite Hs.
    + by rewrite Hs.
    + intros t' [= <-]. by rewrite Hs.
  - unfold resolve in Hrun. run_inv. destruct m as [m|]; [|discriminate].
    apply resolve_standalone_ok in Hrun
      as (dev & bk & imgsz & dl & tail & -> & Ht & Htail & Hs).
    world_simpl. eexists. split_and!.
    + rewrite Ht, <- !app_assoc. done.
    + repeat (apply Forall_cons; split; [done|]).
      apply Forall_app; split.
      * unfold force_batch_events. repeat case_match; by repeat constructor.
      * apply Forall_app; split; [|by repeat constructor].
        eapply Forall_impl; [exact Htail|]. intros e [He _]. by destruct e.
    + by rewrite Hs.
    + done.
    + done.
    + by rewrite Hs.
    + by rewrite Hs.
    + done.
Qed.

(** *** AGGREGATE and REPORT *)

Lemma lift_res_ok {A} (r : Res A) (w : World') a w' :
  lift_res r w = (Ok a, w') -> r = Ok a /\ w' = w.
Proof. destruct r; [by intros [= -> ->]|discriminate]. Qed.

Lemma aggregate_ok dt (w : World') stats w' :
  aggregate ms dt w = (Ok stats, w') ->
  exists d sp h,
    dataloader (self w) = Some d /\
    compute_speed dt (dataset_len d) = Ok sp /\
    w' = with_self (set_speed (Some sp) (self w))
           (set_trace (trace w ++ [EGetStats stats; ECheckStats stats; EPrintResults])
              (with_hst h w)).
Proof.
  unfold aggregate. intros H. run_inv.
  apply the_dataloader_ok in Hrun2 as [Hd ->]. world_simpl.
  apply lift_res_ok in Hrun3 as [Hsp ->]. run_inv. world_simpl.
  exists a2, a3, h. split_and!; try done.
  unfold logged, set_trace, with_hst, with_self. world_simpl.
  by rewrite <- !app_assoc.
Qed.

Lemma report_embedded_ok tr mdl stats (w : World') r w' :
  report_embedded env tr mdl stats w = (Ok r, w') ->
  exists t acc d losses h,
    let avg := tensor_div env (tensor_cpu env acc) (len_dataloader d) in
    tr = Some t /\ loss (self w) = Some acc /\ dataloader (self w) = Some d /\
    label_loss_items env t avg "val" (self w) (hst w) = (Ok losses, h) /\
    r = Some (losses ∪ stats) /\
    w' = set_trace (trace w ++ [EModelFloat mdl; ELabelLossItems avg "val" losses])
           (with_hst h w).
Proof.
  unfold report_embedded. intros H. run_inv. destruct tr as [t|]; [|discriminate].
  run_inv. world_simpl. destruct (loss (self w)) as [acc|] eqn:Eacc; [|discriminate].
  run_inv.
  match goal with
  | H : the_dataloader _ = _ |- _ => apply the_dataloader_ok in H as [Hd ->]
  end.
  run_inv. world_simpl. eexists t, acc, _, _, _. cbn zeta. split_and!; try done.
  unfold logged, set_trace, with_hst. world_simpl. by rewrite <- !app_assoc.
Qed.

(** The standalone report, for every outcome. *)
Lemma report_standalone_run stats (w : World') sp :
  speed (self w) = Some sp ->
  report_standalone ms stats w =
    if a_save_json (args (self w)) && jdict_truthy (jdict (hst w)) then
      let f := path_div (save_dir (self w)) "predictions.json" in
      call_hook (eval_json ms stats)
        (set_trace (trace w ++ [ELogSpeed sp; EOpenWrite f; ELogSaving f;
                                EJsonDump (jdict_records (jdict (hst w))) f;
                                EEvalJson stats]) w)
    else (Ok (Some stats), logged (ELogSpeed sp) w).
Proof.
  intros Hsp. unfold report_standalone, bind, get_self, get_hst. rewrite Hsp.
  cbn [emit]. world_simpl.
  destruct (a_save_json (args (self w)) && jdict_truthy (jdict (hst w))); [|done].
  cbv [emit]. world_simpl. unfold set_trace. by rewrite <- !app_assoc.
Qed.

Lemma report_ok tr mdl stats (w : World') r w' :
  report ms env tr mdl stats w = (Ok r, w') ->
  self w' = self w /\
  exists evs,
    trace w' = trace w ++ evs /\
    Forall (fun e => is_pipeline_event e = false) evs.
Proof.
  unfold report. intros H. run_inv. destruct (training (self w)).
  - apply report_embedded_ok in H as (t & acc & d & losses & h & _ & _ & _ & _ & _ & ->).
    world_simpl. split_and!; try done. eexists; split; [done|]. by repeat constructor.
  - unfold report_standalone in H. run_inv.
    destruct (speed (self w)) as [sp|]; [|discriminate]. run_inv. world_simpl.
    destruct (a_save_json (args (self w)) && jdict_truthy (jdict (hst w))); run_inv;
      world_simpl; (split_and!; try done).
    + eexists. rewrite <- !app_assoc. split; [done|]. by repeat constructor.
    + eexists; split; [done|]. by repeat constructor.
Qed.

Lemma call_body_ok tr m (w : World') r w' :
  call_body ms env tr m w = (Ok r, w') ->
  exists mdl d w1 dt w2 stats w3,
    until_loop ms env tr m w = (Ok (mdl, d), w1) /\
    batch_loop ms env tr mdl 0 (batches d) Profile4 w1 = (Ok dt, w2) /\
    aggregate ms dt w2 = (Ok stats, w3) /\
    report ms env tr mdl stats w3 = (Ok r, w').
Proof.
  unfold call_body. intros H. run_inv.
  exists a, a0, w1, a1, w2, a2, w3. split_and!; try done.
  unfold until_loop. rewrite (bind_run _ Hrun), (bind_run _ Hrun0). done.
Qed.

(** The decorated call runs the body with gradients off and puts the switch
    back. *)
Lemma call_unfold tr m (w : World') :
  call ms env tr m w =
    (fst (call_body ms env tr m (with_grad false w)),
     with_grad (grad_enabled w) (snd (call_body ms env tr m (with_grad false w)))).
Proof.
  unfold call, smart_inference_mode, with_grad.
  by destruct (call_body _ _ _ _ _).
Qed.

Lemma call_ok tr m (w : World') r w' :
  call ms env tr m w = (Ok r, w') ->
  exists w'',
    call_body ms env tr m (with_grad false w) = (Ok r, w'') /\
    w' = with_grad (grad_enabled w) w''.
Proof.
  rewrite call_unfold. destruct (call_body _ _ _ _ _) as [r' w'']. cbn.
  intros [= -> <-]. eauto.
Qed.


(** *** What holds on every exit path *)

Section Preserve.

Context (R : World' -> World' -> Prop) `{!Frame R}.

Lemma preserves_ret {A} (a : A) : preserves R (ret a).
Proof. intros w. apply frame_refl. Qed.

Lemma preserves_raise {A} e : preserves R (raise (A:=A) e).
Proof. intros w. apply frame_refl. Qed.

Lemma preserves_bind {A B} (c : M' A) (k : A -> M' B) :
  preserves R c -> (forall a, preserves R (k a)) -> preserves R (bind c k).
Proof.
  intros Hc Hk w. unfold bind. specialize (Hc w).
  destruct (c w) as [[a|e] w1]; cbn in *; [|done].
  eapply frame_trans; [exact Hc|]. apply Hk.
Qed.

Lemma preserves_get_self : preserves R get_self.
Proof. intros w. apply frame_refl. Qed.

Lemma preserves_get_hst : preserves R get_hst.
Proof. intros w. apply frame_refl. Qed.

Lemma preserves_lift_res {A} (r : Res A) : preserves R (lift_res r).
Proof. destruct r; intros w; apply frame_refl. Qed.

Lemma preserves_with_profile {A} i dt (c : M' A) :
  preserves R c -> preserves R (with_profile env i dt c).
Proof.
  intros Hc w. unfold with_profile. specialize (Hc w).
  by destruct (c w) as [[a|e] w1].
Qed.

Lemma preserves_call_hook {A} (h : Hook' A) : preserves R (call_hook h).
Proof.
  intros w. unfold call_hook. destruct (h (self w) (hst w)) as [r h'].
  apply frame_hook.
Qed.

Lemma preserves_modify_hst f : preserves R (modify_hst f).
Proof. intros w. apply (frame_hook (R:=R)). Qed.

Lemma preserves_call_log {A} (h : Hook' A) ev :
  (forall a, preserves R (emit (ev a))) -> preserves R (call_log h ev).
Proof.
  intros Hev. unfold call_log. apply preserves_bind; [apply preserves_call_hook|].
  intros a. apply preserves_bind; [apply Hev|].
  intros _. apply preserves_ret.
Qed.

End Preserve.

(** Walk through a computation, leaving the steps that write to [self] or
    to the trace. *)
Ltac preserve_walk :=
  repeat first
    [ apply preserves_ret; exact _
    | apply preserves_raise; exact _
    | apply preserves_get_self; exact _
    | apply preserves_get_hst; exact _
    | apply preserves_lift_res; exact _
    | apply preserves_call_hook; exact _
    | apply preserves_modify_hst; exact _
    | apply preserves_with_profile
    | apply preserves_call_log; [exact _|intros ?]
    | apply preserves_bind; [exact _| |intros ?]
    | match goal with
      | |- preserves _ (if ?b then _ else _) => destruct b
      | |- preserves _ (match ?x with _ => _ end) => destruct x
      end ].

Ltac preserve_leaf :=
  try (intros ?w; cbv [emit modify_self modify_args snd]; world_simpl).

(** *** The inference context *)

Lemma agree_off_same {A} (c : M' A) :
  (forall w, grad_enabled (snd (c w)) = grad_enabled w) -> agree_off c c.
Proof. intros Hc w Hw. split; [done|]. by rewrite Hc. Qed.

Lemma agree_off_bind {A B} (c c' : M' A) (k k' : A -> M' B) :
  agree_off c c' -> (forall a, agree_off (k a) (k' a)) ->
  agree_off (bind c k) (bind c' k').
Proof.
  intros Hc Hk w Hw. destruct (Hc w Hw) as [E Hg]. unfold bind. rewrite E.
  destruct (c w) as [[a|e] w1]; cbn [snd] in *; [|done].
  exact (Hk a w1 Hg).
Qed.

Lemma agree_off_with_profile {A} i dt (c c' : M' A) :
  agree_off c c' ->
  agree_off (with_profile env i dt c) (with_profile (guard_env env) i dt c').
Proof.
  intros Hc w Hw. destruct (Hc w Hw) as [E Hg]. unfold with_profile.
  cbn [guard_env wall_clock]. rewrite E.
  by destruct (c w) as [[a|e] w1].
Qed.

Lemma agree_off_call_log {A} (h : Hook' A) ev :
  keeps_grad h -> agree_off (call_log h ev : M' A) (call_log (guard h) ev).
Proof.
  intros Hh w Hw. unfold call_log, bind, call_hook, guard, emit, ret.
  unfold grad_enabled in Hw. rewrite Hw.
  specialize (Hh (self w) (hst w)).
  destruct (h (self w) (hst w)) as [[a|e] h']; cbn [snd] in *;
    unfold grad_enabled; cbn; by rewrite Hh.
Qed.

Lemma agree_off_call_hook {A} (h : Hook' A) :
  keeps_grad h -> agree_off (call_hook h : M' A) (call_hook (guard h)).
Proof.
  intros Hh w Hw. unfold call_hook, guard.
  unfold grad_enabled in Hw. rewrite Hw.
  specialize (Hh (self w) (hst w)).
  destruct (h (self w) (hst w)) as [[a|e] h']; cbn [snd] in *;
    unfold grad_enabled; cbn; by rewrite Hh.
Qed.

Ltac agree_walk :=
  repeat first
    [ apply agree_off_call_log; solve [auto]
    | apply agree_off_call_hook; solve [auto]
    | apply agree_off_with_profile
    | apply agree_off_bind; [|intros ?]
    | match goal with
      | |- agree_off (if ?b then _ else _) _ => destruct b
      | |- agree_off (match ?x with _ => _ end) _ => destruct x
      end
    | apply agree_off_same; intros ?w; reflexivity ].

Ltac guard_cbn :=
  cbn [guard_methods guard_env
       get_dataloader preprocess postprocess init_metrics update_metrics get_stats
       check_stats print_results get_desc plot_val_samples plot_predictions
       pred_to_json eval_json
       img select_device AutoBackend check_imgsz check_dataset_yaml check_dataset
       forward de_parallel criterion label_loss_items zeros_like tensor_add
       tensor_cpu tensor_div wall_clock].

Lemma batch_loop_guarded tr mdl bs :
  hooks_keep_grad ms env ->
  forall i dt,
    agree_off (batch_loop ms env tr mdl i bs dt)
              (batch_loop (guard_methods ms) (guard_env env) tr mdl i bs dt).
Proof.
  intros [(_ & Hpre & Hpost & _ & Hupd & _ & _ & _ & _ & Hpv & Hpp & _)
          (_ & _ & _ & _ & _ & Hfwd & Hcrit & _)].
  induction bs as [|b bs IH]; intros i dt; cbn [batch_loop].
  - by apply agree_off_same.
  - apply agree_off_bind; [|intros ?; apply IH].
    unfold run_batch, accumulate_loss, plot_samples. guard_cbn.
    agree_walk.
Qed.

Lemma call_body_guarded tr m :
  hooks_keep_grad ms env ->
  agree_off (call_body ms env tr m)
            (call_body (guard_methods ms) (guard_env env) tr m).
Proof.
  intros Hk. pose proof (fun mdl bs => batch_loop_guarded tr mdl bs Hk) as Hloop.
  destruct Hk as [(Hgd & Hpre & Hpost & Him & Hupd & Hgs & Hcs & Hpr & Hdesc & Hpv
                   & Hpp & Hej)
                  (Hsd & Hab & Hci & Hcy & Hcd & Hfwd & Hcrit & Hlli)].
  unfold call_body, resolve, resolve_embedded, resolve_standalone, val_or_test,
    setup, aggregate, report, report_embedded, report_standalone, the_dataloader,
    lift_res, modify_args.
  guard_cbn.
  agree_walk; try apply Hloop.
Qed.

(** C9. The call is wrapped in the inference context.  Exit: when the call
    is over, whether it returned or raised, and whatever its body, the
    validator's methods and the collaborators did to the autograd switch
    meanwhile, the switch is as it was before the call.  Entry: the body is
    started with the switch off, whatever it was; so the outcome of a call
    does not depend on the switch of the caller, who gets the own switch
    back.  In between: unless one of them turns the switch on itself, no
    method and no collaborator is ever called with the switch on, for a
    call does the same when each of them is made to refuse to run under
    recorded gradients. *)
Theorem inference_context_scoped tr m (w : World') :
  grad_enabled (snd (call ms env tr m w)) = grad_enabled w /\
  call ms env tr m w =
    (fst (call_body ms env tr m (with_grad false w)),
     with_grad (grad_enabled w) (snd (call_body ms env tr m (with_grad false w)))) /\
  (forall g,
     call ms env tr m (with_grad g w)
       = (fst (call ms env tr m w), with_grad g (snd (call ms env tr m w)))) /\
  (hooks_keep_grad ms env ->
     call (guard_methods ms) (guard_env env) tr m w = call ms env tr m w).
Proof.
  split_and!.
  - by rewrite call_unfold.
  - apply call_unfold.
  - intros g. by rewrite !call_unfold.
  - intros Hk. unfold call, smart_inference_mode.
    by destruct (call_body_guarded tr m Hk (w:=with_grad false w) eq_refl) as [-> _].
Qed.

Global Instance standalone_frame_frame :
  Frame (@standalone_frame Batch Img Preds Model LossVec J V U).
Proof.
  split; unfold standalone_frame.
  - intros w. split_and!; try done. exists []. by rewrite app_nil_r.
  - intros w1 w2 w3 (-> & -> & -> & evs & -> & H1) (-> & -> & -> & evs' & -> & H2).
    split_and!; try done. exists (evs ++ evs').
    rewrite app_assoc. split; [done|]. by apply Forall_app.
  - intros w h. world_simpl. split_and!; try done. exists []. by rewrite app_nil_r.
Qed.

Lemma standalone_frame_emit e :
  is_standalone_resolution e = true ->
  preserves (@standalone_frame Batch Img Preds Model LossVec J V U) (emit e).
Proof.
  intros He w. cbv [emit snd standalone_frame]. world_simpl.
  split_and!; try done. exists [e]. split; [done|]. by repeat constructor.
Qed.

Lemma standalone_frame_self f :
  (forall s, training (f s) = training s /\ loss (f s) = loss s /\ data (f s) = data s) ->
  preserves (@standalone_frame Batch Img Preds Model LossVec J V U) (modify_self f).
Proof.
  intros Hf w. cbv [modify_self snd standalone_frame]. world_simpl.
  destruct (Hf (self w)) as (-> & -> & ->).
  split_and!; try done. exists []. by rewrite app_nil_r.
Qed.

Lemma resolve_standalone_frame m :
  preserves standalone_frame (resolve_standalone ms env m).
Proof.
  unfold resolve_standalone, val_or_test, modify_args.
  preserve_walk;
    first [ by apply standalone_frame_emit
          | by apply standalone_frame_self ].
Qed.

Global Instance backend_frame_frame :
  Frame (@backend_frame Batch Img Preds Model LossVec J V U).
Proof.
  split; unfold backend_frame.
  - intros w. split; [done|]. exists []. by rewrite app_nil_r.
  - intros w1 w2 w3 (-> & evs & ->) (-> & evs' & ->).
    split; [done|]. exists (evs ++ evs'). by rewrite app_assoc.
  - intros w h. world_simpl. split; [done|]. exists []. by rewrite app_nil_r.
Qed.

Ltac backend_leaf :=
  intros ?w; cbv [emit modify_self modify_args snd backend_frame]; world_simpl;
  (split; [done|]); first [by exists []; rewrite app_nil_r | by eexists [_]].

Lemma bind_unfold {A B} (c : M' A) (k : A -> M' B) w :
  bind c k w = match c w with
               | (Ok a, w') => k a w'
               | (Raise e, w') => (Raise e, w')
               end.
Proof. done. Qed.

Lemma call_log_unfold {A} (h : Hook' A) ev (w : World') :
  call_log h ev w = match h (self w) (hst w) with
                    | (Ok a, h') => (Ok a, logged (ev a) (with_hst h' w))
                    | (Raise e, h') => (Raise e, with_hst h' w)
                    end.
Proof.
  unfold call_log, call_hook, bind. by destruct (h (self w) (hst w)) as [[a|e] h'].
Qed.

(** C1, as the code has it. A call with neither handle fails with the
    assertion error and does nothing else; with a trainer handle the
    embedded resolution runs to its end and the model handle, passed or not,
    is ignored; with a model handle only, the standalone resolution runs: it
    leaves the embedded mode's fields alone and calls only its own
    collaborators, starting with [select_device] on the configured device
    and batch size and, when that returns, [AutoBackend] on the model
    handle, the selected device and the precision left for that device.  If
    one of the two raises, the call of the resolution raises the same, with
    nothing after it; when both return, they are the first two calls of the
    trace, [self.model] is the backend from then on, and the resolution
    returns nothing but that backend. *)
Theorem handles_select_the_path :
  (forall w : World',
     call ms env None None w =
       (Raise (AssertionError "Either trainer or model is needed for validation"),
        with_self (set_training false (self w)) w)) /\
  (forall tr m (w : World'), call ms env (Some tr) m w = call ms env (Some tr) None w) /\
  (forall tr m (w : World'),
     exists w1,
       resolve ms env (Some tr) m w = (Ok (default (t_model tr) (t_ema tr)), w1) /\
       training (self w1) = true /\
       loss (self w1) = Some (zeros_like env (t_loss_items tr)) /\
       filter is_standalone_resolution (trace w1)
         = filter is_standalone_resolution (trace w)) /\
  (forall m (w : World'),
     training (self (snd (resolve ms env None (Some m) w))) = false /\
     loss (self (snd (resolve ms env None (Some m) w))) = loss (self w) /\
     (exists evs,
        trace (snd (resolve ms env None (Some m) w)) = trace w ++ evs /\
        Forall (fun e => is_standalone_resolution e = true) evs) /\
     let a := args (self w) in
     let w0 := with_self (set_training false (self w)) w in
     match select_device env (a_device a) (a_batch_size a) (self w0) (hst w0) with
     | (Raise e, h) => resolve ms env None (Some m) w = (Raise e, with_hst h w0)
     | (Ok dev, h) =>
         let half' := a_half a && negb (bool_decide (d_type dev = "cpu")) in
         let w1 :=
           with_self (set_args (set_half half' a) (set_device (Some dev) (self w0)))
             (logged (ESelectDevice (a_device a) (a_batch_size a) dev) (with_hst h w0)) in
         match AutoBackend env m dev (a_dnn a) half' (self w1) (hst w1) with
         | (Raise e, h') => resolve ms env None (Some m) w = (Raise e, with_hst h' w1)
         | (Ok bk, h') =>
             (exists evs,
                trace (snd (resolve ms env None (Some m) w))
                  = trace w ++ [ESelectDevice (a_device a) (a_batch_size a) dev;
                                EAutoBackend m dev (a_dnn a) half' bk] ++ evs) /\
             model (self (snd (resolve ms env None (Some m) w))) = Some (bk_callable bk) /\
             (forall mdl w2,
                resolve ms env None (Some m) w = (Ok mdl, w2) -> mdl = bk_callable bk)
         end
     end).
Proof.
  split_and!.
  - intros w. rewrite call_unfold. by destruct w as [s [j e g] t].
  - done.
  - intros tr m w.
    destruct (resolve_embedded_run tr m w) as (w1 & Hres & Hs & Ht & _).
    exists w1. rewrite Hs, Ht. split_and!; try done.
    rewrite filter_app. by destruct (_ && _); cbn; rewrite app_nil_r.
  - intros m w.
    change (resolve ms env None (Some m) w)
      with (resolve_standalone ms env (Some m) (with_self (set_training false (self w)) w)).
    destruct (resolve_standalone_frame (Some m) (with_self (set_training false (self w)) w))
      as (Htr & Hl & _ & evs & Ht & Hevs).
    world_simpl. split_and!; [done|done|by eauto|].
    cbv zeta.
    remember (resolve_standalone ms env (Some m) (with_self (set_training false (self w)) w))
      as out eqn:Eout.
    pose proof Eout as Eout'.
    unfold resolve_standalone in Eout.
    rewrite bind_unfold in Eout. cbn [get_self] in Eout.
    rewrite bind_unfold, call_log_unfold in Eout. world_simpl.
    destruct (select_device env _ _ _ _) as [[dev|e] h]; [|done].
    do 3 (rewrite bind_unfold in Eout; cbn [modify_self modify_args get_self] in Eout).
    rewrite bind_unfold, call_log_unfold in Eout. world_simpl.
    unfold logged, set_trace, with_hst, with_self in *. world_simpl.
    destruct (AutoBackend env _ _ _ _ _ _) as [[bk|e] h']; [|done].
    rewrite bind_unfold in Eout. cbn [modify_self] in Eout.
    match type of Eout with
    | _ = ?c ?w2 =>
        assert (preserves backend_frame c) as Hrest
          by (unfold val_or_test, modify_args; preserve_walk; backend_leaf);
        destruct (Hrest w2) as (Hm & evs' & Ht')
    end.
    rewrite <- Eout in Hm, Ht'. world_simpl.
    assert (trace (snd out)
            = trace w ++ [ESelectDevice (a_device (args (self w)))
                            (a_batch_size (args (self w))) dev;
                          EAutoBackend m dev (a_dnn (args (self w)))
                            (a_half (args (self w))
                             && negb (bool_decide (d_type dev = "cpu"))) bk] ++ evs')
      as Hpre by (rewrite Ht'; by rewrite <- !app_assoc).
    split_and!; [by eauto|done|].
    intros mdl w2 Hok. rewrite Hok in Hpre. rewrite Eout' in Hok.
    apply resolve_standalone_ok in Hok as (dev' & bk' & imgsz & dl & tail & -> & Ht2 & _).
    cbn [snd] in Hpre. rewrite Ht2 in Hpre. world_simpl.
    apply app_inv_head in Hpre. cbn [app] in Hpre. by simplify_eq.
Qed.

(** C2. When the standalone resolution succeeds, the batch size is set by
    the backend it built: for a compiled engine it is the backend's own
    batch size, and nothing is forced; for any other backend it is forced
    to 1, with the log line, exactly when the backend reports neither the
    native nor the scripted format, and is left as configured when it
    reports one of them. *)
Theorem batch_size_by_backend m (w : World') mdl w1 :
  resolve ms env None (Some m) w = (Ok mdl, w1) ->
  exists evs dev dnn fp16 bk,
    trace w1 = trace w ++ evs /\
    EAutoBackend m dev dnn fp16 bk ∈ evs /\
    mdl = bk_callable bk /\
    ((exists imgsz, ELogForceBatch imgsz ∈ evs)
       <-> engine bk = false /\ pt bk = false /\ jit bk = false) /\
    (engine bk = false -> pt bk = false -> jit bk = false ->
       a_batch_size (args (self w1)) = 1%Z) /\
    (engine bk = true -> a_batch_size (args (self w1)) = bk_batch_size bk) /\
    (engine bk = false -> pt bk = true \/ jit bk = true ->
       a_batch_size (args (self w1)) = a_batch_size (args (self w))).
Proof.
  unfold resolve. intros H. run_inv.
  apply resolve_standalone_ok in H
    as (dev & bk & imgsz & dl & tail & -> & Ht & Htail & Hs).
  world_simpl.
  eexists _, dev, (a_dnn (args (self w))),
    (a_half (args (self w)) && negb (bool_decide (d_type dev = "cpu"))), bk.
  split; [exact Ht|].
  rewrite Hs. world_simpl. unfold resolved_batch_size, force_batch_events.
  split_and!.
  - rewrite elem_of_app, !elem_of_cons. by auto.
  - done.
  - split.
    + intros [z Hz]. rewrite !elem_of_app, !elem_of_cons in Hz.
      destruct Hz as [[?|[?|[?|Hz]]]|[Hz|Hz]]; try done.
      * by apply elem_of_nil in Hz.
      * destruct (engine bk); [by apply elem_of_nil in Hz|].
        destruct (pt bk), (jit bk); cbn in Hz; try by apply elem_of_nil in Hz. done.
      * rewrite Forall_forall in Htail. by destruct (Htail _ Hz).
    + intros (-> & -> & ->). exists imgsz. cbn. rewrite !elem_of_cons. by auto 10.
  - by intros -> -> ->.
  - by intros ->.
  - intros -> [-> | ->]; [done|]. by destruct (pt bk).
Qed.

(** *** The report, seen from the whole call *)

Lemma call_body_report tr m (w : World') mdl stats w2 :
  until_report ms env tr m w = (Ok (mdl, stats), w2) ->
  call_body ms env tr m w = report ms env tr mdl stats w2 /\
  training (self w2) = is_embedded tr /\
  is_Some (speed (self w2)) /\
  a_save_json (args (self w2)) = a_save_json (args (self w)) /\
  save_dir (self w2) = save_dir (self w).
Proof.
  unfold until_report. intros H. run_inv. destruct a as [mdl' d].
  run_inv.
  pose proof Hrun as Hloop. unfold until_loop in Hloop. run_inv.
  unfold call_body.
  rewrite (bind_run _ Hrun2), (bind_run _ Hrun3), (bind_run _ Hrun0), (bind_run _ Hrun1).
  split; [done|].
  apply until_loop_ok in Hrun as (pre & _ & _ & Htr & _ & _ & Hsj & Hsd & _).
  apply batch_loop_ok in Hrun0 as (chunks & bi & _ & _ & Hs2).
  apply aggregate_ok in Hrun1 as (d' & sp & h & _ & _ & ->).
  world_simpl. rewrite Hs2. world_simpl. by eauto.
Qed.


Lemma compute_speed_zero dt : compute_speed dt 0 = Raise ZeroDivisionError.
Proof. by destruct dt as [[[t0 t1] t2] t3]. Qed.

Lemma the_dataloader_run (w : World') d :
  dataloader (self w) = Some d -> the_dataloader w = (Ok d, w).
Proof. unfold the_dataloader, bind, get_self. by intros ->. Qed.

(** C10. When the resolved dataloader yields no batch and its dataset has
    no sample, the call goes from the setup straight to [get_stats], with
    the export list empty; it never returns; and when [get_stats],
    [check_stats] and [print_results] return, it raises the division error
    of line 118, having called nothing of the pipeline. *)
Theorem empty_dataset_divides_by_zero tr m (w : World') mdl d w1 :
  until_loop ms env tr m w = (Ok (mdl, d), w1) ->
  batches d = [] ->
  dataset_len d = 0 ->
  call_body ms env tr m w
    = (let* stats := aggregate ms Profile4 in report ms env tr mdl stats) w1 /\
  jdict (hst w1) = Some [] /\
  (forall r, fst (call_body ms env tr m w) <> Ok r) /\
  (forall stats h1 h2 h3,
     get_stats ms (self w1) (hst w1) = (Ok stats, h1) ->
     check_stats ms stats (self w1) h1 = (Ok tt, h2) ->
     print_results ms (self w1) h2 = (Ok tt, h3) ->
     call_body ms env tr m w =
       (Raise ZeroDivisionError,
        set_trace (trace w1 ++ [EGetStats stats; ECheckStats stats; EPrintResults])
          (with_hst h3 w1))).
Proof.
  intros H Hb Hn.
  assert (call_body ms env tr m w
    = (let* stats := aggregate ms Profile4 in report ms env tr mdl stats) w1) as Hcall.
  { pose proof H as H'. unfold until_loop in H'. run_inv. unfold call_body.
    rewrite (bind_run _ Hrun), (bind_run _ Hrun0), Hb. done. }
  apply until_loop_ok in H as (pre & _ & _ & _ & Hd & Hj & _).
  split_and!; try done.
  - intros r Hr. rewrite Hcall in Hr.
    destruct (bind _ _ w1) as [r' w'] eqn:E. cbn in Hr. subst r'.
    apply bind_ok in E as (stats & w2 & Hagg & _).
    apply aggregate_ok in Hagg as (d' & sp & h & Hd' & Hsp & _).
    rewrite Hd in Hd'. injection Hd' as <-.
    by rewrite Hn, compute_speed_zero in Hsp.
  - intros stats h1 h2 h3 H1 H2 H3. rewrite Hcall.
    unfold aggregate, the_dataloader, bind, call_log, call_hook, emit, ret, get_self,
      bind.
    rewrite H1. world_simpl. rewrite H2. world_simpl. rewrite H3. world_simpl.
    rewrite Hd, Hn, compute_speed_zero.
    unfold lift_res, raise, set_trace, with_hst. world_simpl.
    by rewrite <- !app_assoc.
Qed.

(** *** The value a call returns *)

Lemma loss_terms_prelude (pre : list (@Event Batch Img Preds Model LossVec J V)) :
  Forall (fun e => is_prelude_event e = true) pre -> loss_terms pre = [].
Proof.
  induction 1 as [|e pre He _ IH]; [done|].
  unfold loss_terms in *. cbn. rewrite IH. by destruct e.
Qed.

Lemma standalone_chunks_no_loss plots ibs chunks :
  Forall2 (pipeline_chunk env false plots) ibs chunks ->
  filter is_loss_event (concat chunks) = [].
Proof.
  induction 1 as [|ib c ibs cs (b' & p & p' & ls & Hls & ->) _ IH]; [done|].
  cbn [concat]. rewrite filter_app, IH, app_nil_r.
  cbn in Hls. subst ls. unfold stage_events.
  by destruct (plots && (ib.1 <? 3)%nat).
Qed.

Lemma report_standalone_ok stats (w : World') r w' :
  report_standalone ms stats w = (Ok r, w') ->
  exists evs,
    trace w' = trace w ++ evs /\
    filter is_loss_event evs = [] /\
    (r = Some stats \/ EEvalJson stats ∈ evs).
Proof.
  destruct (speed (self w)) as [sp|] eqn:Hsp.
  - rewrite (report_standalone_run stats Hsp).
    destruct (a_save_json (args (self w)) && jdict_truthy (jdict (hst w))).
    + cbn zeta. intros (h & _ & ->)%call_hook_ok. world_simpl.
      eexists. split_and!; [done|done|]. right. rewrite !elem_of_cons. by auto 10.
    + intros [= <- <-]. world_simpl. eexists. split_and!; [done|done|]. by left.
  - unfold report_standalone, bind, get_self. by rewrite Hsp.
Qed.

(** C4. An embedded call that returns, returns the stats of [get_stats]
    merged with what [label_loss_items] made, under the prefix ["val"], of
    the average loss: the criterion's loss terms added up from zero, in
    order, divided by the number of batches.  On a common key the loss term
    stands; without common keys the merge is the plain union.  A
    standalone call that returns never called the criterion or
    [label_loss_items], and returns the stats of [get_stats] unless
    [eval_json] was called on them. *)
Theorem return_value_by_mode tr m (w : World') r w' :
  call ms env tr m w = (Ok r, w') ->
  exists evs stats,
    trace w' = trace w ++ evs /\
    EGetStats stats ∈ evs /\
    match tr with
    | Some t =>
        exists losses d,
          dataloader (self w') = Some d /\
          ELabelLossItems
            (tensor_div env
               (tensor_cpu env
                  (fold_left (tensor_add env) (loss_terms evs)
                     (zeros_like env (t_loss_items t))))
               (length (batches d)))
            "val" losses ∈ evs /\
          r = Some (losses ∪ stats) /\
          (forall k v, losses !! k = Some v -> (losses ∪ stats) !! k = Some v) /\
          (forall k, losses !! k = None -> (losses ∪ stats) !! k = stats !! k) /\
          (losses ##ₘ stats -> losses ∪ stats = stats ∪ losses)
    | None =>
        filter is_loss_event evs = [] /\
        (r = Some stats \/ EEvalJson stats ∈ evs)
    end.
Proof.
  intros (w'' & H & ->)%call_ok.
  apply call_body_ok in H as (mdl & d & w1 & dt & w2 & stats & w3 & H1 & H2 & H3 & H4).
  apply until_loop_ok in H1 as (pre & Ht1 & Hpre & Htr & Hd & _ & _ & _ & Hloss).
  apply batch_loop_ok in H2 as (chunks & bi & Hch & Ht2 & Hs2).
  apply aggregate_ok in H3 as (d' & sp & h & _ & _ & ->).
  unfold report, bind, get_self in H4. world_simpl.
  rewrite Hs2 in H4. world_simpl. rewrite Htr in H4, Hch.
  destruct tr as [t|]; cbn [is_embedded] in *.
  - apply report_embedded_ok in H4
      as (t' & acc & d'' & losses & h' & [= <-] & Hacc & Hd'' & _ & -> & ->).
    cbv zeta in *. world_simpl.
    rewrite Hd in Hd''. injection Hd'' as <-.
    rewrite (Hloss t eq_refl) in Hacc. cbn in Hacc. injection Hacc as <-.
    exists (pre ++ concat chunks
            ++ [EGetStats stats; ECheckStats stats; EPrintResults]
            ++ [EModelFloat mdl;
                ELabelLossItems
                  (tensor_div env
                     (tensor_cpu env
                        (fold_left (tensor_add env) (loss_terms (concat chunks))
                           (zeros_like env (t_loss_items t))))
                     (len_dataloader d)) "val" losses]), stats.
    split_and!.
    + rewrite Ht2, Ht1. by rewrite <- !app_assoc.
    + rewrite !elem_of_app, !elem_of_cons. by auto 10.
    + exists losses, d. split_and!.
      * done.
      * rewrite !loss_terms_app, (loss_terms_prelude Hpre). cbn [app].
        unfold loss_terms at 2 3. cbn [omap list_omap]. rewrite app_nil_r.
        rewrite !elem_of_app, !elem_of_cons. by auto 10.
      * done.
      * intros k v Hk. by apply lookup_union_Some_l.
      * intros k Hk. by apply lookup_union_r.
      * apply map_union_comm.
  - apply report_standalone_ok in H4 as (evs & Ht4 & Hevs & Hr). world_simpl.
    exists (pre ++ concat chunks
            ++ [EGetStats stats; ECheckStats stats; EPrintResults] ++ evs), stats.
    split_and!.
    + rewrite Ht4, Ht2, Ht1. by rewrite <- !app_assoc.
    + rewrite !elem_of_app, !elem_of_cons. by auto 10.
    + rewrite !filter_app, Hevs, (standalone_chunks_no_loss Hch).
      rewrite (filter_nil_Forall (P:=is_prelude_event) (Q:=is_loss_event) Hpre); [done|].
      intros e He. by apply prelude_event_kind.
    + destruct Hr as [->|Hin]; [by left|right].
      rewrite !elem_of_app. by auto 10.
Qed.

(** *** The speed profile *)

Lemma compute_speed_pos t0 t1 t2 t3 n :
  n <> 0 ->
  compute_speed (t0, t1, t2, t3) n =
    Ok (ms_per_sample t0 n, ms_per_sample t1 n, ms_per_sample t2 n, ms_per_sample t3 n).
Proof.
  intros Hn. unfold compute_speed, per_image_ms.
  destruct (Nat.eqb_spec n 0) as [->|_]; done.
Qed.

(** *** Signs of doubles *)












(** *** The accumulators, stage by stage *)




(** *** A call whose collaborators return, returns *)

Ltac use_returns Hr :=
  match type of Hr with
  | returns ?hk =>
      match goal with
      | |- context [hk ?s ?h] =>
          let E := fresh "E" in
          destruct (Hr s h) as (? & ? & E); rewrite E; clear E; world_simpl
      end
  end.

Lemma run_batch_returns tr mdl i b dt (w : World') :
  stages_return ms env ->
  (training (self w) = true -> is_Some tr /\ is_Some (loss (self w))) ->
  exists dt' w', run_batch ms env tr mdl i b dt w = (Ok dt', w').
Proof.
  intros (Hpre & Hinf & Hcrit & Hpost & Hupd & Hpv & Hpp) Hemb.
  unfold run_batch, with_profile, bind, call_log, call_hook, emit, ret,
    modify_self, get_self, bind.
  world_simpl. use_returns (Hpre b). use_returns (Hinf mdl (img env x)).
  destruct (training (self w)) eqn:Etr.
  - destruct Hemb as [[t ->] [acc Hacc]]; [done|].
    unfold accumulate_loss, bind, call_log, call_hook, emit, ret, modify_self, get_self, bind.
    world_simpl. use_returns (Hcrit t x1 x). rewrite Hacc. world_simpl.
    use_returns (Hpost x1). use_returns (Hupd x5 x).
    unfold plot_samples, bind, call_log, call_hook, emit, ret, get_self, bind. world_simpl.
    destruct (a_plots (args (self w)) && (i <? 3)%nat); [|by eauto].
    use_returns (Hpv x i). use_returns (Hpp x x5 i). by eauto.
  - world_simpl. use_returns (Hpost x1). use_returns (Hupd x3 x).
    unfold plot_samples, bind, call_log, call_hook, emit, ret, get_self, bind. world_simpl.
    destruct (a_plots (args (self w)) && (i <? 3)%nat); [|by eauto].
    use_returns (Hpv x i). use_returns (Hpp x x3 i). by eauto.
Qed.

Lemma batch_loop_returns tr mdl bs :
  stages_return ms env ->
  forall i dt (w : World'),
    (training (self w) = true -> is_Some tr /\ is_Some (loss (self w))) ->
    exists dt' w', batch_loop ms env tr mdl i bs dt w = (Ok dt', w').
Proof.
  intros Hst. induction bs as [|b bs IH]; intros i dt w Hemb; cbn [batch_loop].
  - by eexists _, _.
  - destruct (run_batch_returns (tr:=tr) mdl i b dt Hst Hemb) as (dt1 & w1 & H1).
    rewrite (bind_run _ H1).
    apply run_batch_ok in H1 as (b' & p & p' & ls & bi & _ & _ & Hs).
    apply IH. rewrite Hs. world_simpl. intros Htr.
    destruct (Hemb Htr) as [Ht [acc Hacc]]. split; [done|].
    rewrite Hacc. by eexists.
Qed.

(** X18. Once the resolution and the setup are through, a call whose
    collaborators return and whose dataset is not empty returns. *)
Lemma call_returns tr m (w : World') mdl d w1 :
  stages_return ms env ->
  finish_returns ms env ->
  until_loop ms env tr m w = (Ok (mdl, d), w1) ->
  dataset_len d <> 0 ->
  exists r w', call_body ms env tr m w = (Ok r, w').
Proof.
  intros Hst (Hgs & Hcs & Hpr & Hll & Hej) Hloop Hn.
  assert (call_body ms env tr m w =
            (let* dt := batch_loop ms env tr mdl 0 (batches d) Profile4 in
             let* stats := aggregate ms dt in
             report ms env tr mdl stats) w1) as ->.
  { pose proof Hloop as H'. unfold until_loop in H'. run_inv.
    unfold call_body. by rewrite (bind_run _ Hrun), (bind_run _ Hrun0). }
  apply until_loop_ok in Hloop as (pre & _ & _ & Htr & Hd & _ & _ & _ & Hloss).
  destruct (batch_loop_returns (tr:=tr) mdl (batches d) Hst 0 Profile4 (w:=w1))
    as (dt & w2 & H2).
  { rewrite Htr. destruct tr as [t|]; [|done]. intros _. split; [done|].
    rewrite (Hloss t eq_refl). by eexists. }
  rewrite (bind_run _ H2).
  apply batch_loop_ok in H2 as (chunks & bi & _ & _ & Hs2).
  destruct dt as [[[t0 t1] t2] t3].
  unfold aggregate, the_dataloader, report, report_embedded, report_standalone,
    the_dataloader, lift_res, bind, call_log, call_hook, emit, ret, raise, modify_self,
    get_self, get_hst, bind.
  world_simpl. use_returns Hgs. use_returns (Hcs x). use_returns Hpr.
  rewrite Hs2. world_simpl. rewrite Hd, (compute_speed_pos _ _ _ _ Hn). world_simpl.
  rewrite Htr. destruct tr as [t|]; cbn [is_embedded].
  - rewrite (Hloss t eq_refl). cbn [fmap option_fmap option_map]. world_simpl.
    rewrite Hd. world_simpl.
    match goal with
    | |- context [label_loss_items env t ?l "val" ?s ?h] =>
        destruct (Hll t l "val" s h) as (? & ? & E); rewrite E
    end.
    by eauto.
  - world_simpl.
    destruct (a_save_json (args (self w1)) && jdict_truthy (jdict x4)); [|by eauto].
    world_simpl. use_returns (Hej x). by eauto.
Qed.

(** *** What a call leaves alone, on every exit path *)

Global Instance config_frame_frame :
  Frame (@config_frame Batch Img Preds Model LossVec J V U).
Proof.
  split; unfold config_frame.
  - intros w. by split_and!.
  - intros w1 w2 w3 (-> & -> & -> & -> & -> & -> & H1) (-> & -> & -> & -> & -> & -> & H2).
    split_and!; try done. by auto.
  - intros w h. world_simpl. by split_and!.
Qed.

Global Instance embedded_fields_frame_frame :
  Frame (@embedded_fields_frame Batch Img Preds Model LossVec J V U).
Proof.
  split; unfold embedded_fields_frame.
  - done.
  - by intros w1 w2 w3 (-> & -> & ->) (-> & -> & ->).
  - done.
Qed.

Global Instance standalone_parts_frame_frame :
  Frame (@standalone_parts_frame Batch Img Preds Model LossVec J V U).
Proof.
  split; unfold standalone_parts_frame.
  - done.
  - by intros w1 w2 w3 (-> & ->) (-> & ->).
  - done.
Qed.

Ltac config_leaf :=
  intros ?w; cbv [emit modify_self modify_args snd config_frame]; world_simpl;
  split_and!; try done; by destruct (a_half (args (self _))).

Lemma batch_loop_config tr mdl bs :
  forall i dt, preserves config_frame (batch_loop ms env tr mdl i bs dt).
Proof.
  induction bs as [|b bs IH]; intros i dt; cbn [batch_loop].
  - preserve_walk.
  - apply preserves_bind; [exact _| |intros ?; apply IH].
    unfold run_batch, accumulate_loss, plot_samples.
    preserve_walk; config_leaf.
Qed.

Lemma call_body_config tr m : preserves config_frame (call_body ms env tr m).
Proof.
  unfold call_body, setup, aggregate, report, report_embedded, report_standalone,
    the_dataloader.
  apply preserves_bind; [exact _| |intros mdl].
  - unfold resolve, resolve_embedded, resolve_standalone, val_or_test.
    preserve_walk; config_leaf.
  - preserve_walk; try apply batch_loop_config; config_leaf.
Qed.

(** X1. Whatever a call does and however it ends, the options [device], [dnn],
    [imgsz], [data] and [save_json] and the run directory are as before,
    and [half] is set afterwards only if it was set before: a call can
    clear it and never sets it. *)
Theorem call_keeps_config tr m (w : World') :
  let w' := snd (call ms env tr m w) in
  a_device (args (self w')) = a_device (args (self w)) /\
  a_dnn (args (self w')) = a_dnn (args (self w)) /\
  a_imgsz (args (self w')) = a_imgsz (args (self w)) /\
  a_data (args (self w')) = a_data (args (self w)) /\
  a_save_json (args (self w')) = a_save_json (args (self w)) /\
  save_dir (self w') = save_dir (self w) /\
  (a_half (args (self w')) = true -> a_half (args (self w)) = true).
Proof.
  cbv zeta. rewrite call_unfold. world_simpl.
  apply (call_body_config tr m (with_grad false w)).
Qed.

Ltac fields_leaf :=
  intros ?w; cbv [emit modify_self modify_args snd embedded_fields_frame];
  world_simpl; done.

Lemma batch_loop_standalone_fields mdl bs :
  forall i dt, preserves embedded_fields_frame (batch_loop ms env None mdl i bs dt).
Proof.
  induction bs as [|b bs IH]; intros i dt; cbn [batch_loop].
  - preserve_walk.
  - apply preserves_bind; [exact _| |intros ?; apply IH].
    unfold run_batch, accumulate_loss, plot_samples.
    preserve_walk; fields_leaf.
Qed.

(** X2. A call without a trainer, however it ends, leaves the mode flag off
    and the fields of the embedded mode, [self.loss] and [self.data], as
    they were: the standalone mode neither reads nor writes them. *)
Theorem standalone_keeps_embedded_fields m (w : World') :
  let w' := snd (call ms env None m w) in
  training (self w') = false /\
  loss (self w') = loss (self w) /\
  data (self w') = data (self w).
Proof.
  cbv zeta. rewrite call_unfold. world_simpl.
  assert (preserves embedded_fields_frame
            (let* mdl := resolve_standalone ms env m in
             let* d := setup ms env mdl in
             let* dt := batch_loop ms env None mdl 0 (batches d) Profile4 in
             let* stats := aggregate ms dt in
             report ms env None mdl stats)) as H.
  { unfold setup, aggregate, report, report_embedded, report_standalone,
      the_dataloader, resolve_standalone, val_or_test.
    preserve_walk; try apply batch_loop_standalone_fields; fields_leaf. }
  destruct (H (with_self (set_training false (self (with_grad false w))) (with_grad false w)))
    as (Ht & Hl & Hd).
  done.
Qed.

Ltac parts_leaf :=
  intros ?w; cbv [emit modify_self modify_args snd standalone_parts_frame];
  world_simpl; rewrite ?filter_app, ?app_nil_r; done.

Lemma batch_loop_standalone_parts tr mdl bs :
  forall i dt, preserves standalone_parts_frame (batch_loop ms env tr mdl i bs dt).
Proof.
  induction bs as [|b bs IH]; intros i dt; cbn [batch_loop].
  - preserve_walk.
  - apply preserves_bind; [exact _| |intros ?; apply IH].
    unfold run_batch, accumulate_loss, plot_samples.
    preserve_walk; parts_leaf.
Qed.

(** X3. A call with a trainer, however it ends, keeps the dataloader the
    validator was built with and calls none of the collaborators of the
    standalone resolution: no device selection, no backend, no dataset
    check, no [get_dataloader]. *)
Theorem embedded_keeps_standalone_parts tr m (w : World') :
  let w' := snd (call ms env (Some tr) m w) in
  dataloader (self w') = dataloader (self w) /\
  filter is_standalone_resolution (trace w')
    = filter is_standalone_resolution (trace w).
Proof.
  cbv zeta. rewrite call_unfold. world_simpl.
  assert (preserves standalone_parts_frame (call_body ms env (Some tr) m)) as H.
  { unfold call_body, setup, aggregate, report, report_embedded, report_standalone,
      the_dataloader, resolve, resolve_embedded.
    preserve_walk; try apply batch_loop_standalone_parts; parts_leaf. }
  apply (H (with_grad false w)).
Qed.

(** *** The standalone resolution in full *)

Lemma resolve_standalone_detail m (w : World') mdl w1 :
  resolve_standalone ms env (Some m) w = (Ok mdl, w1) ->
  exists dev bk imgsz d dl,
    let half' := a_half (args (self w)) && negb (bool_decide (d_type dev = "cpu")) in
    let bs := resolved_batch_size bk (a_batch_size (args (self w))) in
    mdl = bk_callable bk /\
    trace w1 = trace w ++
      [ESelectDevice (a_device (args (self w))) (a_batch_size (args (self w))) dev;
       EAutoBackend m dev (a_dnn (args (self w))) half' bk;
       ECheckImgsz (a_imgsz (args (self w))) (stride bk) imgsz]
      ++ force_batch_events bk imgsz
      ++ [dataset_event (a_data (args (self w))) d]
      ++ (match supplied (dataloader (self w)), d !! "val" with
          | None, Some path => [EGetDataloader path bs dl]
          | _, _ => []
          end) /\
    dataloader (self w1) = Some dl /\
    a_batch_size (args (self w1)) = bs /\
    match supplied (dataloader (self w)) with
    | Some dl0 => dl = dl0
    | None => exists path, d !! "val" = Some path /\ str_truthy path = true
    end /\
    a_half (args (self w1)) = half'.
Proof.
  unfold resolve_standalone. intros H. run_inv. world_simpl.
  rename a0 into dev, a4 into bk, a6 into imgsz, a9 into d, a10 into dl.
  set (half' := a_half (args (self w)) && negb (bool_decide (d_type dev = "cpu"))) in *.
  set (w0 := logged (ECheckImgsz _ _ _) _) in Hrun7.
  assert (self w9 =
            set_args (set_batch_size (resolved_batch_size bk (a_batch_size (args (self w))))
                        (set_half half' (args (self w))))
              (set_model (Some (bk_callable bk))
                (set_device (Some (if engine bk then dev else bk_device bk)) (self w)))
          /\ trace w9 = trace w0 ++ force_batch_events bk imgsz) as (Hs9 & Ht9).
  { unfold resolved_batch_size, force_batch_events. subst w0.
    destruct (engine bk); [|destruct (negb (pt bk) && negb (jit bk))];
      run_inv; world_simpl; rewrite ?app_nil_r; done. }
  assert (exists h9, w11 = logged (dataset_event (a_data (args (self w))) d) (with_hst h9 w9))
    as (h9 & ->).
  { unfold dataset_event. rewrite Hs9 in Hrun9. world_simpl.
    destruct (endswith _ _); run_inv; eauto. }
  world_simpl. rewrite Hs9 in Hrun10. world_simpl.
  exists dev, bk, imgsz, d, dl. cbv zeta. unfold supplied.
  destruct (dataloader (self w)) as [dl0|]; [destruct (dl_truthy dl0)|]; run_inv;
    try match goal with
        | H : val_or_test _ _ = _ |- _ => apply val_or_test_ok in H as (Hval & Htruthy & ->)
        end;
    run_inv; world_simpl; rewrite ?Hval, Ht9, ?Hs9; subst w0; world_simpl;
    rewrite <- ?app_assoc; split_and!; eauto.
Qed.

Lemma substring_all s : String.substring 0 (String.length s) s = s.
Proof. induction s as [|c s IH]; simpl; [done|by rewrite IH]. Qed.

Lemma substring_suffix p suf :
  String.substring (String.length p) (String.length suf) (p +:+ suf) = suf.
Proof. induction p as [|c p IH]; simpl; [apply substring_all|done]. Qed.

Lemma string_length_app p q :
  String.length (p +:+ q) = String.length p + String.length q.
Proof. induction p as [|c p IH]; simpl; [done|by rewrite IH]. Qed.

Lemma substring_split s : forall i k,
  i + k = String.length s ->
  s = String.substring 0 i s +:+ String.substring i k s.
Proof.
  induction s as [|c s IH]; intros i k Hik.
  - destruct i, k; simpl in *; done.
  - destruct i as [|i]; simpl in *.
    + destruct k as [|k]; [done|]. simpl. injection Hik as ->.
      by rewrite substring_all.
    + change (String c s = String c (String.substring 0 i s +:+ String.substring i k s)).
      f_equal. apply IH. lia.
Qed.

(** [endswith] is [str.endswith]: the string is something followed by the
    suffix. *)
Lemma endswith_spec s suf :
  endswith s suf = true <-> exists p, s = p +:+ suf.
Proof.
  unfold endswith. split.
  - destruct (Nat.leb_spec (String.length suf) (String.length s)) as [Hle|]; [|done].
    intros Hsub%bool_decide_eq_true.
    exists (String.substring 0 (String.length s - String.length suf) s).
    pose proof (substring_split (s:=s) (i:=String.length s - String.length suf)
                  (k:=String.length suf)) as Hs.
    rewrite Hsub in Hs. apply Hs. lia.
  - intros [p ->]. rewrite string_length_app.
    destruct (Nat.leb_spec (String.length suf) (String.length p + String.length suf));
      [|lia].
    apply bool_decide_eq_true.
    replace (String.length p + String.length suf - String.length suf)
      with (String.length p) by lia.
    apply substring_suffix.
Qed.

(** X4. The dataset locator decides which check runs: a standalone resolution
    that succeeds calls exactly one of [check_dataset_yaml] and
    [check_dataset], once, and it is [check_dataset_yaml] exactly when the
    locator is some text followed by [".yaml"]. *)
Theorem dataset_check_by_suffix m (w : World') mdl w1 :
  resolve ms env None (Some m) w = (Ok mdl, w1) ->
  exists evs,
    trace w1 = trace w ++ evs /\
    length (filter is_dataset_check evs) = 1 /\
    (length (filter is_dataset_yaml_check evs) = 1
       <-> exists p, a_data (args (self w)) = p +:+ ".yaml") /\
    (length (filter is_dataset_yaml_check evs) = 0
       <-> ~ exists p, a_data (args (self w)) = p +:+ ".yaml").
Proof.
  unfold resolve. intros H. run_inv.
  apply resolve_standalone_detail in H
    as (dev & bk & imgsz & d & dl & _ & Ht & _). world_simpl.
  eexists. split; [exact Ht|].
  rewrite <- endswith_spec.
  unfold force_batch_events, dataset_event.
  destruct (endswith (a_data (args (self w))) ".yaml");
    destruct (engine bk), (negb (pt bk) && negb (jit bk)),
      (supplied (dataloader (self w))), (d !! "val"); cbn; split_and!; try done;
    split; (done || lia || (by intros []) ).
Qed.

(** X5. With a dataloader that is not empty, the standalone resolution keeps
    it: whenever the resolution's collaborators return it succeeds,
    [get_dataloader] is not called, and the split entries of the dataset
    descriptor are not looked at, so none of them needs to be there. *)
Theorem supplied_dataloader_kept m (w : World') dl0 :
  resolution_returns env ->
  dataloader (self w) = Some dl0 ->
  batches dl0 <> [] ->
  exists mdl w1,
    resolve ms env None (Some m) w = (Ok mdl, w1) /\
    dataloader (self w1) = Some dl0 /\
    filter is_get_dataloader (trace w1) = filter is_get_dataloader (trace w).
Proof.
  intros (Hsel & Hbk & Himg & Hyaml & Hds) Hdl Hne.
  assert (dl_truthy dl0 = true) as Htruthy.
  { unfold dl_truthy, len_dataloader. by destruct (batches dl0). }
  assert (exists mdl w1, resolve ms env None (Some m) w = (Ok mdl, w1)) as (mdl & w1 & H).
  { unfold resolve, resolve_standalone, bind, call_log, call_hook, emit, ret,
      modify_args, modify_self, get_self, bind.
    world_simpl.
    match goal with
    | |- context [select_device env ?a ?b ?s ?h] =>
        destruct (Hsel a b s h) as (? & ? & E); rewrite E; clear E; world_simpl
    end.
    match goal with
    | |- context [AutoBackend env ?a ?b ?c ?d ?s ?h] =>
        destruct (Hbk a b c d s h) as (bk & ? & E); rewrite E; clear E; world_simpl
    end.
    match goal with
    | |- context [check_imgsz env ?a ?b ?s ?h] =>
        destruct (Himg a b s h) as (? & ? & E); rewrite E; clear E; world_simpl
    end.
    destruct (engine bk); [|destruct (negb (pt bk) && negb (jit bk))]; world_simpl;
      (destruct (endswith (a_data (args (self w))) ".yaml");
       [ match goal with
         | |- context [check_dataset_yaml env ?a ?s ?h] =>
             destruct (Hyaml a s h) as (? & ? & E); rewrite E; clear E; world_simpl
         end
       | match goal with
         | |- context [check_dataset env ?a ?s ?h] =>
             destruct (Hds a s h) as (? & ? & E); rewrite E; clear E; world_simpl
         end ];
       rewrite Hdl, Htruthy; by eauto). }
  exists mdl, w1. split; [done|].
  unfold resolve in H. run_inv.
  apply resolve_standalone_detail in H
    as (dev & bk & imgsz & d & dl & _ & Ht & Hd1 & _ & Hsup & _). world_simpl.
  unfold supplied in Ht, Hsup. rewrite Hdl, Htruthy in Ht, Hsup. subst dl.
  split; [done|]. rewrite Ht, !filter_app. unfold force_batch_events, dataset_event.
  destruct (endswith _ _), (engine bk), (negb (pt bk) && negb (jit bk)); cbn;
    by rewrite app_nil_r.
Qed.

(** X6. Without a dataloader, or with an empty one, a standalone resolution
    that succeeds has built the dataloader with [get_dataloader], called
    once, after the dataset check, on the ["val"] entry of the descriptor,
    which is there and not empty, and on the batch size as resolved for the
    backend (1 for a backend that is neither native, scripted nor engine,
    the engine's own for an engine). *)
Theorem dataloader_built_on_val m (w : World') mdl w1 :
  supplied (dataloader (self w)) = None ->
  resolve ms env None (Some m) w = (Ok mdl, w1) ->
  exists evs dev dnn fp16 bk d path dl,
    trace w1 = trace w ++ evs ++
      [dataset_event (a_data (args (self w))) d;
       EGetDataloader path (resolved_batch_size bk (a_batch_size (args (self w)))) dl] /\
    EAutoBackend m dev dnn fp16 bk ∈ evs /\
    filter is_get_dataloader evs = [] /\
    d !! "val" = Some path /\
    path <> "" /\
    dataloader (self w1) = Some dl /\
    a_batch_size (args (self w1))
      = resolved_batch_size bk (a_batch_size (args (self w))).
Proof.
  intros Hsup H. unfold resolve in H. run_inv.
  apply resolve_standalone_detail in H
    as (dev & bk & imgsz & d & dl & _ & Ht & Hd1 & Hbs & Hsup' & _). world_simpl.
  rewrite Hsup in Ht, Hsup'. destruct Hsup' as (path & Hval & Htruthy).
  rewrite Hval in Ht.
  exists ([ESelectDevice (a_device (args (self w))) (a_batch_size (args (self w))) dev;
           EAutoBackend m dev (a_dnn (args (self w)))
             (a_half (args (self w)) && negb (bool_decide (d_type dev = "cpu"))) bk;
           ECheckImgsz (a_imgsz (args (self w))) (stride bk) imgsz]
          ++ force_batch_events bk imgsz),
    dev, (a_dnn (args (self w))),
    (a_half (args (self w)) && negb (bool_decide (d_type dev = "cpu"))), bk, d, path, dl.
  split_and!.
  - rewrite Ht. by rewrite <- !app_assoc.
  - rewrite !elem_of_app, !elem_of_cons. by auto 10.
  - rewrite !filter_app. unfold force_batch_events.
    by destruct (engine bk), (negb (pt bk) && negb (jit bk)).
  - done.
  - by intros ->.
  - done.
  - done.
Qed.

(** *** An embedded call needs the dataloader of the validator *)

(** X7. A call with a trainer on a validator built without a dataloader puts
    the model in the precision of the run and in evaluation mode, and then
    fails on [len(self.dataloader)] with the type error: the embedded mode
    never builds a dataloader. *)
Theorem embedded_needs_dataloader tr m (w : World') :
  dataloader (self w) = None ->
  let mdl := default (t_model tr) (t_ema tr) in
  let half' := a_half (args (self w)) && negb (bool_decide (d_type (t_device tr) = "cpu")) in
  fst (call ms env (Some tr) m w)
    = Raise (TypeError "object of type 'NoneType' has no len()") /\
  trace (snd (call ms env (Some tr) m w))
    = trace w ++ [if half' then EModelHalf mdl else EModelFloat mdl; EModelEval mdl].
Proof.
  intros Hdl mdl half'. rewrite call_unfold. world_simpl.
  destruct (resolve_embedded_run tr m (with_grad false w)) as (w1 & Hres & Hs & Ht & _).
  cbv zeta in Hres. unfold call_body. rewrite (bind_run _ Hres).
  unfold setup, the_dataloader, bind, emit, get_self. world_simpl.
  rewrite Hs. world_simpl. rewrite Hdl. world_simpl.
  rewrite Ht. world_simpl. by rewrite <- app_assoc.
Qed.

(** *** Plots *)

Lemma chunks_plots embedded plots bs :
  forall i chunks,
    Forall2 (pipeline_chunk env embedded plots) (enumerate_from i bs) chunks ->
    length (filter is_plot_val (concat chunks))
      = (if plots then Nat.min (i + length bs) 3 - Nat.min i 3 else 0) /\
    length (filter is_plot_pred (concat chunks))
      = (if plots then Nat.min (i + length bs) 3 - Nat.min i 3 else 0) /\
    Forall plot_index_ok (concat chunks).
Proof.
  induction bs as [|b bs IH]; intros i chunks Hch.
  - apply Forall2_nil_inv_l in Hch as ->. cbn.
    split_and!; [destruct plots; lia..|done].
  - rewrite enumerate_from_cons in Hch.
    apply Forall2_cons_inv_l in Hch as (c & cs & (b' & p & p' & ls & Hls & ->) & Hcs & ->).
    destruct (IH _ _ Hcs) as (IH1 & IH2 & IH3). cbn [concat fst snd].
    assert (filter is_plot_val ls = [] /\ filter is_plot_pred ls = []
            /\ Forall plot_index_ok ls) as (Hl1 & Hl2 & Hl3).
    { destruct embedded; cbn in Hls; [destruct Hls as [l ->]|subst]; by repeat constructor. }
    assert (length (filter is_plot_val (stage_events env plots i b b' p p' ls))
              = (if plots && (i <? 3)%nat then 1 else 0) /\
            length (filter is_plot_pred (stage_events env plots i b b' p p' ls))
              = (if plots && (i <? 3)%nat then 1 else 0) /\
            Forall plot_index_ok (stage_events env plots i b b' p p' ls))
      as (Hs1 & Hs2 & Hs3).
    { unfold stage_events. rewrite !filter_app, !length_app, Hl1, Hl2.
      split_and!.
      - by destruct (plots && (i <? 3)%nat).
      - by destruct (plots && (i <? 3)%nat).
      - repeat (apply Forall_app; split); try done.
        + by repeat apply Forall_cons_2.
        + by repeat apply Forall_cons_2.
        + destruct plots; [|by apply Forall_nil_2]. cbn [andb].
          destruct (Nat.ltb_spec i 3); [|by apply Forall_nil_2].
          by repeat apply Forall_cons_2. }
    rewrite !filter_app, !length_app, Hs1, Hs2, IH1, IH2.
    split_and!; [| |by apply Forall_app].
    + destruct plots; [|done]. cbn [andb]. destruct (Nat.ltb_spec i 3); cbn; lia.
    + destruct plots; [|done]. cbn [andb]. destruct (Nat.ltb_spec i 3); cbn; lia.
Qed.

(** X8. In a call that returns, [plot_val_samples] and [plot_predictions] are
    each called once for each of the first three batches and for no other
    batch if the plot switch is on, and not at all if it is off. *)
Theorem plots_first_three tr m (w : World') r w' :
  call ms env tr m w = (Ok r, w') ->
  exists evs d,
    trace w' = trace w ++ evs /\
    dataloader (self w') = Some d /\
    length (filter is_plot_val evs)
      = (if a_plots (args (self w')) then Nat.min (length (batches d)) 3 else 0) /\
    length (filter is_plot_pred evs)
      = (if a_plots (args (self w')) then Nat.min (length (batches d)) 3 else 0) /\
    (forall b ni, EPlotValSamples b ni ∈ evs -> ni < 3) /\
    (forall b p ni, EPlotPredictions b p ni ∈ evs -> ni < 3).
Proof.
  intros (w'' & H & ->)%call_ok.
  apply call_body_ok in H as (mdl & d & w1 & dt & w2 & stats & w3 & H1 & H2 & H3 & H4).
  apply until_loop_ok in H1 as (pre & Ht1 & Hpre & Htr & Hd & _).
  apply batch_loop_ok in H2 as (chunks & bi & Hch & Ht2 & Hs2).
  apply aggregate_ok in H3 as (d' & sp & h & _ & _ & ->).
  apply report_ok in H4 as (Hs4 & evs & Ht4 & Hevs).
  world_simpl.
  destruct (chunks_plots Hch) as (Hc1 & Hc2 & Hc3).
  assert (Forall (fun e => is_pipeline_event e = false)
            (pre ++ [EGetStats stats; ECheckStats stats; EPrintResults] ++ evs)) as Hout.
  { apply Forall_app; split; [|apply Forall_app; split; [by repeat constructor|done]].
    eapply Forall_impl; [exact Hpre|]. intros e He. by apply prelude_event_kind. }
  apply Forall_app in Hout as [Hout1 Hout2].
  assert (forall l : list (@Event Batch Img Preds Model LossVec J V),
            Forall (fun e => is_pipeline_event e = false) l ->
            filter is_plot_val l = [] /\ filter is_plot_pred l = []
            /\ Forall plot_index_ok l) as Hno.
  { intros l Hl. split_and!.
    - eapply (filter_nil_Forall (P := fun e => negb (is_pipeline_event e))).
      + eapply Forall_impl; [exact Hl|]. by intros e ->.
      + intros e. by destruct e.
    - eapply (filter_nil_Forall (P := fun e => negb (is_pipeline_event e))).
      + eapply Forall_impl; [exact Hl|]. by intros e ->.
      + intros e. by destruct e.
    - eapply Forall_impl; [exact Hl|]. intros e. by destruct e. }
  destruct (Hno _ Hout1) as (Hp1 & Hp2 & Hp3).
  destruct (Hno _ Hout2) as (Hq1 & Hq2 & Hq3).
  exists (pre ++ concat chunks ++ [EGetStats stats; ECheckStats stats; EPrintResults] ++ evs), d.
  assert (Forall plot_index_ok
            (pre ++ concat chunks
             ++ [EGetStats stats; ECheckStats stats; EPrintResults] ++ evs)) as Hall.
  { apply Forall_app; split; [done|]. apply Forall_app; split; [done|]. exact Hq3. }
  rewrite Hs4. world_simpl. rewrite Hs2. world_simpl. split_and!.
  - rewrite Ht4, Ht2, Ht1. world_simpl. by rewrite <- !app_assoc.
  - done.
  - rewrite (filter_app _ pre), (filter_app _ (concat chunks)), !length_app.
    rewrite Hp1, Hq1, Hc1. cbn. destruct (a_plots _); lia.
  - rewrite (filter_app _ pre), (filter_app _ (concat chunks)), !length_app.
    rewrite Hp2, Hq2, Hc2. cbn. destruct (a_plots _); lia.
  - intros b ni Hin. rewrite Forall_forall in Hall. apply (Hall _ Hin).
  - intros b p ni Hin. rewrite Forall_forall in Hall. apply (Hall _ Hin).
Qed.

Global Instance plots_frame_frame :
  Frame (@plots_frame Batch Img Preds Model LossVec J V U).
Proof.
  split; unfold plots_frame.
  - done.
  - by intros w1 w2 w3 (-> & ->) (-> & ->).
  - done.
Qed.

Global Instance half_frame_frame :
  Frame (@half_frame Batch Img Preds Model LossVec J V U).
Proof.
  split; unfold half_frame.
  - done.
  - by intros w1 w2 w3 (-> & ->) (-> & ->).
  - done.
Qed.

Ltac plots_leaf :=
  intros ?w; cbv [emit modify_self modify_args snd plots_frame]; world_simpl; done.

Ltac half_leaf :=
  intros ?w; cbv [emit modify_self modify_args snd half_frame]; world_simpl;
  rewrite ?filter_app, ?app_nil_r; done.

Lemma batch_loop_plots tr mdl bs :
  forall i dt, preserves plots_frame (batch_loop ms env tr mdl i bs dt).
Proof.
  induction bs as [|b bs IH]; intros i dt; cbn [batch_loop].
  - preserve_walk.
  - apply preserves_bind; [exact _| |intros ?; apply IH].
    unfold run_batch, accumulate_loss, plot_samples.
    preserve_walk; plots_leaf.
Qed.

Lemma batch_loop_half tr mdl bs :
  forall i dt, preserves half_frame (batch_loop ms env tr mdl i bs dt).
Proof.
  induction bs as [|b bs IH]; intros i dt; cbn [batch_loop].
  - preserve_walk.
  - apply preserves_bind; [exact _| |intros ?; apply IH].
    unfold run_batch, accumulate_loss, plot_samples.
    preserve_walk; half_leaf.
Qed.

(** What follows the resolution, as one computation. *)
Lemma call_body_after_resolve tr m (w : World') mdl w1 :
  resolve ms env tr m w = (Ok mdl, w1) ->
  call_body ms env tr m w =
    (let* d := setup ms env mdl in
     let* dt := batch_loop ms env tr mdl 0 (batches d) Profile4 in
     let* stats := aggregate ms dt in
     report ms env tr mdl stats) w1.
Proof. intros H. unfold call_body. by rewrite (bind_run _ H). Qed.

(** X9. With a trainer, however the call ends, the plot switch is afterwards
    on exactly if the trainer is in its last epoch, whatever was configured,
    and the batch size is as configured.  Without a trainer, however the
    call ends, the plot switch is as configured. *)
Theorem plots_switch_by_mode m (w : World') :
  (forall tr,
     a_plots (args (self (snd (call ms env (Some tr) m w))))
       = bool_decide (t_epoch tr = t_epochs tr - 1)%Z /\
     a_batch_size (args (self (snd (call ms env (Some tr) m w))))
       = a_batch_size (args (self w))) /\
  a_plots (args (self (snd (call ms env None m w)))) = a_plots (args (self w)).
Proof.
  split.
  - intros tr. rewrite call_unfold. world_simpl.
    destruct (resolve_embedded_run tr m (with_grad false w)) as (w1 & Hres & Hs & _).
    cbv zeta in Hres. rewrite (call_body_after_resolve Hres).
    assert (preserves plots_frame
              (let* d := setup ms env (default (t_model tr) (t_ema tr)) in
               let* dt := batch_loop ms env (Some tr) (default (t_model tr) (t_ema tr)) 0
                            (batches d) Profile4 in
               let* stats := aggregate ms dt in
               report ms env (Some tr) (default (t_model tr) (t_ema tr)) stats)) as H.
    { unfold setup, aggregate, report, report_embedded, report_standalone, the_dataloader.
      preserve_walk; try apply batch_loop_plots; plots_leaf. }
    cbn [fst snd]. world_simpl.
    destruct (H w1) as [-> ->]. rewrite Hs. by world_simpl.
  - rewrite call_unfold. world_simpl.
    assert (preserves (fun w w' : World' =>
                         a_plots (args (self w')) = a_plots (args (self w)))
              (call_body ms env None m)) as H.
    { assert (Frame (fun w w' : World' =>
                       a_plots (args (self w')) = a_plots (args (self w)))) as HF.
      { split; [done| |done]. by intros w1 w2 w3 -> ->. }
      assert (forall mdl bs i dt,
                preserves (fun w w' : World' =>
                             a_plots (args (self w')) = a_plots (args (self w)))
                  (batch_loop ms env None mdl i bs dt)) as Hloop.
      { intros mdl bs. induction bs as [|b bs IH]; intros i dt; cbn [batch_loop].
        - preserve_walk.
        - apply preserves_bind; [exact _| |intros ?; apply IH].
          unfold run_batch, accumulate_loss, plot_samples.
          preserve_walk; intros ?w; cbv [emit modify_self modify_args snd];
            world_simpl; done. }
      unfold call_body, resolve, resolve_standalone, val_or_test, setup, aggregate, report,
        report_embedded, report_standalone, the_dataloader.
      preserve_walk; try apply Hloop;
        intros ?w; cbv [emit modify_self modify_args snd]; world_simpl; done. }
    apply (H (with_grad false w)).
Qed.

(** X10. With a trainer on a CPU device a call, however it ends, leaves
    [half] off and never halves the model. *)
Theorem embedded_no_half_on_cpu tr m (w : World') :
  d_type (t_device tr) = "cpu" ->
  a_half (args (self (snd (call ms env (Some tr) m w)))) = false /\
  filter is_model_half (trace (snd (call ms env (Some tr) m w)))
    = filter is_model_half (trace w).
Proof.
  intros Hcpu. rewrite call_unfold. world_simpl.
  destruct (resolve_embedded_run tr m (with_grad false w)) as (w1 & Hres & Hs & Ht & _).
  cbv zeta in Hres. rewrite (call_body_after_resolve Hres).
  assert (preserves half_frame
            (let* d := setup ms env (default (t_model tr) (t_ema tr)) in
             let* dt := batch_loop ms env (Some tr) (default (t_model tr) (t_ema tr)) 0
                          (batches d) Profile4 in
             let* stats := aggregate ms dt in
             report ms env (Some tr) (default (t_model tr) (t_ema tr)) stats)) as H.
  { unfold setup, aggregate, report, report_embedded, report_standalone, the_dataloader.
    preserve_walk; try apply batch_loop_half; half_leaf. }
  cbn [fst snd]. world_simpl.
  destruct (H w1) as [-> ->]. rewrite Hs, Ht. world_simpl.
  rewrite Hcpu, bool_decide_eq_true_2 by done. rewrite andb_false_r.
  split; [done|]. rewrite filter_app. cbn. by rewrite app_nil_r.
Qed.

(** X11. A standalone resolution that succeeds with a CPU device from
    [select_device] asked the backend for full precision, [fp16] off, and
    leaves [half] off. *)
Theorem standalone_no_fp16_on_cpu m (w : World') mdl w1 evs dev dnn fp16 bk :
  resolve ms env None (Some m) w = (Ok mdl, w1) ->
  trace w1 = trace w ++ evs ->
  EAutoBackend m dev dnn fp16 bk ∈ evs ->
  d_type dev = "cpu" ->
  fp16 = false /\ a_half (args (self w1)) = false.
Proof.
  intros H Hevs Hin Hcpu.
  unfold resolve in H. run_inv.
  apply resolve_standalone_detail in H
    as (dev' & bk' & imgsz & d & dl & _ & Ht & _ & _ & _ & Hs).
  world_simpl. rewrite Ht in Hevs. apply app_inv_head in Hevs. subst evs.
  assert (dev = dev' /\ fp16 = a_half (args (self w))
                            && negb (bool_decide (d_type dev' = "cpu")))
    as [<- ->].
  { unfold force_batch_events, dataset_event in Hin.
    destruct (engine bk'), (negb (pt bk') && negb (jit bk')), (endswith _ _),
      (supplied _), (d !! "val");
      rewrite ?elem_of_app, ?elem_of_cons, ?elem_of_nil in Hin;
      destruct_or!; by simplify_eq. }
  rewrite Hs. rewrite Hcpu, bool_decide_eq_true_2 by done.
  by rewrite andb_false_r.
Qed.

(** *** The batch index *)

Lemma run_batch_batch_i tr mdl i b dt (w : World') dt' w' :
  run_batch ms env tr mdl i b dt w = (Ok dt', w') -> batch_i (self w') = Some i.
Proof.
  unfold run_batch. intros H. run_inv. world_simpl.
  apply plot_samples_ok in Hrun4 as [h' ->]. world_simpl.
  destruct (training (self w)) eqn:Etr.
  - apply accumulate_loss_ok in Hrun1 as (t' & l & acc & hl & -> & Eacc & Hcrit & ->).
    by world_simpl.
  - run_inv. by world_simpl.
Qed.

Lemma batch_loop_batch_i tr mdl bs :
  forall i dt (w : World') dt' w',
    batch_loop ms env tr mdl i bs dt w = (Ok dt', w') ->
    batch_i (self w') = match bs with
                        | [] => batch_i (self w)
                        | _ :: _ => Some (i + length bs - 1)
                        end.
Proof.
  induction bs as [|b bs IH]; intros i dt w dt' w' H; cbn [batch_loop] in H.
  - by run_inv.
  - run_inv. apply run_batch_batch_i in Hrun. apply IH in H. rewrite H.
    destruct bs; [rewrite Hrun|]; f_equal; cbn; lia.
Qed.

Global Instance batch_i_frame_frame :
  Frame (@batch_i_frame Batch Img Preds Model LossVec J V U).
Proof.
  split; unfold batch_i_frame; [done| |done]. by intros w1 w2 w3 -> ->.
Qed.

(** X12. After a call that returns, [self.batch_i] is the index of the last
    batch; if the dataloader yielded no batch it is what it was before the
    call. *)
Theorem batch_i_last tr m (w : World') r w' :
  call ms env tr m w = (Ok r, w') ->
  exists d,
    dataloader (self w') = Some d /\
    batch_i (self w') = match batches d with
                        | [] => batch_i (self w)
                        | _ :: _ => Some (length (batches d) - 1)
                        end.
Proof.
  intros (w'' & H & ->)%call_ok.
  apply call_body_ok in H as (mdl & d & w1 & dt & w2 & stats & w3 & H1 & H2 & H3 & H4).
  assert (batch_i (self w1) = batch_i (self w)) as Hbi.
  { assert (preserves batch_i_frame (until_loop ms env tr m)) as Hp.
    { unfold until_loop, resolve, resolve_embedded, resolve_standalone, val_or_test,
        setup, the_dataloader.
      preserve_walk;
        intros ?w; cbv [emit modify_self modify_args snd batch_i_frame]; world_simpl; done. }
    specialize (Hp (with_grad false w)). rewrite H1 in Hp. exact Hp. }
  apply until_loop_ok in H1 as (pre & _ & _ & _ & Hd & _).
  pose proof (batch_loop_batch_i H2) as Hloop.
  apply batch_loop_ok in H2 as (chunks & bi & _ & _ & Hs2).
  apply aggregate_ok in H3 as (d' & sp & h & _ & _ & ->).
  apply report_ok in H4 as (Hs4 & _).
  exists d. world_simpl. rewrite Hs4. world_simpl. split.
  - rewrite Hs2. by world_simpl.
  - rewrite Hloop, Hbi. by destruct (batches d).
Qed.

(** *** A stage that raises *)

Lemma batch_loop_app tr mdl bs1 bs2 :
  forall i dt (w : World'),
    batch_loop ms env tr mdl i (bs1 ++ bs2) dt w =
      (let* dt' := batch_loop ms env tr mdl i bs1 dt in
       batch_loop ms env tr mdl (i + length bs1) bs2 dt') w.
Proof.
  induction bs1 as [|b bs1 IH]; intros i dt w.
  - cbn. by rewrite Nat.add_0_r.
  - cbn [app batch_loop length]. unfold bind.
    destruct (run_batch ms env tr mdl i b dt w) as [[dt1|e] w1]; [|done].
    rewrite IH. unfold bind.
    by replace (S i + length bs1) with (i + S (length bs1)) by lia.
Qed.

(** X13. A stage that raises in some batch ends the call there: the call
    raises the same exception, in the state the stage left, whatever
    batches the dataloader still had; nothing is aggregated or
    reported. *)
Theorem call_aborts_at_raising_batch tr m (w : World') mdl d w1 bs1 b bs2 dt1 w2 e w3 :
  until_loop ms env tr m w = (Ok (mdl, d), w1) ->
  batches d = bs1 ++ b :: bs2 ->
  batch_loop ms env tr mdl 0 bs1 Profile4 w1 = (Ok dt1, w2) ->
  run_batch ms env tr mdl (length bs1) b dt1 w2 = (Raise e, w3) ->
  call_body ms env tr m w = (Raise e, w3).
Proof.
  intros Hloop Hb H1 H2.
  unfold until_loop in Hloop. run_inv.
  unfold call_body. rewrite (bind_run _ Hrun), (bind_run _ Hrun0).
  apply bind_raise. rewrite Hb, batch_loop_app, (bind_run _ H1).
  cbn [batch_loop Nat.add]. by apply bind_raise.
Qed.

Lemma call_body_raise tr m (w : World') e w' :
  until_report ms env tr m w = (Raise e, w') ->
  call_body ms env tr m w = (Raise e, w').
Proof.
  unfold until_report, until_loop, call_body, bind, ret.
  destruct (resolve ms env tr m w) as [[mdl|e1] w1]; lazy beta iota zeta;
    [|intros ?; by simplify_eq].
  destruct (setup ms env mdl w1) as [[d|e2] w2]; lazy beta iota zeta;
    [|intros ?; by simplify_eq].
  destruct (batch_loop ms env tr mdl 0 (batches d) Profile4 w2) as [[dt|e3] w3];
    lazy beta iota zeta; [|intros ?; by simplify_eq].
  destruct (aggregate ms dt w3) as [[stats|e4] w4]; lazy beta iota zeta;
    [|intros ?; by simplify_eq].
  intros [=].
Qed.

Global Instance precision_frame_frame :
  Frame (@precision_frame Batch Img Preds Model LossVec J V U).
Proof.
  split; unfold precision_frame; [done| |done]. by intros w1 w2 w3 -> ->.
Qed.

Lemma batch_loop_precision tr mdl bs :
  forall i dt, preserves precision_frame (batch_loop ms env tr mdl i bs dt).
Proof.
  induction bs as [|b bs IH]; intros i dt; cbn [batch_loop].
  - preserve_walk.
  - apply preserves_bind; [exact _| |intros ?; apply IH].
    unfold run_batch, accumulate_loss, plot_samples.
    preserve_walk;
      intros ?w; cbv [emit modify_self modify_args snd precision_frame]; world_simpl;
      rewrite ?filter_app, ?app_nil_r; done.
Qed.

(** X14. With a trainer and half precision in effect, a call that fails
    anywhere before the report raises that exception and has halved the
    model without calling [model.float()]: the model stays in half
    precision. *)
Theorem half_model_left_on_failure tr m (w : World') e w' :
  a_half (args (self w)) = true ->
  d_type (t_device tr) <> "cpu" ->
  until_report ms env (Some tr) m w = (Raise e, w') ->
  call_body ms env (Some tr) m w = (Raise e, w') /\
  filter is_model_precision (trace w')
    = filter is_model_precision (trace w) ++ [EModelHalf (default (t_model tr) (t_ema tr))].
Proof.
  intros Hhalf Hdev H. split; [by apply call_body_raise|].
  destruct (resolve_embedded_run tr m w) as (w1 & Hres & Hs & Ht & _).
  cbv zeta in Hres.
  rewrite Hhalf, bool_decide_eq_false_2 in Ht by done. cbn in Ht.
  assert (preserves precision_frame
            (let* d := setup ms env (default (t_model tr) (t_ema tr)) in
             let* dt := batch_loop ms env (Some tr) (default (t_model tr) (t_ema tr)) 0
                          (batches d) Profile4 in
             let* stats := aggregate ms dt in
             ret (default (t_model tr) (t_ema tr), stats))) as Hp.
  { unfold setup, aggregate, the_dataloader.
    preserve_walk; try apply batch_loop_precision;
      intros ?w; cbv [emit modify_self modify_args snd precision_frame]; world_simpl;
      rewrite ?filter_app, ?app_nil_r; done. }
  specialize (Hp w1).
  assert (until_report ms env (Some tr) m w =
            (let* d := setup ms env (default (t_model tr) (t_ema tr)) in
             let* dt := batch_loop ms env (Some tr) (default (t_model tr) (t_ema tr)) 0
                          (batches d) Profile4 in
             let* stats := aggregate ms dt in
             ret (default (t_model tr) (t_ema tr), stats)) w1) as Heq.
  { unfold until_report, until_loop. unfold bind at 1 2. rewrite Hres.
    unfold bind. by destruct (setup _ _ _ _) as [[d|e2] w2]. }
  rewrite <- Heq, H in Hp. unfold precision_frame in Hp. cbn [snd] in Hp.
  by rewrite Hp, Ht, filter_app.
Qed.

Lemma resolve_standalone_built m (w : World') mdl w1 :
  supplied (dataloader (self w)) = None ->
  resolve_standalone ms env (Some m) w = (Ok mdl, w1) ->
  exists path bs dl, hook_result (get_dataloader ms path bs) dl.
Proof.
  unfold resolve_standalone. intros Hsup H. run_inv. world_simpl.
  rename a4 into bk.
  assert (dataloader (self w9) = dataloader (self w)) as Hdl.
  { destruct (engine bk); [|destruct (negb (pt bk) && negb (jit bk))];
      run_inv; by world_simpl. }
  rewrite Hdl in Hrun10. unfold supplied in Hsup.
  destruct (dataloader (self w)) as [dl0|]; [destruct (dl_truthy dl0); [done|]|];
    run_inv;
    match goal with
    | H : val_or_test _ _ = _ |- _ => apply val_or_test_ok in H as (_ & _ & ->)
    end;
    run_inv; unfold hook_result; by eauto 10.
Qed.

(** *** The base class *)

(** X15. A validator that keeps the [get_dataloader] of the base class cannot
    run standalone unless it was built with a dataloader that is not empty:
    the call never returns. *)
Theorem base_cannot_build_dataloader m (w : World') :
  (forall path bs,
     get_dataloader ms path bs
       = hook_raise (NotImplementedError
           "get_dataloader function not implemented for this validator")) ->
  supplied (dataloader (self w)) = None ->
  forall r, fst (call ms env None m w) <> Ok r.
Proof.
  intros Hbase Hsup r Hr. rewrite call_unfold in Hr. cbn [fst] in Hr.
  destruct (call_body ms env None m (with_grad false w)) as [r' w'] eqn:E.
  cbn in Hr. subst r'.
  apply call_body_ok in E as (mdl & d & w1 & dt & w2 & stats & w3 & H1 & _).
  unfold until_loop in H1. run_inv. unfold resolve in Hrun. run_inv.
  destruct m as [m|]; [|discriminate].
  eapply resolve_standalone_built in Hrun as (path & bs & dl & s & hs & hs' & Hgd);
    [|exact Hsup].
  by rewrite Hbase in Hgd.
Qed.

(** *** The phases of a call *)

Lemma resolve_events tr m (w : World') mdl w1 :
  resolve ms env tr m w = (Ok mdl, w1) ->
  model (self w1) = Some mdl /\
  exists res,
    trace w1 = trace w ++ res /\
    Forall (fun e => is_resolution_event e = true) res.
Proof.
  intros H. destruct tr as [t|].
  - destruct (resolve_embedded_run t m w) as (w2 & Hres & Hs & Ht & _).
    cbv zeta in Hres. rewrite Hres in H. injection H as <- <-.
    rewrite Hs. split; [done|]. eexists. split; [exact Ht|].
    destruct (_ && _); by repeat constructor.
  - unfold resolve in H. run_inv. destruct m as [m|]; [|discriminate].
    apply resolve_standalone_ok in H
      as (dev & bk & imgsz & dl & tail & -> & Ht & Htail & Hs).
    world_simpl. rewrite Hs. split; [done|]. eexists. split; [exact Ht|].
    repeat (apply Forall_cons_2; [done|]).
    apply Forall_app; split.
    + unfold force_batch_events. repeat case_match; by repeat constructor.
    + eapply Forall_impl; [exact Htail|]. intros e [He _].
      unfold is_resolution_event. by rewrite He.
Qed.

Lemma report_events tr mdl stats (w : World') r w' :
  report ms env tr mdl stats w = (Ok r, w') ->
  self w' = self w /\
  exists rep,
    trace w' = trace w ++ rep /\
    Forall (fun e => is_report_event e = true) rep.
Proof.
  unfold report. intros H. run_inv. destruct (training (self w)).
  - apply report_embedded_ok in H as (t & acc & d & losses & h & _ & _ & _ & _ & _ & ->).
    world_simpl. split; [done|]. eexists; split; [done|]. by repeat constructor.
  - unfold report_standalone in H. run_inv.
    destruct (speed (self w)) as [sp|]; [|discriminate]. run_inv. world_simpl.
    destruct (a_save_json (args (self w)) && jdict_truthy (jdict (hst w))); run_inv;
      world_simpl; (split; [done|]).
    + eexists. rewrite <- !app_assoc. split; [done|]. by repeat constructor.
    + eexists; split; [done|]. by repeat constructor.
Qed.

Lemma chunks_are_pipeline embedded plots ibs chunks :
  Forall2 (pipeline_chunk env embedded plots) ibs chunks ->
  Forall (fun e => is_pipeline_event e = true) (concat chunks).
Proof.
  induction 1 as [|ib c ibs cs (b' & p & p' & ls & Hls & ->) _ IH]; [by constructor|].
  cbn [concat]. apply Forall_app; split; [|done].
  unfold stage_events. repeat (apply Forall_app; split).
  - by repeat constructor.
  - destruct embedded; cbn in Hls; [destruct Hls as [l ->]|subst]; by repeat constructor.
  - by repeat constructor.
  - destruct (plots && _); by repeat constructor.
Qed.

(** X16. A call that returns went through its phases in this order: the
    resolution; [model.eval()], [get_desc] and [init_metrics] on the
    unwrapped model; the pipeline events of the batches; [get_stats],
    [check_stats] on the stats [get_stats] returned, and [print_results];
    the report.  The model put in evaluation mode is the one in
    [self.model]. *)
Theorem phases_in_order tr m (w : World') r w' :
  call ms env tr m w = (Ok r, w') ->
  exists res mdl loop stats rep,
    trace w' = trace w
      ++ res
      ++ [EModelEval mdl; EGetDesc; EInitMetrics (de_parallel env mdl)]
      ++ loop
      ++ [EGetStats stats; ECheckStats stats; EPrintResults]
      ++ rep /\
    model (self w') = Some mdl /\
    Forall (fun e => is_resolution_event e = true) res /\
    Forall (fun e => is_pipeline_event e = true) loop /\
    Forall (fun e => is_report_event e = true) rep.
Proof.
  intros (w'' & H & ->)%call_ok.
  apply call_body_ok in H as (mdl & d & w1 & dt & w2 & stats & w3 & H1 & H2 & H3 & H4).
  unfold until_loop in H1.
  apply bind_ok in H1 as (mdl' & w0 & Hrun & H1).
  apply bind_ok in H1 as (d0 & w0' & Hrun0 & H1).
  apply ret_ok in H1 as [[= <- <-] ->].
  apply resolve_events in Hrun as (Hm & res & Ht0 & Hres).
  apply setup_ok in Hrun0 as (Hd & h0 & ->).
  apply batch_loop_ok in H2 as (chunks & bi & Hch & Ht2 & Hs2).
  apply aggregate_ok in H3 as (d' & sp & h & _ & _ & ->).
  apply report_events in H4 as (Hs4 & rep & Ht4 & Hrep).
  world_simpl.
  exists res, mdl, (concat chunks), stats, rep. split_and!.
  - rewrite Ht4, Ht2, Ht0. world_simpl. by rewrite <- !app_assoc.
  - rewrite Hs4, Hs2. world_simpl. done.
  - done.
  - by eapply chunks_are_pipeline.
  - done.
Qed.

(** *** The default stages *)

Lemma run_batch_flow tr mdl i b dt (w : World') dt' w' :
  run_batch ms env tr mdl i b dt w = (Ok dt', w') ->
  exists b' p p' ls bi,
    hook_result (preprocess ms b) b' /\
    hook_result (forward env mdl (img env b')) p /\
    hook_result (postprocess ms p) p' /\
    loss_stage (training (self w)) p b' ls /\
    trace w' = trace w ++
      stage_events env (a_plots (args (self w))) i b b' p p' ls /\
    self w' = set_loss (fold_left (tensor_add env) (loss_terms ls) <$> loss (self w))
                (set_batch_i bi (self w)).
Proof.
  unfold run_batch. intros H. run_inv. world_simpl.
  assert (hook_result (preprocess ms b) b0) as Hf1 by (unfold hook_result; eauto).
  assert (hook_result (forward env mdl (img env b0)) p) as Hf2
    by (unfold hook_result; eauto).
  assert (hook_result (postprocess ms p) p0) as Hf3 by (unfold hook_result; eauto).
  apply plot_samples_ok in Hrun4 as [h' ->]. world_simpl.
  destruct (training (self w)) eqn:Etr.
  - apply accumulate_loss_ok in Hrun1 as (t' & l & acc & hl & -> & Eacc & Hcrit & ->).
    world_simpl. exists b0, p, p0, [ELoss p b0 l], (Some i). world_simpl.
    rewrite Eacc. cbn. split_and!; try done; [by exists l|].
    unfold stage_events. by rewrite <- !app_assoc.
  - run_inv. world_simpl. exists b0, p, p0, [], (Some i). world_simpl.
    split_and!; try done.
    + unfold stage_events. by rewrite <- !app_assoc.
    + unfold set_loss, set_batch_i. world_simpl. by destruct (loss (self w)).
Qed.

Lemma hook_result_ret {A} (a a' : A) :
  hook_result (hook_ret a : Hook' A) a' -> a' = a.
Proof. by intros (s & hs & hs' & [= ->]). Qed.

Lemma batch_loop_pass_through tr mdl bs :
  (forall b, preprocess ms b = hook_ret b) ->
  (forall p, postprocess ms p = hook_ret p) ->
  forall i dt (w : World') dt' w',
    batch_loop ms env tr mdl i bs dt w = (Ok dt', w') ->
    exists chunks,
      Forall2 (pass_through_chunk env mdl (training (self w)) (a_plots (args (self w))))
              (enumerate_from i bs) chunks /\
      trace w' = trace w ++ concat chunks.
Proof.
  intros Hpre Hpost.
  induction bs as [|b bs IH]; intros i dt w dt' w' H; cbn [batch_loop] in H.
  - run_inv. exists []. cbn. by rewrite app_nil_r.
  - run_inv.
    apply run_batch_flow in Hrun
      as (b' & p & p' & ls & bi & Hf1 & Hf2 & Hf3 & Hls & Htr & Hs).
    rewrite Hpre in Hf1. apply hook_result_ret in Hf1 as ->.
    rewrite Hpost in Hf3. apply hook_result_ret in Hf3 as ->.
    apply IH in H as (chunks & Hch & Htr').
    rewrite Hs in Hch. world_simpl.
    exists (stage_events env (a_plots (args (self w))) i b b p p ls :: chunks).
    rewrite enumerate_from_cons. cbn [concat]. split.
    + constructor; [|done]. by exists p, ls.
    + by rewrite Htr', Htr, <- app_assoc.
Qed.

(** X17. With the default [preprocess] and [postprocess], a call that returns
    gave the model, for each batch in turn, the input of the batch as the
    dataloader yielded it, and gave [update_metrics] (and the criterion and
    the plots) what the model returned on it, with the same batch. *)
Theorem default_stages_pass_through tr m (w : World') r w' :
  (forall b, preprocess ms b = hook_ret b) ->
  (forall p, postprocess ms p = hook_ret p) ->
  call ms env tr m w = (Ok r, w') ->
  exists d mdl pre chunks post,
    dataloader (self w') = Some d /\
    model (self w') = Some mdl /\
    trace w' = trace w ++ pre ++ concat chunks ++ post /\
    Forall2 (pass_through_chunk env mdl (is_embedded tr) (a_plots (args (self w'))))
            (enumerate_from 0 (batches d)) chunks /\
    filter is_pipeline_event pre = [] /\
    filter is_pipeline_event post = [].
Proof.
  intros Hpre Hpost (w'' & H & ->)%call_ok.
  apply call_body_ok in H as (mdl & d & w1 & dt & w2 & stats & w3 & H1 & H2 & H3 & H4).
  pose proof H1 as H1'. unfold until_loop in H1'.
  apply bind_ok in H1' as (mdl' & w0 & Hrun & H1').
  apply bind_ok in H1' as (d0 & w0' & Hrun0 & H1').
  apply ret_ok in H1' as [[= <- <-] ->].
  apply resolve_events in Hrun as (Hm & _).
  apply setup_ok in Hrun0 as (_ & h0 & Hw1).
  apply until_loop_ok in H1 as (pre & Ht1 & Hprel & Htr & Hd & _).
  pose proof (batch_loop_pass_through Hpre Hpost H2) as (chunks & Hch & Ht2).
  apply batch_loop_ok in H2 as (chunks' & bi & _ & _ & Hs2).
  apply aggregate_ok in H3 as (d' & sp & h & _ & _ & ->).
  apply report_ok in H4 as (Hs4 & evs & Ht4 & Hevs).
  world_simpl. rewrite Htr in Hch.
  exists d, mdl, pre, chunks, ([EGetStats stats; ECheckStats stats; EPrintResults] ++ evs).
  rewrite Hs4. world_simpl. rewrite Hs2. world_simpl. split_and!.
  - done.
  - rewrite Hw1. by world_simpl.
  - rewrite Ht4, Ht2, Ht1. world_simpl. by rewrite <- !app_assoc.
  - done.
  - eapply filter_nil_Forall; [exact Hprel|]. intros e He. by apply prelude_event_kind.
  - eapply (filter_nil_Forall (P := fun e => negb (is_pipeline_event e))).
    + apply Forall_app; split; [by repeat constructor|].
      eapply Forall_impl; [exact Hevs|]. by intros e ->.
    + intros e. by destruct (is_pipeline_event e).
Qed.

(** *** The export list of a validator that collects nothing *)

Lemma same_jdict_bind {A B} (c : M' A) (k : A -> M' B) :
  preserves same_jdict c -> (forall a, preserves same_jdict (k a)) ->
  preserves same_jdict (bind c k).
Proof.
  intros Hc Hk w. unfold bind. specialize (Hc w).
  destruct (c w) as [[a|e] w1]; cbn in *; [|done].
  specialize (Hk a w1). unfold same_jdict in *. congruence.
Qed.

Lemma same_jdict_with_profile {A} i dt (c : M' A) :
  preserves same_jdict c -> preserves same_jdict (with_profile env i dt c).
Proof.
  intros Hc w. unfold with_profile. specialize (Hc w).
  by destruct (c w) as [[a|e] w1].
Qed.

Lemma same_jdict_call_log {A} (h : Hook' A) ev :
  keeps_jdict h -> preserves same_jdict (call_log h ev : M' A).
Proof.
  intros Hh w. unfold call_log, bind, call_hook, emit, ret, same_jdict.
  specialize (Hh (self w) (hst w)).
  by destruct (h (self w) (hst w)) as [[a|e] h'].
Qed.

Ltac same_jdict_walk :=
  repeat first
    [ apply same_jdict_call_log; solve [auto]
    | apply same_jdict_with_profile
    | apply same_jdict_bind; [|intros ?]
    | match goal with
      | |- preserves _ (if ?b then _ else _) => destruct b
      | |- preserves _ (match ?x with _ => _ end) => destruct x
      end
    | intros ?w; reflexivity ].

Lemma batch_loop_same_jdict mdl bs :
  no_records ms env ->
  forall i dt, preserves same_jdict (batch_loop ms env None mdl i bs dt).
Proof.
  intros (Hpre & Hfwd & Hpost & Hupd & Hpv & Hpp & _).
  induction bs as [|b bs IH]; intros i dt; cbn [batch_loop].
  - by intros w.
  - apply same_jdict_bind; [|intros ?; apply IH].
    unfold run_batch, accumulate_loss, plot_samples.
    same_jdict_walk.
Qed.

Lemma aggregate_same_jdict dt :
  no_records ms env -> preserves same_jdict (aggregate ms dt : M' _).
Proof.
  intros (_ & _ & _ & _ & _ & _ & Hgs & Hcs & Hpr).
  unfold aggregate, the_dataloader, lift_res. same_jdict_walk.
Qed.

Lemma until_report_no_records m (w : World') mdl stats w2 :
  no_records ms env ->
  until_report ms env None m w = (Ok (mdl, stats), w2) ->
  jdict (hst w2) = Some [].
Proof.
  intros Hnr H.
  unfold until_report in H. apply bind_ok in H as ([mdl' d] & w1 & H1 & H).
  apply bind_ok in H as (dt & w1' & Hloop & H).
  apply bind_ok in H as (stats' & w1'' & Hagg & H).
  apply ret_ok in H as [_ ->].
  apply until_loop_ok in H1 as (_ & _ & _ & _ & _ & Hj & _).
  pose proof (batch_loop_same_jdict mdl' (batches d) Hnr 0 Profile4 w1) as Hl.
  rewrite Hloop in Hl.
  pose proof (aggregate_same_jdict dt Hnr w1') as Ha.
  rewrite Hagg in Ha. unfold same_jdict in *. cbn [snd] in *. congruence.
Qed.

Lemma until_report_of_parts tr m (w : World') mdl d w1 dt w2 stats w3 :
  until_loop ms env tr m w = (Ok (mdl, d), w1) ->
  batch_loop ms env tr mdl 0 (batches d) Profile4 w1 = (Ok dt, w2) ->
  aggregate ms dt w2 = (Ok stats, w3) ->
  until_report ms env tr m w = (Ok (mdl, stats), w3).
Proof.
  intros H1 H2 H3. unfold until_report.
  rewrite (bind_run _ H1). cbn beta iota.
  by rewrite (bind_run _ H2), (bind_run _ H3).
Qed.

(** X19. A standalone call of a validator that collects no prediction records
    comes to the report with the export list empty, whatever the list held
    before the call and whatever [init_metrics] did to it; so it writes no
    file and does not call [eval_json] even with [save_json] set: the
    report logs the speed line and the call returns the stats of
    [get_stats]. *)
Theorem no_records_no_export m (w : World') mdl stats w2 :
  no_records ms env ->
  until_report ms env None m w = (Ok (mdl, stats), w2) ->
  jdict (hst w2) = Some [] /\
  exists sp,
    speed (self w2) = Some sp /\
    call_body ms env None m w = (Ok (Some stats), logged (ELogSpeed sp) w2).
Proof.
  intros Hnr H.
  pose proof (until_report_no_records Hnr H) as Hj.
  split; [exact Hj|].
  apply call_body_report in H as (-> & Htr & [sp Hsp] & _ & _).
  exists sp. split; [exact Hsp|].
  unfold report, bind, get_self. rewrite Htr. cbn [is_embedded].
  rewrite (report_standalone_run stats Hsp), Hj.
  cbn [jdict_truthy]. by rewrite andb_false_r.
Qed.

(** *** The device after the standalone resolution *)

(** X20. After a standalone resolution that returns, the backend was built on
    the device [select_device] gave, [self.model] is that backend, and
    [self.device] is the backend's own device, unless the backend is a
    compiled engine: then the selected device stays. *)
Theorem standalone_device_by_backend m (w : World') mdl w1 :
  resolve ms env None (Some m) w = (Ok mdl, w1) ->
  exists evs dev dnn fp16 bk,
    trace w1 = trace w ++ evs /\
    ESelectDevice (a_device (args (self w))) (a_batch_size (args (self w))) dev ∈ evs /\
    EAutoBackend m dev dnn fp16 bk ∈ evs /\
    mdl = bk_callable bk /\
    model (self w1) = Some mdl /\
    device (self w1) = Some (if engine bk then dev else bk_device bk).
Proof.
  intros H. unfold resolve in H. run_inv.
  apply resolve_standalone_ok in H
    as (dev & bk & imgsz & dl & tail & Hm & Ht & _ & Hs).
  world_simpl.
  eexists _, dev, _, _, bk. split_and!.
  - exact Ht.
  - rewrite !elem_of_app, !elem_of_cons. by auto.
  - rewrite !elem_of_app, !elem_of_cons. by auto.
  - done.
  - rewrite Hs. by world_simpl.
  - rewrite Hs. by world_simpl.
Qed.

End Proofs.

(** ** The base class used as it is *)

Section BaseClass.

Context {Batch Img Preds Model LossVec J V U : Type}.
Variable env : @Env Batch Img Preds Model LossVec J V U.

(** X21. The base class, called without a trainer on a validator built with a
    dataloader, returns the empty stats of its [get_stats] when the call
    returns, and exports nothing, even with [save_json] set: none of its
    methods collects a record.  The model's forward pass is assumed to
    leave the validator's export list alone. *)
Theorem base_class_returns_empty_stats m
    (w : @World Batch Img Preds Model LossVec J V U) r w' :
  (forall mdl x, keeps_jdict (forward env mdl x)) ->
  call base_methods env None m w = (Ok r, w') ->
  r = Some ∅ /\
  jdict (hst w') = Some [] /\
  filter is_json_dump (trace w') = filter is_json_dump (trace w) /\
  filter is_eval_json (trace w') = filter is_eval_json (trace w).
Proof.
  intros Hfwd (w'' & H & ->)%call_ok.
  assert (no_records base_methods env) as Hnr.
  { unfold no_records, keeps_jdict. split_and!; try done; intros; apply Hfwd. }
  pose proof H as H0.
  apply call_body_ok in H0
    as (mdl & d & w1 & dt & w2 & stats & w3 & H1 & H2 & H3 & H4).
  assert (stats = ∅) as ->.
  { pose proof H3 as Ha. unfold aggregate in Ha.
    apply bind_ok in Ha as (st & w4 & Hgs & Ha).
    apply call_log_ok in Hgs as (h' & Hgs & _).
    do 5 (apply bind_ok in Ha as (? & ? & _ & Ha)).
    apply ret_ok in Ha as [E _]. injection Hgs as Hst _. congruence. }
  pose proof (until_report_of_parts H1 H2 H3) as Hur.
  pose proof (until_report_no_records Hnr Hur) as Hj.
  pose proof (call_body_report Hur) as (Hcb & Htr & [sp Hsp] & _ & _).
  rewrite Hcb in H. unfold report, bind, get_self in H. rewrite Htr in H.
  cbn [is_embedded] in H.
  rewrite (report_standalone_run _ _ Hsp), Hj in H.
  cbn [jdict_truthy] in H. rewrite andb_false_r in H. injection H as <- <-.
  apply until_loop_ok in H1 as (pre & Ht1 & Hpre & _).
  apply batch_loop_ok in H2 as (chunks & bi & Hch & Ht2 & _).
  apply aggregate_ok in H3 as (d' & sp' & h & _ & _ & Hw3).
  split; [done|]. split; [done|].
  assert (trace w3 = trace w ++ pre ++ concat chunks
                       ++ [EGetStats ∅; ECheckStats ∅; EPrintResults]) as Ht3.
  { rewrite Hw3. cbn. rewrite Ht2, Ht1. cbn. by rewrite <- !app_assoc. }
  assert (filter is_json_dump pre = [] /\ filter is_eval_json pre = []) as [Hp1 Hp2].
  { clear -Hpre. induction Hpre as [|e l He _ [IH1 IH2]]; [done|].
    rewrite !filter_cons, IH1, IH2. by destruct e. }
  assert (filter is_json_dump (concat chunks) = [] /\
          filter is_eval_json (concat chunks) = []) as [Hc1 Hc2].
  { pose proof (chunks_are_pipeline Hch) as Hpl. clear -Hpl.
    induction Hpl as [|e l He _ [IH1 IH2]]; [done|].
    rewrite !filter_cons, IH1, IH2. by destruct e. }
  unfold logged, set_trace, with_grad. cbn [trace]. rewrite Ht3.
  rewrite !filter_app, Hp1, Hp2, Hc1, Hc2. cbn. by rewrite !app_nil_r.
Qed.

End BaseClass.

(** ** The engine at work *)

Import Demo.

Local Open Scope engine_scope.

(** A standalone run of the validator with a scoring [eval_json]. *)
Example run_standalone :
  fst (call coco_methods demo_env None (Some "yolov8n.pt") fresh)
  = Ok (Some {["metrics/mAP" := 50%Z; "metrics/mAP50-95" := 37%Z]}).
Proof. vm_compute. reflexivity. Qed.

(** C1, as the spec has it, fails: called with both handles, the engine
    does not fail; it validates the trainer's model and returns the merged
    stats. *)
Lemma both_handles_counterexample :
  fst (call detect_methods demo_env (Some demo_trainer) (Some "yolov8n.pt") in_training)
    = Ok (Some {["metrics/mAP" := 50%Z; "val/box_loss" := 2%Z]}) /\
  training (self (snd (call detect_methods demo_env (Some demo_trainer)
                         (Some "yolov8n.pt") in_training))) = true.
Proof. split; vm_compute; reflexivity. Qed.

(** A compiled engine, which reports neither the native nor the scripted
    format: the batch size becomes 8, the engine's own, and nothing about
    forcing is logged. *)
Example run_engine_backend :
  let out := resolve detect_methods demo_env None (Some "yolov8n.engine") fresh in
  fst out = Ok "yolov8n.engine" /\
  pt (backend_of "yolov8n.engine") = false /\
  jit (backend_of "yolov8n.engine") = false /\
  a_batch_size (args (self (snd out))) = 8%Z /\
  filter is_force_batch (trace (snd out)) = [].
Proof. cbv zeta. split_and!; vm_compute; reflexivity. Qed.

Lemma batch_size_by_backend_witness :
  exists mdl w1,
    resolve detect_methods demo_env None (Some "yolov8n.onnx") fresh = (Ok mdl, w1) /\
    exists evs dev dnn fp16 bk,
      trace w1 = trace fresh ++ evs /\
      EAutoBackend "yolov8n.onnx" dev dnn fp16 bk ∈ evs /\
      mdl = bk_callable bk /\
      ((exists imgsz, ELogForceBatch imgsz ∈ evs)
         <-> engine bk = false /\ pt bk = false /\ jit bk = false) /\
      (engine bk = false -> pt bk = false -> jit bk = false ->
         a_batch_size (args (self w1)) = 1%Z) /\
      (engine bk = true -> a_batch_size (args (self w1)) = bk_batch_size bk) /\
      (engine bk = false -> pt bk = true \/ jit bk = true ->
         a_batch_size (args (self w1)) = a_batch_size (args (self fresh))).
Proof.
  assert (exists mdl w1,
            resolve detect_methods demo_env None (Some "yolov8n.onnx") fresh = (Ok mdl, w1))
    as (mdl & w1 & H) by (eexists _, _; vm_compute; reflexivity).
  exists mdl, w1. split; [exact H|]. exact (batch_size_by_backend H).
Defined.


Lemma return_value_by_mode_witness :
  exists r w',
    call detect_methods demo_env (Some demo_trainer) None in_training = (Ok r, w') /\
    exists evs stats,
      trace w' = trace in_training ++ evs /\
      EGetStats stats ∈ evs /\
      exists losses d,
        dataloader (self w') = Some d /\
        ELabelLossItems
          (tensor_div demo_env
             (tensor_cpu demo_env
                (fold_left (tensor_add demo_env) (loss_terms evs)
                   (zeros_like demo_env (t_loss_items demo_trainer))))
             (length (batches d)))
          "val" losses ∈ evs /\
        r = Some (losses ∪ stats) /\
        (forall k v, losses !! k = Some v -> (losses ∪ stats) !! k = Some v) /\
        (forall k, losses !! k = None -> (losses ∪ stats) !! k = stats !! k) /\
        (losses ##ₘ stats -> losses ∪ stats = stats ∪ losses).
Proof.
  assert (exists r w',
            call detect_methods demo_env (Some demo_trainer) None in_training = (Ok r, w'))
    as (r & w' & H) by (eexists _, _; vm_compute; reflexivity).
  exists r, w'. split; [exact H|]. exact (return_value_by_mode H).
Defined.



(** The profile of that run, four batches over eight samples with a
    preprocess of 1 ms, a model call of 4 ms, a criterion that takes no
    time and a postprocess of 2 ms, as the doubles the division of line 118
    gives. *)
Example run_speed_profile :
  speed (self (snd (call detect_methods demo_env (Some demo_trainer) None in_training)))
  = Some (0.49999999999999956, 2, 0, 1.0000000000000004)%float.
Proof. vm_compute. reflexivity. Qed.

(** The stage times of that run, batch by batch: the differences of the
    clock readings, which are thousandths of a second as doubles, and none
    of them negative. *)
Example run_stage_times :
  exists mdl w1 w2,
    until_loop detect_methods demo_env (Some demo_trainer) None
        (with_grad false in_training) = (Ok (mdl, train_val_loader), w1) /\
    loop_stage_times detect_methods demo_env (Some demo_trainer) mdl 0 [1; 2; 3; 4] w1
      [ {| t_pre := 0.001; t_inf := 0.004; t_loss := 0; t_post := 0.002 |};
        {| t_pre := 0.001; t_inf := 0.004; t_loss := 0; t_post := 0.002 |};
        {| t_pre := 0.0009999999999999992; t_inf := 0.004; t_loss := 0;
           t_post := 0.0020000000000000018 |};
        {| t_pre := 0.0009999999999999974; t_inf := 0.004; t_loss := 0;
           t_post := 0.0020000000000000018 |} ]%float w2.
Proof.
  eexists _, _, _. split; [vm_compute; reflexivity|].
  repeat (eapply loop_times_cons;
          [eexists _, _, _, _, _, _, _; cbv zeta;
           split_and!; vm_compute; reflexivity|]).
  apply loop_times_nil.
Qed.


Lemma empty_dataset_divides_by_zero_witness :
  exists mdl w1,
    until_loop detect_methods demo_env (Some demo_trainer) None in_training_empty
      = (Ok (mdl, empty_loader), w1) /\
    batches empty_loader = [] /\
    dataset_len empty_loader = 0 /\
    call_body detect_methods demo_env (Some demo_trainer) None in_training_empty
      = (let* stats := aggregate detect_methods Profile4 in
         report detect_methods demo_env (Some demo_trainer) mdl stats) w1 /\
    jdict (hst w1) = Some [] /\
    (forall r, fst (call_body detect_methods demo_env (Some demo_trainer) None
                      in_training_empty) <> Ok r) /\
    (forall stats h1 h2 h3,
       get_stats detect_methods (self w1) (hst w1) = (Ok stats, h1) ->
       check_stats detect_methods stats (self w1) h1 = (Ok tt, h2) ->
       print_results detect_methods (self w1) h2 = (Ok tt, h3) ->
       call_body detect_methods demo_env (Some demo_trainer) None in_training_empty =
         (Raise ZeroDivisionError,
          set_trace (trace w1 ++ [EGetStats stats; ECheckStats stats; EPrintResults])
            (with_hst h3 w1))).
Proof.
  assert (exists mdl w1,
            until_loop detect_methods demo_env (Some demo_trainer) None in_training_empty
              = (Ok (mdl, empty_loader), w1))
    as (mdl & w1 & H) by (eexists _, _; vm_compute; reflexivity).
  exists mdl, w1. split; [exact H|]. split; [reflexivity|]. split; [reflexivity|].
  exact (empty_dataset_divides_by_zero H eq_refl eq_refl).
Defined.

(** The empty run, computed: the division error, after the three calls of
    the aggregation and nothing of the pipeline. *)
Example run_empty_dataset :
  fst (call detect_methods demo_env (Some demo_trainer) None in_training_empty)
    = Raise ZeroDivisionError /\
  filter is_pipeline_event
    (trace (snd (call detect_methods demo_env (Some demo_trainer) None in_training_empty)))
    = [].
Proof. split; vm_compute; reflexivity. Qed.

(** The call raises what the criterion raised, after one preprocess and one
    inference, and the autograd switch is on again. *)
Example run_failing_criterion :
  let out := call detect_methods failing_criterion_env (Some demo_trainer) None in_training in
  fst out = Raise (StageError "criterion") /\
  filter is_pipeline_event (trace (snd out)) = [EPreprocess 1 10; EInfer 10 11] /\
  grad_enabled (snd out) = true.
Proof. cbv zeta. split_and!; vm_compute; reflexivity. Qed.

(** C6 on the code: a validator that fills [self.jdict] and keeps the
    [eval_json] of the base class.  [get_stats] returned a metric, the export
    happened, and the call returns [None] instead of the stats. *)
Theorem base_eval_json_returns_none :
  let out := call detect_methods demo_env None (Some "yolov8n.pt") fresh in
  eval_json detect_methods = eval_json (base_methods : DMethods) /\
  filter is_get_stats (trace (snd out)) = [EGetStats {["metrics/mAP" := 50%Z]}] /\
  filter is_json_dump (trace (snd out))
    = [EJsonDump [12; 22] ["runs"; "detect"; "val"; "predictions.json"]] /\
  filter is_eval_json (trace (snd out)) = [EEvalJson {["metrics/mAP" := 50%Z]}] /\
  fst out = Ok None.
Proof. cbv zeta. split_and!; [reflexivity|vm_compute; reflexivity..]. Qed.

(** C8 on the code: the dataset descriptor has a test split and no
    validation split, no dataloader was supplied, and the call raises the
    attribute error of [data.set] before any dataloader is built. *)
Theorem test_split_fallback_raises :
  let out := call detect_methods demo_env None (Some "yolov8n.pt") test_only in
  dataloader (self test_only) = None /\
  dataset_of "test-only.yaml" !! "val" = None /\
  dataset_of "test-only.yaml" !! "test" = Some "images/test" /\
  fst out = Raise (AttributeError "'dict' object has no attribute 'set'") /\
  dataloader (self (snd out)) = None /\
  filter is_get_dataloader (trace (snd out)) = [].
Proof. cbv zeta. split_and!; vm_compute; reflexivity. Qed.

(** ** Further runs *)

Lemma demo_resolution_returns : resolution_returns demo_env.
Proof.
  unfold resolution_returns, returns.
  split_and!; intros; eexists _, _; reflexivity.
Defined.

Lemma demo_stages_return : stages_return detect_methods demo_env.
Proof.
  unfold stages_return, returns.
  split_and!; intros; eexists _, _; reflexivity.
Defined.

Lemma demo_finish_returns : finish_returns detect_methods demo_env.
Proof.
  unfold finish_returns, returns.
  split_and!; intros; eexists _, _; reflexivity.
Defined.

Lemma dataset_check_by_suffix_witness :
  exists mdl w1,
    resolve detect_methods demo_env None (Some "yolov8n.pt") fresh = (Ok mdl, w1) /\
    exists evs,
      trace w1 = trace fresh ++ evs /\
      length (filter is_dataset_check evs) = 1 /\
      (length (filter is_dataset_yaml_check evs) = 1
         <-> exists p, a_data (args (self fresh)) = p +:+ ".yaml") /\
      (length (filter is_dataset_yaml_check evs) = 0
         <-> ~ exists p, a_data (args (self fresh)) = p +:+ ".yaml").
Proof.
  assert (exists mdl w1,
            resolve detect_methods demo_env None (Some "yolov8n.pt") fresh = (Ok mdl, w1))
    as (mdl & w1 & H) by (eexists _, _; vm_compute; reflexivity).
  exists mdl, w1. split; [exact H|]. exact (dataset_check_by_suffix H).
Defined.

Lemma supplied_dataloader_kept_witness :
  resolution_returns demo_env /\
  dataloader (self test_only_with_loader) = Some val_loader /\
  batches val_loader <> [] /\
  exists mdl w1,
    resolve detect_methods demo_env None (Some "yolov8n.pt") test_only_with_loader
      = (Ok mdl, w1) /\
    dataloader (self w1) = Some val_loader /\
    filter is_get_dataloader (trace w1)
      = filter is_get_dataloader (trace test_only_with_loader).
Proof.
  split; [exact demo_resolution_returns|]. split; [reflexivity|].
  split; [discriminate|].
  apply supplied_dataloader_kept;
    [exact demo_resolution_returns | reflexivity | discriminate].
Defined.

Lemma dataloader_built_on_val_witness :
  supplied (dataloader (self empty_supplied)) = None /\
  exists mdl w1,
    resolve detect_methods demo_env None (Some "yolov8n.onnx") empty_supplied
      = (Ok mdl, w1) /\
    exists evs dev dnn fp16 bk d path dl,
      trace w1 = trace empty_supplied ++ evs ++
        [dataset_event (a_data (args (self empty_supplied))) d;
         EGetDataloader path
           (resolved_batch_size bk (a_batch_size (args (self empty_supplied)))) dl] /\
      EAutoBackend "yolov8n.onnx" dev dnn fp16 bk ∈ evs /\
      filter is_get_dataloader evs = [] /\
      d !! "val" = Some path /\
      path <> "" /\
      dataloader (self w1) = Some dl /\
      a_batch_size (args (self w1))
        = resolved_batch_size bk (a_batch_size (args (self empty_supplied))).
Proof.
  split; [reflexivity|].
  assert (exists mdl w1,
            resolve detect_methods demo_env None (Some "yolov8n.onnx") empty_supplied
              = (Ok mdl, w1))
    as (mdl & w1 & H) by (eexists _, _; vm_compute; reflexivity).
  exists mdl, w1. split; [exact H|].
  eapply dataloader_built_on_val; [reflexivity | exact H].
Defined.

Lemma embedded_needs_dataloader_witness :
  dataloader (self fresh) = None /\
  fst (call detect_methods demo_env (Some demo_trainer) None fresh)
    = Raise (TypeError "object of type 'NoneType' has no len()") /\
  trace (snd (call detect_methods demo_env (Some demo_trainer) None fresh))
    = trace fresh ++
      [if a_half (args (self fresh))
          && negb (bool_decide (d_type (t_device demo_trainer) = "cpu"))
       then EModelHalf (default (t_model demo_trainer) (t_ema demo_trainer))
       else EModelFloat (default (t_model demo_trainer) (t_ema demo_trainer));
       EModelEval (default (t_model demo_trainer) (t_ema demo_trainer))].
Proof.
  split; [reflexivity|].
  apply embedded_needs_dataloader. reflexivity.
Defined.

Lemma plots_first_three_witness :
  exists r w',
    call detect_methods demo_env (Some demo_trainer) None in_training = (Ok r, w') /\
    exists evs d,
      trace w' = trace in_training ++ evs /\
      dataloader (self w') = Some d /\
      length (filter is_plot_val evs)
        = (if a_plots (args (self w')) then Nat.min (length (batches d)) 3 else 0) /\
      length (filter is_plot_pred evs)
        = (if a_plots (args (self w')) then Nat.min (length (batches d)) 3 else 0) /\
      (forall b ni, EPlotValSamples b ni ∈ evs -> ni < 3) /\
      (forall b p ni, EPlotPredictions b p ni ∈ evs -> ni < 3).
Proof.
  assert (exists r w',
            call detect_methods demo_env (Some demo_trainer) None in_training = (Ok r, w'))
    as (r & w' & H) by (eexists _, _; vm_compute; reflexivity).
  exists r, w'. split; [exact H|]. exact (plots_first_three H).
Defined.

(** The plots of that run: the four batches give three pairs of plots. *)
Example run_plots :
  filter (fun e => orb (is_plot_val e) (is_plot_pred e))
    (trace (snd (call detect_methods demo_env (Some demo_trainer) None in_training)))
  = [EPlotValSamples 10 0; EPlotPredictions 10 12 0;
     EPlotValSamples 20 1; EPlotPredictions 20 22 1;
     EPlotValSamples 30 2; EPlotPredictions 30 32 2].
Proof. vm_compute. reflexivity. Qed.

Lemma embedded_no_half_on_cpu_witness :
  d_type (t_device cpu_trainer) = "cpu" /\
  a_half (args (self (snd (call detect_methods demo_env (Some cpu_trainer) None
                             in_training)))) = false /\
  filter is_model_half
    (trace (snd (call detect_methods demo_env (Some cpu_trainer) None in_training)))
    = filter is_model_half (trace in_training).
Proof.
  split; [reflexivity|].
  apply embedded_no_half_on_cpu. reflexivity.
Defined.

Lemma standalone_no_fp16_on_cpu_witness :
  exists mdl w1,
    let evs :=
      [ESelectDevice "0" 16 cpu;
       EAutoBackend "yolov8n.pt" cpu false false (backend_of "yolov8n.pt");
       ECheckImgsz 640 32 640;
       ECheckDatasetYaml "coco128.yaml" (dataset_of "coco128.yaml");
       EGetDataloader "images/val" 16 val_loader] in
    resolve detect_methods cpu_env None (Some "yolov8n.pt") fresh = (Ok mdl, w1) /\
    trace w1 = trace fresh ++ evs /\
    EAutoBackend "yolov8n.pt" cpu false false (backend_of "yolov8n.pt") ∈ evs /\
    d_type cpu = "cpu" /\
    false = false /\ a_half (args (self w1)) = false.
Proof.
  assert (exists mdl w1,
            resolve detect_methods cpu_env None (Some "yolov8n.pt") fresh = (Ok mdl, w1) /\
            trace w1 = trace fresh ++
              [ESelectDevice "0" 16 cpu;
               EAutoBackend "yolov8n.pt" cpu false false (backend_of "yolov8n.pt");
               ECheckImgsz 640 32 640;
               ECheckDatasetYaml "coco128.yaml" (dataset_of "coco128.yaml");
               EGetDataloader "images/val" 16 val_loader])
    as (mdl & w1 & H & Ht)
    by (eexists _, _; split; vm_compute; reflexivity).
  exists mdl, w1. cbv zeta.
  split; [exact H|]. split; [exact Ht|].
  assert (forall A (x y : A) l, x ∈ y :: x :: l) as Hin
    by (intros; apply list_elem_of_further, list_elem_of_here).
  split; [apply Hin|]. split; [reflexivity|].
  exact (standalone_no_fp16_on_cpu H Ht (Hin _ _ _ _) eq_refl).
Defined.

Lemma batch_i_last_witness :
  exists r w',
    call detect_methods demo_env (Some demo_trainer) None in_training = (Ok r, w') /\
    exists d,
      dataloader (self w') = Some d /\
      batch_i (self w') = match batches d with
                          | [] => batch_i (self in_training)
                          | _ :: _ => Some (length (batches d) - 1)
                          end.
Proof.
  assert (exists r w',
            call detect_methods demo_env (Some demo_trainer) None in_training = (Ok r, w'))
    as (r & w' & H) by (eexists _, _; vm_compute; reflexivity).
  exists r, w'. split; [exact H|]. exact (batch_i_last H).
Defined.

Lemma call_aborts_at_raising_batch_witness :
  exists mdl w1 dt1 w2 e w3,
    until_loop picky_methods demo_env (Some demo_trainer) None in_training
      = (Ok (mdl, train_val_loader), w1) /\
    batches train_val_loader = [1; 2] ++ 3 :: [4] /\
    batch_loop picky_methods demo_env (Some demo_trainer) mdl 0 [1; 2] Profile4 w1
      = (Ok dt1, w2) /\
    run_batch picky_methods demo_env (Some demo_trainer) mdl (length [1; 2]) 3 dt1 w2
      = (Raise e, w3) /\
    call_body picky_methods demo_env (Some demo_trainer) None in_training = (Raise e, w3).
Proof.
  assert (exists mdl w1 dt1 w2 e w3,
    until_loop picky_methods demo_env (Some demo_trainer) None in_training
      = (Ok (mdl, train_val_loader), w1) /\
    batch_loop picky_methods demo_env (Some demo_trainer) mdl 0 [1; 2] Profile4 w1
      = (Ok dt1, w2) /\
    run_batch picky_methods demo_env (Some demo_trainer) mdl (length [1; 2]) 3 dt1 w2
      = (Raise e, w3))
    as (mdl & w1 & dt1 & w2 & e & w3 & H1 & H2 & H3)
    by (eexists _, _, _, _, _, _; split_and!; vm_compute; reflexivity).
  exists mdl, w1, dt1, w2, e, w3.
  split; [exact H1|]. split; [reflexivity|]. split; [exact H2|]. split; [exact H3|].
  eapply (call_aborts_at_raising_batch (bs1:=[1; 2]) (b:=3) (bs2:=[4])); [exact H1 | reflexivity | exact H2 | exact H3].
Defined.

(** That run, computed: the third batch raises, the fourth is never
    preprocessed and nothing is aggregated. *)
Example run_picky :
  let out := call picky_methods demo_env (Some demo_trainer) None in_training in
  fst out = Raise (StageError "preprocess") /\
  filter is_update_metrics (trace (snd out))
    = [EUpdateMetrics 12 10; EUpdateMetrics 22 20] /\
  filter is_get_stats (trace (snd out)) = [].
Proof. cbv zeta. split_and!; vm_compute; reflexivity. Qed.

Lemma half_model_left_on_failure_witness :
  a_half (args (self in_training)) = true /\
  d_type (t_device demo_trainer) <> "cpu" /\
  exists e w',
    until_report detect_methods failing_criterion_env (Some demo_trainer) None in_training
      = (Raise e, w') /\
    call_body detect_methods failing_criterion_env (Some demo_trainer) None in_training
      = (Raise e, w') /\
    filter is_model_precision (trace w')
      = filter is_model_precision (trace in_training)
        ++ [EModelHalf (default (t_model demo_trainer) (t_ema demo_trainer))].
Proof.
  split; [reflexivity|]. split; [discriminate|].
  assert (exists e w',
            until_report detect_methods failing_criterion_env (Some demo_trainer) None
              in_training = (Raise e, w'))
    as (e & w' & H) by (eexists _, _; vm_compute; reflexivity).
  exists e, w'. split; [exact H|].
  apply half_model_left_on_failure; [reflexivity | discriminate | exact H].
Defined.

Lemma base_cannot_build_dataloader_witness :
  (forall path bs,
     get_dataloader base path bs
       = hook_raise (NotImplementedError
           "get_dataloader function not implemented for this validator")) /\
  supplied (dataloader (self fresh)) = None /\
  forall r, fst (call base demo_env None (Some "yolov8n.pt") fresh) <> Ok r.
Proof.
  split; [reflexivity|]. split; [reflexivity|].
  apply base_cannot_build_dataloader; [reflexivity | reflexivity].
Defined.

(** The base class run standalone without a dataloader, computed. *)
Example run_base_standalone :
  fst (call base demo_env None (Some "yolov8n.pt") fresh)
  = Raise (NotImplementedError "get_dataloader function not implemented for this validator").
Proof. vm_compute. reflexivity. Qed.

Lemma phases_in_order_witness :
  exists r w',
    call coco_methods demo_env None (Some "yolov8n.pt") fresh = (Ok r, w') /\
    exists res mdl loop stats rep,
      trace w' = trace fresh
        ++ res
        ++ [EModelEval mdl; EGetDesc; EInitMetrics (de_parallel demo_env mdl)]
        ++ loop
        ++ [EGetStats stats; ECheckStats stats; EPrintResults]
        ++ rep /\
      model (self w') = Some mdl /\
      Forall (fun e => is_resolution_event e = true) res /\
      Forall (fun e => is_pipeline_event e = true) loop /\
      Forall (fun e => is_report_event e = true) rep.
Proof.
  assert (exists r w',
            call coco_methods demo_env None (Some "yolov8n.pt") fresh = (Ok r, w'))
    as (r & w' & H) by (eexists _, _; vm_compute; reflexivity).
  exists r, w'. split; [exact H|]. exact (phases_in_order H).
Defined.

Lemma default_stages_pass_through_witness :
  (forall b, preprocess base b = hook_ret b) /\
  (forall p, postprocess base p = hook_ret p) /\
  exists r w',
    call base demo_env None (Some "yolov8n.pt") with_loader = (Ok r, w') /\
    exists d mdl pre chunks post,
      dataloader (self w') = Some d /\
      model (self w') = Some mdl /\
      trace w' = trace with_loader ++ pre ++ concat chunks ++ post /\
      Forall2 (pass_through_chunk demo_env mdl (is_embedded (@None (@Trainer string Z)))
                 (a_plots (args (self w'))))
              (enumerate_from 0 (batches d)) chunks /\
      filter is_pipeline_event pre = [] /\
      filter is_pipeline_event post = [].
Proof.
  split; [reflexivity|]. split; [reflexivity|].
  assert (exists r w',
            call base demo_env None (Some "yolov8n.pt") with_loader = (Ok r, w'))
    as (r & w' & H) by (eexists _, _; vm_compute; reflexivity).
  exists r, w'. split; [exact H|].
  eapply (default_stages_pass_through (ms:=base)); [reflexivity | reflexivity | exact H].
Defined.

(** The base class over a supplied dataloader: empty stats, raw
    predictions to [update_metrics]. *)
Example run_base_with_loader :
  let out := call base demo_env None (Some "yolov8n.pt") with_loader in
  fst out = Ok (Some ∅) /\
  filter is_update_metrics (trace (snd out)) = [EUpdateMetrics 2 1; EUpdateMetrics 3 2].
Proof. cbv zeta. split; vm_compute; reflexivity. Qed.

Lemma call_returns_witness :
  stages_return detect_methods demo_env /\
  finish_returns detect_methods demo_env /\
  exists mdl w1,
    until_loop detect_methods demo_env (Some demo_trainer) None in_training
      = (Ok (mdl, train_val_loader), w1) /\
    dataset_len train_val_loader <> 0 /\
    exists r w',
      call_body detect_methods demo_env (Some demo_trainer) None in_training = (Ok r, w').
Proof.
  split; [exact demo_stages_return|]. split; [exact demo_finish_returns|].
  assert (exists mdl w1,
            until_loop detect_methods demo_env (Some demo_trainer) None in_training
              = (Ok (mdl, train_val_loader), w1))
    as (mdl & w1 & H) by (eexists _, _; vm_compute; reflexivity).
  exists mdl, w1. split; [exact H|]. split; [discriminate|].
  eapply call_returns;
    [exact demo_stages_return | exact demo_finish_returns | exact H | discriminate].
Defined.

Lemma demo_base_no_records : no_records base demo_env.
Proof.
  unfold no_records, keeps_jdict. split_and!; intros; reflexivity.
Defined.

Lemma no_records_no_export_witness :
  no_records base demo_env /\
  exists mdl stats w2,
    until_report base demo_env None (Some "yolov8n.pt") stale_records
      = (Ok (mdl, stats), w2) /\
    jdict (hst w2) = Some [] /\
    exists sp,
      speed (self w2) = Some sp /\
      call_body base demo_env None (Some "yolov8n.pt") stale_records
        = (Ok (Some stats), logged (ELogSpeed sp) w2).
Proof.
  split; [exact demo_base_no_records|].
  assert (exists mdl stats w2,
            until_report base demo_env None (Some "yolov8n.pt") stale_records
              = (Ok (mdl, stats), w2))
    as (mdl & stats & w2 & H) by (eexists _, _, _; vm_compute; reflexivity).
  exists mdl, stats, w2. split; [exact H|].
  exact (no_records_no_export demo_base_no_records H).
Defined.

Lemma standalone_device_by_backend_witness :
  exists mdl w1,
    resolve detect_methods cpu_env None (Some "yolov8n.pt") fresh = (Ok mdl, w1) /\
    exists evs dev dnn fp16 bk,
      trace w1 = trace fresh ++ evs /\
      ESelectDevice (a_device (args (self fresh))) (a_batch_size (args (self fresh))) dev
        ∈ evs /\
      EAutoBackend "yolov8n.pt" dev dnn fp16 bk ∈ evs /\
      mdl = bk_callable bk /\
      model (self w1) = Some mdl /\
      device (self w1) = Some (if engine bk then dev else bk_device bk).
Proof.
  assert (exists mdl w1,
            resolve detect_methods cpu_env None (Some "yolov8n.pt") fresh = (Ok mdl, w1))
    as (mdl & w1 & H) by (eexists _, _; vm_compute; reflexivity).
  exists mdl, w1. split; [exact H|]. exact (standalone_device_by_backend H).
Defined.

(** That resolution, computed: the CPU was selected and the backend of a
    [.pt] file sits on its own device, which [self.device] takes over. *)
Example run_cpu_selected :
  device (self (snd (resolve detect_methods cpu_env None (Some "yolov8n.pt") fresh)))
  = Some cuda.
Proof. vm_compute. reflexivity. Qed.

Lemma base_class_returns_empty_stats_witness :
  (forall mdl x, keeps_jdict (forward demo_env mdl x)) /\
  exists r w',
    call base_methods demo_env None (Some "yolov8n.pt") stale_records = (Ok r, w') /\
    r = Some ∅ /\
    jdict (hst w') = Some [] /\
    filter is_json_dump (trace w') = filter is_json_dump (trace stale_records) /\
    filter is_eval_json (trace w') = filter is_eval_json (trace stale_records).
Proof.
  assert (forall mdl x, keeps_jdict (forward demo_env mdl x)) as Hfwd
    by (intros mdl x s hs; reflexivity).
  split; [exact Hfwd|].
  assert (exists r w',
            call base_methods demo_env None (Some "yolov8n.pt") stale_records = (Ok r, w'))
    as (r & w' & H) by (eexists _, _; vm_compute; reflexivity).
  exists r, w'. split; [exact H|]. exact (base_class_returns_empty_stats Hfwd H).
Defined.

(** ** The inference context at work *)

Lemma demo_hooks_keep_grad : hooks_keep_grad detect_methods failing_criterion_env.
Proof.
  unfold hooks_keep_grad, keeps_grad.
  split; split_and!; intros; reflexivity.
Defined.

Lemma inference_context_scoped_witness :
  let out := call detect_methods failing_criterion_env (Some demo_trainer) None in_training in
  hooks_keep_grad detect_methods failing_criterion_env /\
  fst out = Raise (StageError "criterion") /\
  grad_enabled (snd out) = grad_enabled in_training /\
  (forall g,
     call detect_methods failing_criterion_env (Some demo_trainer) None
         (with_grad g in_training)
       = (fst out, with_grad g (snd out))) /\
  call (guard_methods detect_methods) (guard_env failing_criterion_env)
      (Some demo_trainer) None in_training = out.
Proof.
  cbv zeta. split; [exact demo_hooks_keep_grad|].
  split; [vm_compute; reflexivity|].
  destruct (inference_context_scoped detect_methods failing_criterion_env
              (Some demo_trainer) None in_training) as (Hexit & _ & Hcaller & Hguard).
  split; [exact Hexit|]. split; [exact Hcaller|].
  exact (Hguard demo_hooks_keep_grad).
Defined.

(** A validator whose methods and collaborators refuse to run under
    recorded gradients, called by a caller that records them: the call
    goes through, while its body, run without the decorator, stops at the
    first method. *)
Example run_guarded :
  grad_enabled in_training = true /\
  fst (call (guard_methods detect_methods) (guard_env demo_env) (Some demo_trainer) None
         in_training)
    = Ok (Some {["metrics/mAP" := 50%Z; "val/box_loss" := 2%Z]}) /\
  fst (call_body (guard_methods detect_methods) (guard_env demo_env) (Some demo_trainer)
         None in_training)
    = Raise (StageError "gradients are enabled").
Proof. split_and!; vm_compute; reflexivity. Qed.

(** A model that turns gradient recording on, under a caller that runs
    without: the body ends with the switch on, and the caller finds it off
    as it left it. *)
Example run_grad_turned_on :
  grad_enabled no_grad_caller = false /\
  grad_enabled (snd (call_body detect_methods grad_on_env (Some demo_trainer) None
                       (with_grad false no_grad_caller))) = true /\
  grad_enabled (snd (call detect_methods grad_on_env (Some demo_trainer) None
                       no_grad_caller)) = false.
Proof. split_and!; vm_compute; reflexivity. Qed.
